(** * compile_periodic: the isotope selector of tools/compile_periodic.py

    A shallow embedding of the script that merges the periodic table with the
    NMR table and prints the result as a JavaScript module, followed by the
    properties of the selection rule, of the emitted text and of its JSON
    payload. *)

From Stdlib Require Import ZArith QArith Qminmax List String Ascii Bool Lia.
From Stdlib Require Import DecimalFacts DecimalPos.
From stdpp Require Import base option gmap strings.
Import ListNotations.

Local Open Scope string_scope.
Local Open Scope list_scope.

(** ** Python numbers

    The tables hold ints and finite floats.  The script never computes with
    them: it copies them, compares them ([==], [<], [>], truthiness) and
    prints them.  A number is therefore its constructor together with a
    rational: an int is itself, and a float is the decimal that [repr] prints
    for it (the float written 0.6 is 6/10).  Python compares ints and finite
    floats by value, and [repr] is strictly increasing on finite floats, so
    comparing these rationals is comparing the numbers.  NaN and the
    infinities are outside the model. *)

Inductive pynum : Type :=
| PyInt (z : Z)
| PyFloat (q : Q).

Definition num_val (n : pynum) : Q :=
  match n with
  | PyInt z => inject_Z z
  | PyFloat q => q
  end.

(** [a == b], [a < b], [a > b] *)
Definition num_eqb (a b : pynum) : bool := Qeq_bool (num_val a) (num_val b).
Definition num_ltb (a b : pynum) : bool := negb (Qle_bool (num_val b) (num_val a)).
Definition num_gtb (a b : pynum) : bool := num_ltb b a.

(** [bool(n)] for a number, and for a variable that may hold [None] *)
Definition num_truthy (n : pynum) : bool := negb (num_eqb n (PyInt 0)).
Definition truthy (o : option pynum) : bool :=
  match o with
  | Some n => num_truthy n
  | None => false
  end.

(** [min(a, b)]: the first of the smallest *)
Definition py_min (a b : pynum) : pynum := if num_ltb b a then b else a.

(** ** [str] of an int *)

Fixpoint uint_chars (d : Decimal.uint) : list ascii :=
  match d with
  | Decimal.Nil => []
  | Decimal.D0 d => "0"%char :: uint_chars d
  | Decimal.D1 d => "1"%char :: uint_chars d
  | Decimal.D2 d => "2"%char :: uint_chars d
  | Decimal.D3 d => "3"%char :: uint_chars d
  | Decimal.D4 d => "4"%char :: uint_chars d
  | Decimal.D5 d => "5"%char :: uint_chars d
  | Decimal.D6 d => "6"%char :: uint_chars d
  | Decimal.D7 d => "7"%char :: uint_chars d
  | Decimal.D8 d => "8"%char :: uint_chars d
  | Decimal.D9 d => "9"%char :: uint_chars d
  end.

Definition int_chars (z : Z) : list ascii :=
  match Z.to_int z with
  | Decimal.Pos d => uint_chars d
  | Decimal.Neg d => "-"%char :: uint_chars d
  end.

Definition str (z : Z) : string := string_of_list_ascii (int_chars z).

(** ** Python dicts

    A dict keeps its keys in insertion order, and assigning to a key that is
    already there replaces the value in place. *)

Definition dict (K V : Type) : Type := list (K * V).

Section dict_ops.
Context {K V : Type} `{EqDecision K}.

Fixpoint dict_set (d : dict K V) (k : K) (v : V) : dict K V :=
  match d with
  | [] => [(k, v)]
  | (k', v') :: d' =>
      if decide (k' = k) then (k, v) :: d' else (k', v') :: dict_set d' k v
  end.

Fixpoint dict_get (d : dict K V) (k : K) : option V :=
  match d with
  | [] => None
  | (k', v') :: d' => if decide (k' = k) then Some v' else dict_get d' k
  end.

Definition dict_keys (d : dict K V) : list K := d.*1.
End dict_ops.

(** ** The two source tables *)

(** An isotope of [periodictable]: [iso.mass], [iso.isotope], [iso.abundance]. *)
Record Isotope : Type := mkIsotope {
  mass : pynum;
  isotope : Z;
  abundance : pynum
}.

(** An element of [periodictable]: [el.symbol], [el.number], and the isotopes
    that iterating over [el] yields, in that order. *)
Record Element : Type := mkElement {
  symbol : string;
  number : Z;
  el_isotopes : list Isotope
}.

(** [_nmr_data]: symbol -> mass number (as a string) -> field -> value. *)
Definition nmr_record : Type := gmap string pynum.
Definition nmr_table : Type := gmap string (gmap string (gmap string pynum)).

(** ** The records the script builds *)

(** The dict stored at [data['isotopes'][A]]. *)
Record IsotopeRecord : Type := mkIsotopeRecord {
  rec_A : Z;
  rec_mass : pynum;
  rec_abundance : pynum;
  rec_spin : option pynum;
  rec_gamma : option pynum;
  rec_Q : option pynum
}.

(** The dict [data] once the three pointers are stored. *)
Record ElementRecord : Type := mkElementRecord {
  data_symbol : string;
  data_Z : Z;
  data_isotopes : dict Z IsotopeRecord;
  maxiso : option string;
  maxiso_NMR : option string;
  maxiso_Q : option string
}.

(** The variables the isotope loop updates. *)
Record scan_state : Type := mkState {
  most_iso : option Z;
  most_iso_ab : pynum;
  most_NMR_iso : option Z;
  most_NMR_iso_ab : pynum;
  most_Q_iso : option Z;
  most_Q_iso_ab : pynum;
  isotopes : dict Z IsotopeRecord
}.

Definition init_state : scan_state :=
  {| most_iso := None; most_iso_ab := PyInt 0;
     most_NMR_iso := None; most_NMR_iso_ab := PyInt 0;
     most_Q_iso := None; most_Q_iso_ab := PyInt 0;
     isotopes := [] |}.

(** ** The isotope loop *)

Definition mu_mass : pynum := PyFloat 0.113428913072988.

(** Lines 52-56: [None] is [continue]; otherwise the value of [spin] after
    the block. *)
Definition retention (st : scan_state) (ab : pynum) (spin : option pynum)
  : option (option pynum) :=
  match spin with
  | None =>
      if num_ltb ab (py_min (most_NMR_iso_ab st) (most_Q_iso_ab st))
      then None
      else Some (Some (PyInt 0))
  | Some _ => Some spin
  end.

(** One turn of [for iso in el] (lines 33-77). *)
Definition iso_step (sym : string) (nmr : gmap string (gmap string pynum))
    (st : scan_state) (iso : Isotope) : scan_state :=
  let mass := if decide (sym = "Mu") then mu_mass else mass iso in
  let A := isotope iso in
  let ab := abundance iso in
  if num_eqb ab (PyInt 0) then st
  else
    let iso_nmr := default ∅ (nmr !! str A) in
    let spin := iso_nmr !! "I" in
    let gamma := iso_nmr !! "gamma" in
    let Qm := iso_nmr !! "Q" in
    match retention st ab spin with
    | None => st
    | Some spin =>
        let '(most_iso', most_iso_ab') :=
          if num_gtb ab (most_iso_ab st) then (Some A, ab)
          else (most_iso st, most_iso_ab st) in
        let '(most_NMR_iso', most_NMR_iso_ab') :=
          if num_gtb ab (most_NMR_iso_ab st) && truthy spin then (Some A, ab)
          else (most_NMR_iso st, most_NMR_iso_ab st) in
        let '(most_Q_iso', most_Q_iso_ab') :=
          if num_gtb ab (most_Q_iso_ab st) && truthy Qm then (Some A, ab)
          else (most_Q_iso st, most_Q_iso_ab st) in
        {| most_iso := most_iso'; most_iso_ab := most_iso_ab';
           most_NMR_iso := most_NMR_iso'; most_NMR_iso_ab := most_NMR_iso_ab';
           most_Q_iso := most_Q_iso'; most_Q_iso_ab := most_Q_iso_ab';
           isotopes :=
             dict_set (isotopes st) A
               {| rec_A := A; rec_mass := mass; rec_abundance := ab;
                  rec_spin := spin; rec_gamma := gamma; rec_Q := Qm |} |}
    end.

Definition scan (sym : string) (nmr : gmap string (gmap string pynum))
    (isos : list Isotope) (st : scan_state) : scan_state :=
  fold_left (iso_step sym nmr) isos st.

(** ** The element loop *)

(** Lines 11-13. *)
Definition out_symbol (sym : string) : string :=
  if decide (sym = "n") then "Mu" else sym.

(** [str(m) if m else None] (lines 83-85). *)
Definition pointer (m : option Z) : option string :=
  match m with
  | Some a => if decide (a = 0%Z) then None else Some (str a)
  | None => None
  end.

(** One turn of [for el in elements] up to line 85: [None] is the [continue]
    of line 81, otherwise the finished [data]. *)
Definition compile_element (_nmr_data : nmr_table) (el : Element)
  : option ElementRecord :=
  let sym := out_symbol (symbol el) in
  let nmr := default ∅ (_nmr_data !! sym) in
  let st := scan sym nmr (el_isotopes el) init_state in
  match most_iso st with
  | None => None
  | Some _ =>
      Some {| data_symbol := sym; data_Z := number el;
              data_isotopes := isotopes st;
              maxiso := pointer (most_iso st);
              maxiso_NMR := pointer (most_NMR_iso st);
              maxiso_Q := pointer (most_Q_iso st) |}
  end.

(** Line 87, or nothing after the [continue]. *)
Definition element_step (_nmr_data : nmr_table)
    (acc : dict string ElementRecord) (el : Element) : dict string ElementRecord :=
  match compile_element _nmr_data el with
  | None => acc
  | Some data => dict_set acc (data_symbol data) data
  end.

(** [element_data] after the loop of lines 7-87. *)
Definition element_data (_nmr_data : nmr_table) (elements : list Element)
  : dict string ElementRecord :=
  fold_left (element_step _nmr_data) elements [].

(** ** The three running maxima, uniformly *)

Inductive category : Type := Overall | NMRActive | Quadrupolar.

(** What line 58, 62 or 66 asks of the isotope besides a larger abundance. *)
Definition qualifies (c : category) (r : IsotopeRecord) : bool :=
  match c with
  | Overall => true
  | NMRActive => truthy (rec_spin r)
  | Quadrupolar => truthy (rec_Q r)
  end.

Definition ptr (c : category) (st : scan_state) : option Z :=
  match c with
  | Overall => most_iso st
  | NMRActive => most_NMR_iso st
  | Quadrupolar => most_Q_iso st
  end.

Definition ptr_ab (c : category) (st : scan_state) : pynum :=
  match c with
  | Overall => most_iso_ab st
  | NMRActive => most_NMR_iso_ab st
  | Quadrupolar => most_Q_iso_ab st
  end.

Definition data_ptr (c : category) (data : ElementRecord) : option string :=
  match c with
  | Overall => maxiso data
  | NMRActive => maxiso_NMR data
  | Quadrupolar => maxiso_Q data
  end.

(** [r] is what the loop stores for [iso] when it stores anything. *)
Definition recorded (sym : string) (nmr : gmap string (gmap string pynum))
    (iso : Isotope) (r : IsotopeRecord) : Prop :=
  let iso_nmr := default ∅ (nmr !! str (isotope iso)) in
  rec_A r = isotope iso /\
  rec_mass r = (if decide (sym = "Mu") then mu_mass else mass iso) /\
  rec_abundance r = abundance iso /\
  num_eqb (abundance iso) (PyInt 0) = false /\
  rec_spin r = match iso_nmr !! "I" with Some s => Some s | None => Some (PyInt 0) end /\
  rec_gamma r = iso_nmr !! "gamma" /\
  rec_Q r = iso_nmr !! "Q".

(** ** The invariant of a maximum

    After the isotopes [isos] (distinct mass numbers), for each category: no
    stored qualifying record exceeds the running abundance; and the pointer,
    once set, names a stored qualifying record carrying exactly the running
    abundance, which every stored qualifying record of an earlier isotope is
    strictly below. *)
Definition max_inv (c : category) (isos : list Isotope) (st : scan_state) : Prop :=
  (forall k, k ∈ dict_keys (isotopes st) -> k ∈ isotope <$> isos) /\
  (forall k r, dict_get (isotopes st) k = Some r -> qualifies c r = true ->
     (num_val (rec_abundance r) <= num_val (ptr_ab c st))%Q) /\
  (forall a, ptr c st = Some a ->
     exists pre x post r,
       isos = pre ++ x :: post /\ isotope x = a /\
       dict_get (isotopes st) a = Some r /\ qualifies c r = true /\
       rec_abundance r = ptr_ab c st /\ rec_abundance r = abundance x /\
       forall y r', y ∈ pre -> dict_get (isotopes st) (isotope y) = Some r' ->
         qualifies c r' = true ->
         (num_val (rec_abundance r') < num_val (rec_abundance r))%Q).

(** ** A small table to run the script on *)

Definition sample_nmr : nmr_table :=
  {[ "H" := {[ "1" := {[ "I" := PyFloat 0.5; "gamma" := PyFloat 267522128.0;
                         "Q" := PyFloat 0.0 ]};
               "2" := {[ "I" := PyFloat 1.0; "gamma" := PyFloat 41066279.1;
                         "Q" := PyFloat 2.86 ]} ]};
     "X" := {[ "10" := {[ "I" := PyFloat 0.5 ]} ]};
     "T" := {[ "100" := {[ "I" := PyFloat 1.5; "Q" := PyFloat 0.3 ]};
               "101" := {[ "I" := PyFloat 0.5; "Q" := PyFloat 0.1 ]} ]} ]}.

Definition sample_H : Element :=
  {| symbol := "H"; number := 1;
     el_isotopes :=
       [ {| mass := PyFloat 1.00782503223; isotope := 1; abundance := PyFloat 99.9885 |};
         {| mass := PyFloat 2.01410177812; isotope := 2; abundance := PyFloat 0.0115 |};
         {| mass := PyFloat 3.01604927791; isotope := 3; abundance := PyInt 0 |} ] |}.

(** The spec's scenario: A has a known spin, B has none and comes second. *)
Definition sample_A : Isotope :=
  {| mass := PyFloat 10.0129; isotope := 10; abundance := PyFloat 0.6 |}.
Definition sample_B : Isotope :=
  {| mass := PyFloat 11.0093; isotope := 11; abundance := PyFloat 0.9 |}.
Definition sample_X : Element :=
  {| symbol := "X"; number := 5; el_isotopes := [sample_A; sample_B] |}.

Definition sample_n : Element :=
  {| symbol := "n"; number := 0;
     el_isotopes :=
       [ {| mass := PyFloat 1.00866491597; isotope := 1; abundance := PyInt 100 |} ] |}.

(** Two isotopes of the same abundance, both with spin and quadrupole moment. *)
Definition sample_T : Element :=
  {| symbol := "T"; number := 7;
     el_isotopes :=
       [ {| mass := PyFloat 100.5; isotope := 100; abundance := PyFloat 50.0 |};
         {| mass := PyFloat 101.5; isotope := 101; abundance := PyFloat 50.0 |} ] |}.

(** An element none of whose isotopes occurs in nature. *)
Definition sample_Tc : Element :=
  {| symbol := "Tc"; number := 43;
     el_isotopes :=
       [ {| mass := PyFloat 97.9072124; isotope := 98; abundance := PyFloat 0.0 |} ] |}.

Definition sample_elements : list Element :=
  [sample_n; sample_H; sample_X; sample_Tc].

(** What the script builds from it, traced by hand. *)
Definition sample_Mu_data : ElementRecord :=
  {| data_symbol := "Mu"; data_Z := 0;
     data_isotopes :=
       [ (1%Z, {| rec_A := 1; rec_mass := mu_mass; rec_abundance := PyInt 100;
                  rec_spin := Some (PyInt 0); rec_gamma := None; rec_Q := None |}) ];
     maxiso := Some "1"; maxiso_NMR := None; maxiso_Q := None |}.

Definition sample_H_data : ElementRecord :=
  {| data_symbol := "H"; data_Z := 1;
     data_isotopes :=
       [ (1%Z, {| rec_A := 1; rec_mass := PyFloat 1.00782503223;
                  rec_abundance := PyFloat 99.9885;
                  rec_spin := Some (PyFloat 0.5);
                  rec_gamma := Some (PyFloat 267522128.0);
                  rec_Q := Some (PyFloat 0.0) |});
         (2%Z, {| rec_A := 2; rec_mass := PyFloat 2.01410177812;
                  rec_abundance := PyFloat 0.0115;
                  rec_spin := Some (PyFloat 1.0);
                  rec_gamma := Some (PyFloat 41066279.1);
                  rec_Q := Some (PyFloat 2.86) |}) ];
     maxiso := Some "1"; maxiso_NMR := Some "1"; maxiso_Q := Some "2" |}.

Definition sample_X_data : ElementRecord :=
  {| data_symbol := "X"; data_Z := 5;
     data_isotopes :=
       [ (10%Z, {| rec_A := 10; rec_mass := PyFloat 10.0129;
                   rec_abundance := PyFloat 0.6;
                   rec_spin := Some (PyFloat 0.5);
                   rec_gamma := None; rec_Q := None |});
         (11%Z, {| rec_A := 11; rec_mass := PyFloat 11.0093;
                   rec_abundance := PyFloat 0.9;
                   rec_spin := Some (PyInt 0);
                   rec_gamma := None; rec_Q := None |}) ];
     maxiso := Some "11"; maxiso_NMR := Some "10"; maxiso_Q := None |}.

Definition sample_T_data : ElementRecord :=
  {| data_symbol := "T"; data_Z := 7;
     data_isotopes :=
       [ (100%Z, {| rec_A := 100; rec_mass := PyFloat 100.5;
                    rec_abundance := PyFloat 50.0;
                    rec_spin := Some (PyFloat 1.5);
                    rec_gamma := None; rec_Q := Some (PyFloat 0.3) |});
         (101%Z, {| rec_A := 101; rec_mass := PyFloat 101.5;
                    rec_abundance := PyFloat 50.0;
                    rec_spin := Some (PyFloat 0.5);
                    rec_gamma := None; rec_Q := Some (PyFloat 0.1) |}) ];
     maxiso := Some "100"; maxiso_NMR := Some "100"; maxiso_Q := Some "100" |}.

Definition sample_output : dict string ElementRecord :=
  [ ("Mu", sample_Mu_data); ("H", sample_H_data); ("X", sample_X_data) ].

(** ** Python values, as [json] sees them

    Strings are sequences of code points below 256, one [ascii] each. *)

Inductive pykey : Type :=
| KStr (s : string)
| KInt (z : Z).

#[local] Unset Elimination Schemes.
Inductive pyval : Type :=
| PNone
| PNum (n : pynum)
| PStr (s : string)
| PDict (d : list (pykey * pyval)).
#[local] Set Elimination Schemes.

#[global] Instance pykey_eq_dec : EqDecision pykey.
Proof. solve_decision. Defined.

Definition py_opt_num (o : option pynum) : pyval :=
  match o with
  | Some n => PNum n
  | None => PNone
  end.

Definition py_opt_str (o : option string) : pyval :=
  match o with
  | Some s => PStr s
  | None => PNone
  end.

(** The dict of lines 70-77. *)
Definition py_isotope (r : IsotopeRecord) : pyval :=
  PDict [ (KStr "A", PNum (PyInt (rec_A r)));
          (KStr "mass", PNum (rec_mass r));
          (KStr "abundance", PNum (rec_abundance r));
          (KStr "spin", py_opt_num (rec_spin r));
          (KStr "gamma", py_opt_num (rec_gamma r));
          (KStr "Q", py_opt_num (rec_Q r)) ].

(** [data]: lines 15-19, then 83-85.  The keys of [isotopes] are the ints [A]. *)
Definition py_element (data : ElementRecord) : pyval :=
  PDict [ (KStr "symbol", PStr (data_symbol data));
          (KStr "Z", PNum (PyInt (data_Z data)));
          (KStr "isotopes",
             PDict (map (fun kv => (KInt (fst kv), py_isotope (snd kv)))
                      (data_isotopes data)));
          (KStr "maxiso", py_opt_str (maxiso data));
          (KStr "maxiso_NMR", py_opt_str (maxiso_NMR data));
          (KStr "maxiso_Q", py_opt_str (maxiso_Q data)) ].

Definition py_element_data (ed : dict string ElementRecord) : pyval :=
  PDict (map (fun kv => (KStr (fst kv), py_element (snd kv))) ed).

(** [a == b] for keys: a str is never equal to an int. *)
Definition key_eqb (a b : pykey) : bool :=
  match a, b with
  | KStr s, KStr t => String.eqb s t
  | KInt x, KInt y => Z.eqb x y
  | _, _ => false
  end.

Fixpoint py_get (d : list (pykey * pyval)) (k : pykey) : option pyval :=
  match d with
  | [] => None
  | (k', v) :: d' => if key_eqb k' k then Some v else py_get d' k
  end.

(** [a == b] for values.  Two dicts are equal when they have as many items
    and every key of the first is a key of the second with an equal value;
    the order of the items does not count. *)
Fixpoint py_eqb (a b : pyval) : bool :=
  match a, b with
  | PNone, PNone => true
  | PNum x, PNum y => num_eqb x y
  | PStr s, PStr t => String.eqb s t
  | PDict da, PDict db =>
      (length da =? length db)%nat &&
      forallb (fun kv =>
                 match py_get db (fst kv) with
                 | Some vb => py_eqb (snd kv) vb
                 | None => false
                 end) da
  | _, _ => false
  end.

(** ** [json.dumps(..., indent=2)] *)

Definition dq : ascii := "034"%char.
Definition bs : ascii := "092"%char.
Definition lf : ascii := "010"%char.

Definition hex_char (n : N) : ascii :=
  if (n <? 10)%N then ascii_of_N (48 + n) else ascii_of_N (87 + n).

(** [py_encode_basestring_ascii], one character. *)
Definition encode_char (c : ascii) : list ascii :=
  let n := N_of_ascii c in
  if (n =? 34)%N then [bs; dq]
  else if (n =? 92)%N then [bs; bs]
  else if (n =? 10)%N then [bs; "n"%char]
  else if (n =? 13)%N then [bs; "r"%char]
  else if (n =? 9)%N then [bs; "t"%char]
  else if (n =? 8)%N then [bs; "b"%char]
  else if (n =? 12)%N then [bs; "f"%char]
  else if (n <? 32)%N || (126 <? n)%N
       then [bs; "u"%char; "0"%char; "0"%char; hex_char (n / 16); hex_char (n mod 16)]
  else [c].

Definition encode_str (s : string) : list ascii :=
  dq :: concat (map encode_char (list_ascii_of_string s)) ++ [dq].

Definition is_zero_char (c : ascii) : bool := (N_of_ascii c =? 48)%N.

Fixpoint strip_zeros (l : list ascii) : list ascii :=
  match l with
  | c :: l' => if is_zero_char c then strip_zeros l' else l
  | [] => []
  end.

(** The least [k], up to [fuel] more, with [d] dividing [n * 10^k]. *)
Fixpoint dec_scale (fuel : nat) (n : Z) (d : Z) (k : nat) : nat :=
  match fuel with
  | O => k
  | S fuel' => if (n mod d =? 0)%Z then k else dec_scale fuel' (n * 10)%Z d (S k)
  end.

Definition zeros (n : nat) : list ascii := repeat "0"%char n.

(** [float.__repr__] of a finite float, from its digits and the place of the
    point: the digits [ds] stand for 0.ds * 10^decpt. *)
Definition repr_fixed (ds : list ascii) (decpt : Z) : list ascii :=
  if (decpt <=? 0)%Z then
    "0"%char :: "."%char :: zeros (Z.to_nat (- decpt)) ++ ds
  else if (Z.of_nat (length ds) <=? decpt)%Z then
    ds ++ zeros (Z.to_nat decpt - length ds) ++ ["."%char; "0"%char]
  else
    take (Z.to_nat decpt) ds ++ "."%char :: drop (Z.to_nat decpt) ds.

Definition repr_exp (ds : list ascii) (decpt : Z) : list ascii :=
  let e := (decpt - 1)%Z in
  let es := int_chars (Z.abs e) in
  take 1 ds
  ++ (match drop 1 ds with [] => [] | fr => "."%char :: fr end)
  ++ "e"%char :: (if (e <? 0)%Z then "-"%char else "+"%char)
  :: (if (Z.abs e <? 10)%Z then "0"%char :: es else es).

Definition float_repr (q : Q) : list ascii :=
  let n := Z.abs (Qnum q) in
  let d := Zpos (Qden q) in
  if (n =? 0)%Z then ["0"; "."; "0"]%char
  else
    let k := dec_scale (Pos.size_nat (Qden q)) n d 0 in
    let all := int_chars (n * 10 ^ Z.of_nat k / d) in
    let ds := rev (strip_zeros (rev all)) in
    let decpt := (Z.of_nat (length all) - Z.of_nat k)%Z in
    (if (Qnum q <? 0)%Z then ["-"%char] else [])
    ++ (if (decpt <=? -4)%Z || (16 <? decpt)%Z
        then repr_exp ds decpt else repr_fixed ds decpt).

Definition num_repr (n : pynum) : list ascii :=
  match n with
  | PyInt z => int_chars z
  | PyFloat q => float_repr q
  end.

(** What [json] turns a key into: a str stays, an int becomes its decimal. *)
Definition key_str (k : pykey) : string :=
  match k with
  | KStr s => s
  | KInt z => str z
  end.

Definition newline_indent (level : nat) : list ascii :=
  lf :: repeat " "%char (2 * level).

(** The items of a non-empty dict, [item_separator] between them; [enc]
    prints a value one level in. *)
Definition encode_items (enc : pyval -> list ascii) (level : nat)
  : list (pykey * pyval) -> list ascii :=
  fix items (d : list (pykey * pyval)) : list ascii :=
    match d with
    | [] => []
    | kv :: d' =>
        encode_str (key_str (fst kv)) ++ ":"%char :: " "%char :: enc (snd kv)
        ++ match d' with
           | [] => []
           | _ => ","%char :: newline_indent level ++ items d'
           end
    end.

(** [_iterencode]; [level] is [_current_indent_level]. *)
Fixpoint encode (level : nat) (v : pyval) : list ascii :=
  match v with
  | PNone => ["n"; "u"; "l"; "l"]%char
  | PNum n => num_repr n
  | PStr s => encode_str s
  | PDict [] => ["{"; "}"]%char
  | PDict d =>
      "{"%char :: newline_indent (S level)
      ++ encode_items (encode (S level)) (S level) d
      ++ newline_indent level ++ ["}"%char]
  end.

Definition json_dumps (v : pyval) : string := string_of_list_ascii (encode 0 v).

(** ** [json.loads] *)

Definition is_ws (c : ascii) : bool :=
  let n := N_of_ascii c in (n =? 32)%N || (n =? 9)%N || (n =? 10)%N || (n =? 13)%N.

Fixpoint skip_ws (s : list ascii) : list ascii :=
  match s with
  | c :: s' => if is_ws c then skip_ws s' else s
  | [] => []
  end.

Definition hex_val (c : ascii) : option N :=
  let n := N_of_ascii c in
  if (48 <=? n)%N && (n <=? 57)%N then Some (n - 48)%N
  else if (97 <=? n)%N && (n <=? 102)%N then Some (n - 87)%N
  else if (65 <=? n)%N && (n <=? 70)%N then Some (n - 55)%N
  else None.

(** The character a backslash escape stands for ([BACKSLASH]). *)
Definition unescape (c : ascii) : option ascii :=
  let n := N_of_ascii c in
  if (n =? 34)%N then Some dq
  else if (n =? 92)%N then Some bs
  else if (n =? 47)%N then Some "/"%char
  else if (n =? 98)%N then Some "008"%char
  else if (n =? 102)%N then Some "012"%char
  else if (n =? 110)%N then Some "010"%char
  else if (n =? 114)%N then Some "013"%char
  else if (n =? 116)%N then Some "009"%char
  else None.

(** [scanstring], strict, from just after the opening quote: the string and
    what follows its closing quote.  A code point above 255 is outside the
    model. *)
Fixpoint scanstring (s : list ascii) : option (list ascii * list ascii) :=
  match s with
  | [] => None
  | c :: s1 =>
      if (N_of_ascii c =? 34)%N then Some ([], s1)
      else if (N_of_ascii c =? 92)%N then
        match s1 with
        | [] => None
        | e :: s2 =>
            if (N_of_ascii e =? 117)%N then
              match s2 with
              | h1 :: h2 :: h3 :: h4 :: s3 =>
                  match hex_val h1, hex_val h2, hex_val h3, hex_val h4 with
                  | Some a, Some b, Some c, Some d =>
                      let n := (((a * 16 + b) * 16 + c) * 16 + d)%N in
                      if (n <? 256)%N then
                        match scanstring s3 with
                        | Some (str, r) => Some (ascii_of_N n :: str, r)
                        | None => None
                        end
                      else None
                  | _, _, _, _ => None
                  end
              | _ => None
              end
            else
              match unescape e with
              | Some ch =>
                  match scanstring s2 with
                  | Some (str, r) => Some (ch :: str, r)
                  | None => None
                  end
              | None => None
              end
        end
      else if (N_of_ascii c <? 32)%N then None
      else
        match scanstring s1 with
        | Some (str, r) => Some (c :: str, r)
        | None => None
        end
  end.

Definition is_digit (c : ascii) : bool :=
  let n := N_of_ascii c in (48 <=? n)%N && (n <=? 57)%N.

Fixpoint span_digits (s : list ascii) : list ascii * list ascii :=
  match s with
  | c :: s' =>
      if is_digit c then let '(ds, r) := span_digits s' in (c :: ds, r) else ([], s)
  | [] => ([], [])
  end.

(** The value of a run of digits after [acc]. *)
Fixpoint digits_val (acc : Z) (ds : list ascii) : Z :=
  match ds with
  | [] => acc
  | c :: ds' => digits_val (acc * 10 + Z.of_N (N_of_ascii c - 48))%Z ds'
  end.

(** The integer group of [NUMBER_RE], an optional minus and then either a
    single 0 or a run of digits that starts with 1-9: the sign, the digits,
    the rest. *)
Definition scan_integer (s : list ascii) : option (bool * list ascii * list ascii) :=
  let '(neg, s1) :=
    match s with
    | c :: s' => if (N_of_ascii c =? 45)%N then (true, s') else (false, s)
    | [] => (false, s)
    end in
  match s1 with
  | c :: s2 =>
      if is_zero_char c then Some (neg, [c], s2)
      else if is_digit c then let '(ds, r) := span_digits s1 in Some (neg, ds, r)
      else None
  | [] => None
  end.

(** The fraction group, a point and at least one digit: its digits, if it is
    there. *)
Definition scan_frac (s : list ascii) : option (list ascii) * list ascii :=
  match s with
  | c :: s' =>
      if (N_of_ascii c =? 46)%N then
        match span_digits s' with
        | ([], _) => (None, s)
        | (ds, r) => (Some ds, r)
        end
      else (None, s)
  | [] => (None, s)
  end.

(** The exponent group, e or E, an optional sign and at least one digit: its
    value, if it is there. *)
Definition scan_exp (s : list ascii) : option Z * list ascii :=
  match s with
  | c :: s' =>
      if (N_of_ascii c =? 101)%N || (N_of_ascii c =? 69)%N then
        let '(neg, s1) :=
          match s' with
          | g :: s'' =>
              if (N_of_ascii g =? 45)%N then (true, s'')
              else if (N_of_ascii g =? 43)%N then (false, s'')
              else (false, s')
          | [] => (false, s')
          end in
        match span_digits s1 with
        | ([], _) => (None, s)
        | (ds, r) => (Some (if neg then - digits_val 0 ds else digits_val 0 ds)%Z, r)
        end
      else (None, s)
  | [] => (None, s)
  end.

(** [float] of a literal: the digits [m] (integer part, then [fl] digits of
    fraction), times ten to the [e]. *)
Definition float_of_parts (neg : bool) (m : Z) (fl : nat) (e : Z) : Q :=
  let p := (e - Z.of_nat fl)%Z in
  let sm := if neg then (- m)%Z else m in
  if (0 <=? p)%Z then Qmake (sm * 10 ^ p) 1
  else Qmake sm (Z.to_pos (10 ^ (- p))).

(** [NUMBER_RE] at the start of [s], and [int] or [float] of the match. *)
Definition scan_number (s : list ascii) : option (pynum * list ascii) :=
  match scan_integer s with
  | None => None
  | Some (neg, ds, r1) =>
      let '(frac, r2) := scan_frac r1 in
      let '(ex, r3) := scan_exp r2 in
      match frac, ex with
      | None, None =>
          Some (PyInt (if neg then - digits_val 0 ds else digits_val 0 ds)%Z, r3)
      | _, _ =>
          let fr := default [] frac in
          Some (PyFloat (float_of_parts neg (digits_val 0 (ds ++ fr)) (length fr)
                           (default 0%Z ex)), r3)
      end
  end.

(** [dict(pairs)] *)
Definition py_dict (pairs : list (pykey * pyval)) : list (pykey * pyval) :=
  fold_left (fun d kv => dict_set d (fst kv) (snd kv)) pairs [].

(** [scan_once] and the loop of [JSONObject], which starts at the quote of a
    key with the pairs read so far.  Arrays, booleans and the non-finite
    floats do not occur in what the script emits and are not read. *)
Fixpoint scan_once (fuel : nat) (s : list ascii) {struct fuel}
  : option (pyval * list ascii) :=
  match fuel with
  | O => None
  | S fuel' =>
      match s with
      | [] => None
      | c :: s1 =>
          if (N_of_ascii c =? 34)%N then
            match scanstring s1 with
            | Some (str, r) => Some (PStr (string_of_list_ascii str), r)
            | None => None
            end
          else if (N_of_ascii c =? 123)%N then
            match skip_ws s1 with
            | [] => None
            | c1 :: r1 =>
                if (N_of_ascii c1 =? 125)%N then Some (PDict [], r1)
                else JSONObject fuel' (c1 :: r1) []
            end
          else
            match s with
            | "n"%char :: "u"%char :: "l"%char :: "l"%char :: r => Some (PNone, r)
            | _ =>
                match scan_number s with
                | Some (n, r) => Some (PNum n, r)
                | None => None
                end
            end
      end
  end
with JSONObject (fuel : nat) (s : list ascii) (pairs : list (pykey * pyval))
    {struct fuel} : option (pyval * list ascii) :=
  match fuel with
  | O => None
  | S fuel' =>
      match s with
      | [] => None
      | c :: s1 =>
          if (N_of_ascii c =? 34)%N then
            match scanstring s1 with
            | None => None
            | Some (key, r) =>
                match skip_ws r with
                | [] => None
                | c1 :: r1 =>
                    if (N_of_ascii c1 =? 58)%N then
                      match scan_once fuel' (skip_ws r1) with
                      | None => None
                      | Some (value, r2) =>
                          let pairs' :=
                            pairs ++ [(KStr (string_of_list_ascii key), value)] in
                          match skip_ws r2 with
                          | [] => None
                          | c2 :: r3 =>
                              if (N_of_ascii c2 =? 125)%N
                              then Some (PDict (py_dict pairs'), r3)
                              else if (N_of_ascii c2 =? 44)%N
                              then JSONObject fuel' (skip_ws r3) pairs'
                              else None
                          end
                      end
                    else None
                end
            end
          else None
      end
  end.

Definition json_loads (s : string) : option pyval :=
  let l := skip_ws (list_ascii_of_string s) in
  match scan_once (S (length l)) l with
  | Some (v, r) => match skip_ws r with [] => Some v | _ => None end
  | None => None
  end.

(** What a dict becomes on its way through [json]: every key a str. *)
Fixpoint strkeys (v : pyval) : pyval :=
  match v with
  | PDict d => PDict (map (fun kv => (KStr (key_str (fst kv)), strkeys (snd kv))) d)
  | _ => v
  end.

(** A float survives [json] when its [repr] reads back as the same float.
    Python guarantees it of every finite float; here a float is the rational
    its [repr] denotes, and the condition says that [q] is written that way. *)
Definition float_ok (q : Q) : Prop :=
  scan_number (float_repr q) = Some (PyFloat q, []).

Definition num_ok (n : pynum) : Prop :=
  match n with
  | PyInt _ => True
  | PyFloat q => float_ok q
  end.

Fixpoint floats_ok (v : pyval) : Prop :=
  match v with
  | PNum n => num_ok n
  | PDict d => fold_right (fun kv acc => floats_ok (snd kv) /\ acc) True d
  | _ => True
  end.

(** No two keys of a dict become the same str. *)
Fixpoint keys_ok (v : pyval) : Prop :=
  match v with
  | PDict d =>
      NoDup (map (fun kv => key_str (fst kv)) d) /\
      fold_right (fun kv acc => keys_ok (snd kv) /\ acc) True d
  | _ => True
  end.

(** The calls [scan_once] needs to read the value back. *)
Fixpoint size (v : pyval) : nat :=
  match v with
  | PDict d => S (fold_right (fun kv acc => S (size (snd kv) + acc)) 0 d)
  | _ => 1
  end.

(** What follows a number in the emitted text never continues it. *)
Definition stops (rest : list ascii) : bool :=
  match rest with
  | [] => true
  | c :: _ =>
      negb (is_digit c || (N_of_ascii c =? 46)%N
            || (N_of_ascii c =? 101)%N || (N_of_ascii c =? 69)%N
            || (N_of_ascii c =? 43)%N || (N_of_ascii c =? 45)%N)
  end.

(** A number starts with a digit or a minus sign. *)
Definition number_start (c : ascii) : bool :=
  is_digit c || (N_of_ascii c =? 45)%N.

(** One item of a dict on its way through [json]. *)
Definition strkey_item (kv : pykey * pyval) : pykey * pyval :=
  (KStr (key_str (fst kv)), strkeys (snd kv)).

(** The structure as it comes back from [json]: the same dicts, with each
    mass-number key of an [isotopes] dict as its decimal string. *)
Definition py_element_loaded (data : ElementRecord) : pyval :=
  PDict [ (KStr "symbol", PStr (data_symbol data));
          (KStr "Z", PNum (PyInt (data_Z data)));
          (KStr "isotopes",
             PDict (map (fun kv => (KStr (str (fst kv)), py_isotope (snd kv)))
                      (data_isotopes data)));
          (KStr "maxiso", py_opt_str (maxiso data));
          (KStr "maxiso_NMR", py_opt_str (maxiso_NMR data));
          (KStr "maxiso_Q", py_opt_str (maxiso_Q data)) ].

Definition py_element_data_loaded (ed : dict string ElementRecord) : pyval :=
  PDict (map (fun kv => (KStr (fst kv), py_element_loaded (snd kv))) ed).

(** ** The printed module (lines 89-96) *)

Definition jsonstr (_nmr_data : nmr_table) (elements : list Element) : string :=
  json_dumps (py_element_data (element_data _nmr_data elements)).

Definition newline : string := String lf EmptyString.

Definition template : string :=
  "const nmrData = {0};" ++ newline ++ newline ++ "export default nmrData;" ++ newline.

(** [template.format(arg)] for a template whose only fields are [{0}]. *)
Fixpoint format (t : string) (arg : string) : string :=
  match t with
  | String "{" (String "0" (String "}" t')) => arg ++ format t' arg
  | String c t' => String c (format t' arg)
  | EmptyString => EmptyString
  end.

(** What [print(s)] writes to standard output. *)
Definition print (s : string) : string := s ++ newline.

Definition program_output (_nmr_data : nmr_table) (elements : list Element) : string :=
  print (format template (jsonstr _nmr_data elements)).

(** The emitted shape in the spec's words: the text [const nmrData = ], the
    JSON, a semicolon, a blank line and the line [export default nmrData;]. *)
Definition spec_shape (json : string) : string :=
  "const nmrData = " ++ json ++ ";" ++ newline
  ++ newline
  ++ "export default nmrData;" ++ newline.


(** The text the script prints for the neutron entry alone, with ['] standing
    for the double quote. *)
Definition unquote (s : string) : string :=
  string_of_list_ascii
    (map (fun c => if (N_of_ascii c =? 39)%N then dq else c) (list_ascii_of_string s)).

Definition sample_text : string := unquote
"const nmrData = {
  'Mu': {
    'symbol': 'Mu',
    'Z': 0,
    'isotopes': {
      '1': {
        'A': 1,
        'mass': 0.113428913072988,
        'abundance': 100,
        'spin': 0,
        'gamma': null,
        'Q': null
      }
    },
    'maxiso': '1',
    'maxiso_NMR': null,
    'maxiso_Q': null
  }
};

export default nmrData;

".

(** ** The loop seen from the table *)

Definition nonzero (iso : Isotope) : bool :=
  negb (num_eqb (abundance iso) (PyInt 0)).

(** What the table says of an isotope for a category, before any record is
    built: the test lines 62 and 66 make on [spin] and [Q]. *)
Definition table_qualifies (c : category) (nmr : gmap string (gmap string pynum))
    (iso : Isotope) : bool :=
  match c with
  | Overall => true
  | NMRActive => truthy (default ∅ (nmr !! str (isotope iso)) !! "I")
  | Quadrupolar => truthy (default ∅ (nmr !! str (isotope iso)) !! "Q")
  end.

(** The dict of lines 70-77 for an isotope that reaches them. *)
Definition record_of (sym : string) (nmr : gmap string (gmap string pynum))
    (iso : Isotope) : IsotopeRecord :=
  let iso_nmr := default ∅ (nmr !! str (isotope iso)) in
  {| rec_A := isotope iso;
     rec_mass := if decide (sym = "Mu") then mu_mass else mass iso;
     rec_abundance := abundance iso;
     rec_spin := match iso_nmr !! "I" with
                 | Some s => Some s
                 | None => Some (PyInt 0)
                 end;
     rec_gamma := iso_nmr !! "gamma";
     rec_Q := iso_nmr !! "Q" |}.

(** A table in which the neutron is followed by an element already called
    [Mu]. *)
Definition sample_Mu : Element :=
  {| symbol := "Mu"; number := 200;
     el_isotopes :=
       [ {| mass := PyFloat 0.1134; isotope := 1; abundance := PyFloat 100.0 |} ] |}.

Definition sample_Mu_second : ElementRecord :=
  {| data_symbol := "Mu"; data_Z := 200;
     data_isotopes :=
       [ (1%Z, {| rec_A := 1; rec_mass := mu_mass; rec_abundance := PyFloat 100.0;
                  rec_spin := Some (PyInt 0); rec_gamma := None; rec_Q := None |}) ];
     maxiso := Some "1"; maxiso_NMR := None; maxiso_Q := None |}.

(** Three isotopes read against the entries of [T]: the table knows the
    first two, with spin and quadrupole moment, and not the third. *)
Definition sample_trace : list Isotope :=
  [ {| mass := PyFloat 100.5; isotope := 100; abundance := PyFloat 60.0 |};
    {| mass := PyFloat 101.5; isotope := 101; abundance := PyFloat 39.5 |};
    {| mass := PyFloat 102.5; isotope := 102; abundance := PyFloat 0.5 |} ].

(** The four bounds every state of the loop satisfies for a category. *)
Definition maxima_bounded (st : scan_state) : Prop :=
  forall c,
    (0 <= num_val (ptr_ab c st))%Q /\
    (num_val (ptr_ab c st) <= num_val (most_iso_ab st))%Q /\
    (ptr c st = None -> ptr_ab c st = PyInt 0) /\
    (forall a, ptr c st = Some a -> (0 < num_val (ptr_ab c st))%Q).

(** [v[k]] on a parsed or built value, [None] where Python raises. *)
Definition py_index (v : pyval) (k : pykey) : option pyval :=
  match v with
  | PDict d => py_get d k
  | _ => None
  end.

(** The key under which lines 83-85 store the pointer of a category. *)
Definition ptr_field (c : category) : string :=
  match c with
  | Overall => "maxiso"
  | NMRActive => "maxiso_NMR"
  | Quadrupolar => "maxiso_Q"
  end.

(** The loop variables of an element when its isotope loop ends (line 79),
    whether the element is then skipped or not. *)
Definition loop_state (_nmr_data : nmr_table) (el : Element) : scan_state :=
  let sym := out_symbol (symbol el) in
  scan sym (default ∅ (_nmr_data !! sym)) (el_isotopes el) init_state.

(** An element whose most abundant isotope has mass number 0, and what the
    script builds from it, traced by hand: [most_iso] is 0, which is not
    [None], so the element is kept, and falsy, so [maxiso] is [None]. *)
Definition sample_Z : Element :=
  {| symbol := "Zz"; number := 119;
     el_isotopes :=
       [ {| mass := PyFloat 0.5; isotope := 0; abundance := PyFloat 75.0 |};
         {| mass := PyFloat 1.5; isotope := 1; abundance := PyFloat 25.0 |} ] |}.

Definition sample_Z_data : ElementRecord :=
  {| data_symbol := "Zz"; data_Z := 119;
     data_isotopes :=
       [ (0%Z, {| rec_A := 0; rec_mass := PyFloat 0.5; rec_abundance := PyFloat 75.0;
                  rec_spin := Some (PyInt 0); rec_gamma := None; rec_Q := None |});
         (1%Z, {| rec_A := 1; rec_mass := PyFloat 1.5; rec_abundance := PyFloat 25.0;
                  rec_spin := Some (PyInt 0); rec_gamma := None; rec_Q := None |}) ];
     maxiso := None; maxiso_NMR := None; maxiso_Q := None |}.

(** * Properties *)

(** ** The script on the small table *)

Example sample_run : element_data sample_nmr sample_elements = sample_output.
Proof. vm_compute. reflexivity. Qed.

Example sample_program_output : program_output sample_nmr [sample_n] = sample_text.
Proof. vm_compute. reflexivity. Qed.

Example sample_json_loads :
  json_loads (jsonstr sample_nmr [sample_n])
  = Some (py_element_data_loaded [("Mu", sample_Mu_data)]).
Proof. vm_compute. reflexivity. Qed.

Example sample_compile_H : compile_element sample_nmr sample_H = Some sample_H_data.
Proof. vm_compute. reflexivity. Qed.

Example sample_compile_X : compile_element sample_nmr sample_X = Some sample_X_data.
Proof. vm_compute. reflexivity. Qed.

Example sample_compile_n : compile_element sample_nmr sample_n = Some sample_Mu_data.
Proof. vm_compute. reflexivity. Qed.

Example sample_compile_T : compile_element sample_nmr sample_T = Some sample_T_data.
Proof. vm_compute. reflexivity. Qed.

Example sample_compile_Tc : compile_element sample_nmr sample_Tc = None.
Proof. vm_compute. reflexivity. Qed.

(** ** Numbers *)

Lemma num_ltb_lt (a b : pynum) :
  num_ltb a b = true <-> (num_val a < num_val b)%Q.
Proof.
  unfold num_ltb. rewrite negb_true_iff, <- not_true_iff_false, Qle_bool_iff.
  split; [apply Qnot_le_lt | apply Qlt_not_le].
Qed.

Lemma num_ltb_ge (a b : pynum) :
  num_ltb a b = false <-> (num_val b <= num_val a)%Q.
Proof.
  unfold num_ltb. rewrite negb_false_iff. apply Qle_bool_iff.
Qed.

Lemma num_eqb_eq (a b : pynum) :
  num_eqb a b = true <-> (num_val a == num_val b)%Q.
Proof. apply Qeq_bool_iff. Qed.

Lemma num_eqb_neq (a b : pynum) :
  num_eqb a b = false <-> ~ (num_val a == num_val b)%Q.
Proof. rewrite <- num_eqb_eq, not_true_iff_false. reflexivity. Qed.

Lemma py_min_le_l (a b : pynum) : (num_val (py_min a b) <= num_val a)%Q.
Proof.
  unfold py_min. destruct (num_ltb b a) eqn:E.
  - apply Qlt_le_weak, num_ltb_lt, E.
  - apply Qle_refl.
Qed.

Lemma py_min_le_r (a b : pynum) : (num_val (py_min a b) <= num_val b)%Q.
Proof.
  unfold py_min. destruct (num_ltb b a) eqn:E.
  - apply Qle_refl.
  - apply num_ltb_ge, E.
Qed.

(** ** Dicts *)

Section dict_facts.
Context {K V : Type} `{EqDecision K}.
Implicit Types (d : dict K V) (k : K) (v : V).

Ltac elem_cases :=
  rewrite ?fmap_cons, ?fmap_nil, ?elem_of_cons, ?elem_of_nil in *;
  simpl in *; intuition congruence.

Lemma dict_get_set_eq d k v : dict_get (dict_set d k v) k = Some v.
Proof.
  induction d as [|[k' v'] d IH]; simpl.
  - destruct (decide (k = k)); congruence.
  - destruct (decide (k' = k)); simpl.
    + destruct (decide (k = k)); congruence.
    + destruct (decide (k' = k)); congruence.
Qed.

Lemma dict_get_set_ne d k v k0 :
  k0 <> k -> dict_get (dict_set d k v) k0 = dict_get d k0.
Proof.
  intros Hne. induction d as [|[k' v'] d IH]; simpl.
  - destruct (decide (k = k0)); congruence.
  - destruct (decide (k' = k)) as [->|]; simpl.
    + destruct (decide (k = k0)); congruence.
    + destruct (decide (k' = k0)); congruence.
Qed.

Lemma dict_keys_set d k v k0 :
  k0 ∈ dict_keys (dict_set d k v) <-> k0 = k \/ k0 ∈ dict_keys d.
Proof.
  unfold dict_keys. induction d as [|[k' v'] d IH]; simpl.
  - elem_cases.
  - destruct (decide (k' = k)) as [->|]; simpl; elem_cases.
Qed.

Lemma dict_set_elem d k v k0 v0 :
  (k0, v0) ∈ dict_set d k v -> (k0, v0) = (k, v) \/ (k0, v0) ∈ d.
Proof.
  induction d as [|[k' v'] d IH]; simpl.
  - elem_cases.
  - destruct (decide (k' = k)) as [->|]; simpl; elem_cases.
Qed.

Lemma dict_set_NoDup d k v :
  NoDup (dict_keys d) -> NoDup (dict_keys (dict_set d k v)).
Proof.
  induction d as [|[k' v'] d IH]; simpl; intros Hd.
  - apply NoDup_singleton.
  - apply NoDup_cons in Hd as [Hk Hd].
    destruct (decide (k' = k)) as [->|Hne]; simpl.
    + apply NoDup_cons; auto.
    + apply NoDup_cons. split; [|auto].
      intros Hin. apply dict_keys_set in Hin.
      destruct Hin as [->|Hin]; [congruence | exact (Hk Hin)].
Qed.

Lemma dict_elem_keys d k v : (k, v) ∈ d -> k ∈ dict_keys d.
Proof.
  intros Hin. unfold dict_keys. apply list_elem_of_fmap. now exists (k, v).
Qed.

Lemma dict_get_elem d k v : dict_get d k = Some v -> (k, v) ∈ d.
Proof.
  induction d as [|[k' v'] d IH]; simpl; [discriminate|].
  destruct (decide (k' = k)) as [->|]; [|elem_cases].
  intros [= ->]. elem_cases.
Qed.

Lemma dict_get_None d k : dict_get d k = None <-> k ∉ dict_keys d.
Proof.
  unfold dict_keys. induction d as [|[k' v'] d IH]; simpl; [elem_cases|].
  destruct (decide (k' = k)) as [->|]; [|rewrite IH; elem_cases].
  split; [discriminate | elem_cases].
Qed.

Lemma dict_elem_get d k v :
  NoDup (dict_keys d) -> (k, v) ∈ d -> dict_get d k = Some v.
Proof.
  induction d as [|[k' v'] d IH]; simpl; [elem_cases|].
  intros Hd Hin. apply NoDup_cons in Hd as [Hk Hd].
  apply elem_of_cons in Hin as [[= <- <-]|Hin].
  - destruct (decide (k = k)); congruence.
  - destruct (decide (k' = k)) as [->|]; [|auto].
    destruct Hk. eapply dict_elem_keys, Hin.
Qed.

Lemma dict_keys_get d k : k ∈ dict_keys d -> exists v, dict_get d k = Some v.
Proof.
  intros Hin. destruct (dict_get d k) eqn:E; [eauto|].
  apply dict_get_None in E. contradiction.
Qed.
End dict_facts.

(** ** One turn of the isotope loop *)

Lemma scan_nil sym nmr st : scan sym nmr [] st = st.
Proof. reflexivity. Qed.

Lemma scan_cons sym nmr x l st :
  scan sym nmr (x :: l) st = scan sym nmr l (iso_step sym nmr st x).
Proof. reflexivity. Qed.

Lemma scan_app sym nmr l1 l2 st :
  scan sym nmr (l1 ++ l2) st = scan sym nmr l2 (scan sym nmr l1 st).
Proof. unfold scan. apply fold_left_app. Qed.

Lemma iso_step_zero sym nmr st iso :
  num_eqb (abundance iso) (PyInt 0) = true -> iso_step sym nmr st iso = st.
Proof. intros Hz. unfold iso_step. now rewrite Hz. Qed.

Lemma iso_step_discard sym nmr st iso :
  retention st (abundance iso) (default ∅ (nmr !! str (isotope iso)) !! "I") = None ->
  iso_step sym nmr st iso = st.
Proof.
  intros Hr. unfold iso_step. rewrite Hr. now destruct (num_eqb _ _).
Qed.

(** A turn that reaches line 58 stores a record, and each maximum moves
    exactly when lines 58-68 say. *)
Lemma iso_step_record sym nmr st iso spin :
  num_eqb (abundance iso) (PyInt 0) = false ->
  retention st (abundance iso) (default ∅ (nmr !! str (isotope iso)) !! "I") = Some spin ->
  exists r, recorded sym nmr iso r /\ rec_spin r = spin /\
    isotopes (iso_step sym nmr st iso) = dict_set (isotopes st) (isotope iso) r /\
    forall c,
      (ptr c (iso_step sym nmr st iso), ptr_ab c (iso_step sym nmr st iso)) =
      if num_gtb (abundance iso) (ptr_ab c st) && qualifies c r
      then (Some (isotope iso), abundance iso)
      else (ptr c st, ptr_ab c st).
Proof.
  intros Hz Hr. unfold iso_step. rewrite Hz.
  set (iso_nmr := default ∅ (nmr !! str (isotope iso))) in *. rewrite Hr.
  eexists. split; [|split; [|split]].
  3:{ destruct (num_gtb (abundance iso) (most_iso_ab st));
      destruct (num_gtb (abundance iso) (most_NMR_iso_ab st) && truthy spin);
      destruct (num_gtb (abundance iso) (most_Q_iso_ab st) && truthy (iso_nmr !! "Q"));
      reflexivity. }
  - unfold recorded; fold iso_nmr; simpl. repeat split; try assumption.
    unfold retention in Hr. destruct (iso_nmr !! "I").
    + congruence.
    + destruct (num_ltb _ _); congruence.
  - reflexivity.
  - intros c.
    destruct (num_gtb (abundance iso) (most_iso_ab st)) eqn:E1;
      destruct (num_gtb (abundance iso) (most_NMR_iso_ab st) && truthy spin) eqn:E2;
      destruct (num_gtb (abundance iso) (most_Q_iso_ab st) && truthy (iso_nmr !! "Q")) eqn:E3;
      destruct c; simpl; rewrite ?E1, ?E2, ?E3; simpl; reflexivity.
Qed.

Lemma iso_step_cases sym nmr st iso :
  iso_step sym nmr st iso = st \/
  exists r, recorded sym nmr iso r /\
    isotopes (iso_step sym nmr st iso) = dict_set (isotopes st) (isotope iso) r /\
    forall c,
      (ptr c (iso_step sym nmr st iso), ptr_ab c (iso_step sym nmr st iso)) =
      if num_gtb (abundance iso) (ptr_ab c st) && qualifies c r
      then (Some (isotope iso), abundance iso)
      else (ptr c st, ptr_ab c st).
Proof.
  destruct (num_eqb (abundance iso) (PyInt 0)) eqn:Hz;
    [left; now apply iso_step_zero|].
  destruct (retention st (abundance iso)
              (default ∅ (nmr !! str (isotope iso)) !! "I")) as [spin|] eqn:Hr;
    [right|left; now apply iso_step_discard].
  destruct (iso_step_record sym nmr st iso spin Hz Hr) as (r & H1 & _ & H2).
  now exists r.
Qed.

(** Every stored record is the record of one of the scanned isotopes. *)
Lemma scan_elem sym nmr isos : forall st k r,
  (k, r) ∈ isotopes (scan sym nmr isos st) ->
  (k, r) ∈ isotopes st \/
  exists iso, iso ∈ isos /\ k = isotope iso /\ recorded sym nmr iso r.
Proof.
  induction isos as [|x l IH]; intros st k r Hin; [now left|].
  rewrite scan_cons in Hin. apply IH in Hin as [Hin|(iso & Hi & Hk & Hr)].
  - destruct (iso_step_cases sym nmr st x) as [Heq|(r0 & Hrec & Hd & _)];
      [rewrite Heq in Hin; now left|].
    rewrite Hd in Hin. apply dict_set_elem in Hin as [[= -> ->]|Hin]; [|now left].
    right. exists x. split; [apply elem_of_cons; now left|split; [reflexivity|exact Hrec]].
  - right. exists iso. split; [apply elem_of_cons; now right|split; assumption].
Qed.

Lemma scan_keys sym nmr isos st k :
  k ∈ dict_keys (isotopes (scan sym nmr isos st)) ->
  k ∈ dict_keys (isotopes st) \/ k ∈ isotope <$> isos.
Proof.
  intros Hk. apply dict_keys_get in Hk as [r Hr]. apply dict_get_elem in Hr.
  apply scan_elem in Hr as [Hr|(iso & Hi & -> & _)].
  - left. eapply dict_elem_keys, Hr.
  - right. apply list_elem_of_fmap. now exists iso.
Qed.

(** The isotope loop never leaves two records under one key, whatever the
    source order. *)
Lemma iso_step_NoDup sym nmr st iso :
  NoDup (dict_keys (isotopes st)) ->
  NoDup (dict_keys (isotopes (iso_step sym nmr st iso))).
Proof.
  intros Hd. destruct (iso_step_cases sym nmr st iso) as [->|(r & _ & -> & _)];
    [assumption | now apply dict_set_NoDup].
Qed.

Lemma scan_NoDup sym nmr isos : forall st,
  NoDup (dict_keys (isotopes st)) ->
  NoDup (dict_keys (isotopes (scan sym nmr isos st))).
Proof.
  induction isos as [|x l IH]; intros st Hd; [assumption|].
  rewrite scan_cons. apply IH, iso_step_NoDup, Hd.
Qed.

Lemma max_inv_init c : max_inv c [] init_state.
Proof.
  repeat split.
  - intros k Hk. simpl in Hk. inversion Hk.
  - intros k r Hr. discriminate.
  - intros a Ha. destruct c; discriminate.
Qed.

Lemma max_inv_step c sym nmr isos st x :
  NoDup (isotope <$> (isos ++ [x])) ->
  max_inv c isos st ->
  max_inv c (isos ++ [x]) (iso_step sym nmr st x).
Proof.
  intros Hnd (Hkeys & Hbound & Hptr).
  rewrite fmap_app in Hnd. apply NoDup_app in Hnd as (_ & Hfresh & _).
  assert (Hx : forall y, y ∈ isos -> isotope y <> isotope x).
  { intros y Hy Heq. apply (Hfresh (isotope y)).
    - apply list_elem_of_fmap. now exists y.
    - rewrite Heq. simpl. apply elem_of_cons. now left. }
  assert (Hnew : isotope x ∉ dict_keys (isotopes st)).
  { intros Hin. apply Hkeys, list_elem_of_fmap in Hin as (y & Hy & Hin).
    now apply (Hx y). }
  destruct (iso_step_cases sym nmr st x) as [->|(r & Hrec & Hd & Hc)].
  - (* continue *)
    split; [|split; [exact Hbound|]].
    + intros k Hk. rewrite fmap_app. apply elem_of_app. left. auto.
    + intros a Ha. destruct (Hptr a Ha) as (pre & x0 & post & r0 & -> & H).
      exists pre, x0, (post ++ [x]), r0. split; [|exact H].
      now rewrite <- app_assoc.
  - specialize (Hc c). destruct Hrec as (_ & _ & Hab & _).
    assert (Hget : forall k, k <> isotope x ->
              dict_get (isotopes (iso_step sym nmr st x)) k = dict_get (isotopes st) k).
    { intros k Hk. rewrite Hd. now apply dict_get_set_ne. }
    assert (Hgetx : dict_get (isotopes (iso_step sym nmr st x)) (isotope x) = Some r).
    { rewrite Hd. apply dict_get_set_eq. }
    split; [|split].
    + intros k Hk. rewrite Hd in Hk. apply dict_keys_set in Hk as [->|Hk].
      * apply list_elem_of_fmap. exists x. split; [reflexivity|].
        apply elem_of_app. right. apply elem_of_cons. now left.
      * rewrite fmap_app. apply elem_of_app. left. auto.
    + intros k r' Hr' Hq.
      destruct (decide (k = isotope x)) as [->|Hk].
      * rewrite Hgetx in Hr'. injection Hr' as <-. rewrite Hq, andb_true_r in Hc.
        destruct (num_gtb (abundance x) (ptr_ab c st)) eqn:E; injection Hc as _ ->.
        -- rewrite Hab. apply Qle_refl.
        -- rewrite Hab. apply num_ltb_ge, E.
      * rewrite Hget in Hr' by assumption.
        specialize (Hbound k r' Hr' Hq).
        destruct (num_gtb (abundance x) (ptr_ab c st) && qualifies c r) eqn:E;
          injection Hc as _ ->; [|assumption].
        apply andb_true_iff in E as [E _]. apply num_ltb_lt in E.
        eapply Qle_trans; [exact Hbound|]. now apply Qlt_le_weak.
    + intros a Ha.
      destruct (num_gtb (abundance x) (ptr_ab c st) && qualifies c r) eqn:E;
        injection Hc as Hp Hpa; rewrite Hp in Ha.
      * injection Ha as <-. apply andb_true_iff in E as [E Hq]. apply num_ltb_lt in E.
        exists isos, x, [], r. repeat split; try assumption; try congruence.
        intros y r' Hy Hr' Hq'. rewrite Hget in Hr' by now apply Hx.
        rewrite Hab. eapply Qle_lt_trans; [|exact E]. now apply (Hbound (isotope y)).
      * destruct (Hptr a Ha) as (pre & x0 & post & r0 & -> & Ha0 & Hr0 & Hq0 & Hp0 & Hx0 & Hlt).
        assert (Hne : a <> isotope x).
        { rewrite <- Ha0. apply Hx. apply elem_of_app. right. apply elem_of_cons. now left. }
        exists pre, x0, (post ++ [x]), r0. rewrite Hget by assumption.
        repeat split; try assumption; try congruence.
        -- now rewrite <- app_assoc.
        -- intros y r' Hy Hr'. rewrite Hget in Hr'; [now apply (Hlt y r')|].
           apply Hx. apply elem_of_app. now left.
Qed.

Lemma max_inv_scan c sym nmr isos :
  NoDup (isotope <$> isos) -> max_inv c isos (scan sym nmr isos init_state).
Proof.
  induction isos as [|x l IH] using rev_ind; intros Hnd.
  - apply max_inv_init.
  - rewrite scan_app. simpl. apply max_inv_step; [assumption|].
    apply IH. rewrite fmap_app in Hnd. now apply NoDup_app in Hnd as (? & _).
Qed.

Lemma py_min_val (a b : pynum) :
  (num_val (py_min a b) == Qmin (num_val a) (num_val b))%Q.
Proof.
  unfold py_min. destruct (num_ltb b a) eqn:E.
  - symmetry. apply Q.min_r, Qlt_le_weak, num_ltb_lt, E.
  - symmetry. apply Q.min_l, num_ltb_ge, E.
Qed.

(** ** The retention rule *)

(** C1. An isotope of nonzero abundance whose spin the NMR table does not give
    is compared with the smaller of the two running abundances (NMR-active and
    quadrupolar) as they stand when its turn comes.  Below it, the turn changes
    nothing: no record, no maximum moved.  Otherwise it is stored under its
    mass number with spin 0.  So a new mass number becomes a key exactly when
    the abundance is not below that minimum.  In the scenario (A: abundance
    0.6, spin 0.5, then B: abundance 0.9, no spin), B is stored with spin 0. *)
Theorem spin_unknown_retention :
  (forall sym nmr st iso,
     ~ (num_val (abundance iso) == 0)%Q ->
     default ∅ (nmr !! str (isotope iso)) !! "I" = None ->
     let lower := py_min (most_NMR_iso_ab st) (most_Q_iso_ab st) in
     let st' := iso_step sym nmr st iso in
     (num_val lower ==
        Qmin (num_val (most_NMR_iso_ab st)) (num_val (most_Q_iso_ab st)))%Q /\
     ((num_val (abundance iso) < num_val lower)%Q -> st' = st) /\
     (~ (num_val (abundance iso) < num_val lower)%Q ->
        exists r, isotopes st' = dict_set (isotopes st) (isotope iso) r /\
                  dict_get (isotopes st') (isotope iso) = Some r /\
                  rec_A r = isotope iso /\
                  rec_abundance r = abundance iso /\
                  rec_spin r = Some (PyInt 0)) /\
     (isotope iso ∉ dict_keys (isotopes st) ->
        (isotope iso ∈ dict_keys (isotopes st') <->
         ~ (num_val (abundance iso) < num_val lower)%Q))) /\
  (forall sym nmr a b sa,
     (num_val (abundance a) == 0.6)%Q ->
     default ∅ (nmr !! str (isotope a)) !! "I" = Some sa ->
     (num_val sa == 0.5)%Q ->
     (num_val (abundance b) == 0.9)%Q ->
     default ∅ (nmr !! str (isotope b)) !! "I" = None ->
     exists r, dict_get (isotopes (scan sym nmr [a; b] init_state)) (isotope b) = Some r /\
               rec_abundance r = abundance b /\
               rec_spin r = Some (PyInt 0)).
Proof.
  assert (Hgen : forall sym nmr st iso,
     ~ (num_val (abundance iso) == 0)%Q ->
     default ∅ (nmr !! str (isotope iso)) !! "I" = None ->
     ~ (num_val (abundance iso) <
        num_val (py_min (most_NMR_iso_ab st) (most_Q_iso_ab st)))%Q ->
     exists r, isotopes (iso_step sym nmr st iso) =
                 dict_set (isotopes st) (isotope iso) r /\
               dict_get (isotopes (iso_step sym nmr st iso)) (isotope iso) = Some r /\
               rec_A r = isotope iso /\
               rec_abundance r = abundance iso /\
               rec_spin r = Some (PyInt 0)).
  { intros sym nmr st iso Hz Hspin Hge.
    apply (num_eqb_neq _ (PyInt 0)) in Hz.
    rewrite <- num_ltb_lt, not_true_iff_false in Hge.
    assert (Hr : retention st (abundance iso)
                   (default ∅ (nmr !! str (isotope iso)) !! "I") = Some (Some (PyInt 0))).
    { rewrite Hspin. unfold retention. now rewrite Hge. }
    destruct (iso_step_record sym nmr st iso _ Hz Hr) as (r & Hrec & Hs & Hd & _).
    exists r. destruct Hrec as (HA & _ & Hab & _).
    repeat split; try assumption. rewrite Hd. apply dict_get_set_eq. }
  assert (Hdrop : forall sym nmr st iso,
     default ∅ (nmr !! str (isotope iso)) !! "I" = None ->
     (num_val (abundance iso) <
        num_val (py_min (most_NMR_iso_ab st) (most_Q_iso_ab st)))%Q ->
     iso_step sym nmr st iso = st).
  { intros sym nmr st iso Hspin Hlt. apply iso_step_discard.
    rewrite Hspin. unfold retention. apply num_ltb_lt in Hlt. now rewrite Hlt. }
  split.
  - intros sym nmr st iso Hz Hspin lower st'. subst lower st'.
    split; [apply py_min_val|]. split; [now apply Hdrop|]. split; [now apply Hgen|].
    intros Hnew. split.
    + intros Hin Hlt. rewrite (Hdrop sym nmr st iso Hspin Hlt) in Hin. contradiction.
    + intros Hge. destruct (Hgen sym nmr st iso Hz Hspin Hge) as (r & _ & Hget & _).
      eapply dict_elem_keys, dict_get_elem, Hget.
  - intros sym nmr a b sa Ha Hsa Hsav Hb Hsb.
    change (scan sym nmr [a; b] init_state)
      with (iso_step sym nmr (iso_step sym nmr init_state a) b).
    set (st1 := iso_step sym nmr init_state a).
    assert (Hnmr : (num_val (most_NMR_iso_ab st1) == 0.6)%Q).
    { assert (Hz : num_eqb (abundance a) (PyInt 0) = false).
      { apply num_eqb_neq. rewrite Ha. discriminate. }
      assert (Hr : retention init_state (abundance a)
                     (default ∅ (nmr !! str (isotope a)) !! "I") = Some (Some sa)).
      { now rewrite Hsa. }
      destruct (iso_step_record sym nmr init_state a _ Hz Hr) as (r & _ & Hs & _ & Hc).
      specialize (Hc NMRActive). fold st1 in Hc. simpl in Hc. rewrite Hs in Hc. simpl in Hc.
      assert (E1 : num_gtb (abundance a) (PyInt 0) = true).
      { apply num_ltb_lt. rewrite Ha. reflexivity. }
      assert (E2 : num_truthy sa = true).
      { unfold num_truthy. apply negb_true_iff, num_eqb_neq. rewrite Hsav. discriminate. }
      rewrite E1, E2 in Hc. simpl in Hc. injection Hc as _ ->. exact Ha. }
    destruct (Hgen sym nmr st1 b) as (r & _ & Hget & _ & Hab & Hs).
    + rewrite Hb. discriminate.
    + exact Hsb.
    + apply Qle_not_lt. eapply Qle_trans; [apply py_min_le_l|].
      rewrite Hnmr, Hb. discriminate.
    + exists r. auto.
Qed.

Lemma spin_unknown_retention_witness :
  (let st := {| most_iso := Some 10%Z; most_iso_ab := PyFloat 99.0;
                most_NMR_iso := Some 10%Z; most_NMR_iso_ab := PyFloat 99.0;
                most_Q_iso := Some 9%Z; most_Q_iso_ab := PyFloat 1.0;
                isotopes := [] |} in
   iso_step "X" (default ∅ (sample_nmr !! "X")) st sample_B = st) /\
  (exists r, dict_get (isotopes (scan "X" (default ∅ (sample_nmr !! "X"))
                                  [sample_A; sample_B] init_state)) 11%Z = Some r /\
             rec_abundance r = PyFloat 0.9 /\
             rec_spin r = Some (PyInt 0)).
Proof.
  split.
  - intros st.
    refine (proj1 (proj2 (proj1 spin_unknown_retention "X"
                            (default ∅ (sample_nmr !! "X")) st sample_B _ _)) _).
    + discriminate.
    + vm_compute. reflexivity.
    + reflexivity.
  - apply (proj2 spin_unknown_retention "X" (default ∅ (sample_nmr !! "X"))
             sample_A sample_B (PyFloat 0.5)).
    + reflexivity.
    + vm_compute. reflexivity.
    + reflexivity.
    + reflexivity.
    + vm_compute. reflexivity.
Defined.

(** ** The element loop *)

Lemma compile_element_Some nmr_data el data :
  compile_element nmr_data el = Some data ->
  let sym := out_symbol (symbol el) in
  let st := scan sym (default ∅ (nmr_data !! sym)) (el_isotopes el) init_state in
  most_iso st <> None /\
  data = {| data_symbol := sym; data_Z := number el;
            data_isotopes := isotopes st;
            maxiso := pointer (most_iso st);
            maxiso_NMR := pointer (most_NMR_iso st);
            maxiso_Q := pointer (most_Q_iso st) |}.
Proof.
  intros H. cbv zeta. unfold compile_element in H.
  destruct (most_iso _); [|discriminate].
  split; [discriminate|congruence].
Qed.

Lemma compile_element_None nmr_data el :
  compile_element nmr_data el = None <->
  most_iso (scan (out_symbol (symbol el))
              (default ∅ (nmr_data !! out_symbol (symbol el)))
              (el_isotopes el) init_state) = None.
Proof.
  unfold compile_element. destruct (most_iso _); split; congruence.
Qed.

Lemma out_symbol_not_n sym : out_symbol sym <> "n".
Proof.
  unfold out_symbol. destruct (decide (sym = "n")); [discriminate|assumption].
Qed.

Lemma fold_element_step_elem nmr_data els : forall acc sym data,
  (sym, data) ∈ fold_left (element_step nmr_data) els acc ->
  (sym, data) ∈ acc \/
  exists el, el ∈ els /\ compile_element nmr_data el = Some data /\
             sym = out_symbol (symbol el).
Proof.
  induction els as [|x l IH]; intros acc sym data Hin; [now left|].
  simpl in Hin. apply IH in Hin as [Hin|(el & Hel & Hc & Hs)].
  - unfold element_step in Hin.
    destruct (compile_element nmr_data x) as [d|] eqn:Hx; [|now left].
    apply dict_set_elem in Hin as [[= -> ->]|Hin]; [|now left].
    right. exists x. split; [apply elem_of_cons; now left|]. split; [assumption|].
    apply compile_element_Some in Hx as [_ ->]. reflexivity.
  - right. exists el. split; [apply elem_of_cons; now right|]. now split.
Qed.

(** Every entry of the output is the record of a source element, under that
    element's output symbol. *)
Lemma element_data_elem nmr_data els sym data :
  (sym, data) ∈ element_data nmr_data els ->
  exists el, el ∈ els /\ compile_element nmr_data el = Some data /\
             sym = out_symbol (symbol el).
Proof.
  intros Hin. apply fold_element_step_elem in Hin as [Hin|Hin]; [|assumption].
  inversion Hin.
Qed.

(** Every stored isotope of an output entry is the record of one of that
    element's isotopes. *)
Lemma element_data_isotope nmr_data els sym data A r :
  (sym, data) ∈ element_data nmr_data els ->
  (A, r) ∈ data_isotopes data ->
  exists el iso, el ∈ els /\ sym = out_symbol (symbol el) /\
    iso ∈ el_isotopes el /\ A = isotope iso /\
    recorded sym (default ∅ (nmr_data !! sym)) iso r.
Proof.
  intros Hin Hr. apply element_data_elem in Hin as (el & Hel & Hc & ->).
  apply compile_element_Some in Hc as [_ ->]. simpl in Hr.
  apply scan_elem in Hr as [Hr|(iso & Hi & Hk & Hrec)]; [inversion Hr|].
  exists el, iso. auto.
Qed.

Lemma scan_zero sym nmr isos : forall st,
  Forall (fun iso => (num_val (abundance iso) == 0)%Q) isos ->
  scan sym nmr isos st = st.
Proof.
  induction isos as [|x l IH]; intros st Hall; [reflexivity|].
  apply Forall_cons in Hall as [Hx Hl]. rewrite scan_cons, iso_step_zero.
  - now apply IH.
  - now apply num_eqb_eq.
Qed.

Lemma scan_filter_zero sym nmr isos : forall st,
  scan sym nmr isos st =
  scan sym nmr
    (List.filter (fun iso => negb (num_eqb (abundance iso) (PyInt 0))) isos) st.
Proof.
  induction isos as [|x l IH]; intros st; [reflexivity|].
  rewrite scan_cons. cbn [List.filter].
  destruct (num_eqb (abundance x) (PyInt 0)) eqn:Hz; cbn [negb].
  - rewrite iso_step_zero by assumption. apply IH.
  - rewrite scan_cons. apply IH.
Qed.

Ltac elem_tac :=
  repeat first [apply list_elem_of_here | apply list_elem_of_further].

Lemma NoDup_fmap_elem_inj {A B : Type} (f : A -> B) (l : list A) (x y : A) :
  NoDup (f <$> l) -> x ∈ l -> y ∈ l -> f x = f y -> x = y.
Proof.
  induction l as [|a l IH]; intros Hnd Hx Hy Hf; [inversion Hx|].
  rewrite fmap_cons in Hnd. apply NoDup_cons in Hnd as [Ha Hnd].
  apply elem_of_cons in Hx as [->|Hx]; apply elem_of_cons in Hy as [->|Hy].
  - reflexivity.
  - destruct Ha. rewrite Hf. apply list_elem_of_fmap. now exists y.
  - destruct Ha. rewrite <- Hf. apply list_elem_of_fmap. now exists x.
  - now apply IH.
Qed.

(** ** Isotopes that do not occur in nature *)

(** C5. An isotope whose abundance is exactly zero changes nothing when its
    turn comes: no record, no maximum moved; the scan is the scan of the
    isotopes of nonzero abundance.  No record of the output, under any element,
    has abundance zero, and (mass numbers being distinct within an element) the
    mass number of a zero-abundance isotope is not a key of its element's
    isotopes. *)
Theorem zero_abundance_skipped :
  (forall sym nmr st iso,
     (num_val (abundance iso) == 0)%Q -> iso_step sym nmr st iso = st) /\
  (forall sym nmr isos st,
     scan sym nmr isos st =
     scan sym nmr
       (List.filter (fun iso => negb (num_eqb (abundance iso) (PyInt 0))) isos) st) /\
  (forall nmr_data els sym data A r,
     (sym, data) ∈ element_data nmr_data els ->
     (A, r) ∈ data_isotopes data ->
     ~ (num_val (rec_abundance r) == 0)%Q) /\
  (forall nmr_data el data iso,
     compile_element nmr_data el = Some data ->
     NoDup (isotope <$> el_isotopes el) ->
     iso ∈ el_isotopes el ->
     (num_val (abundance iso) == 0)%Q ->
     dict_get (data_isotopes data) (isotope iso) = None).
Proof.
  split; [|split; [|split]].
  - intros sym nmr st iso Hz. apply iso_step_zero. now apply num_eqb_eq.
  - intros. apply scan_filter_zero.
  - intros nmr_data els sym data A r Hd Hr.
    destruct (element_data_isotope _ _ _ _ _ _ Hd Hr)
      as (el & iso & _ & _ & _ & _ & Hrec).
    destruct Hrec as (_ & _ & -> & Hz & _). now apply (num_eqb_neq _ (PyInt 0)).
  - intros nmr_data el data iso Hc Hnd Hi Hz.
    apply compile_element_Some in Hc as [_ ->]. simpl.
    destruct (dict_get _ (isotope iso)) as [r|] eqn:Hr; [exfalso|reflexivity].
    apply dict_get_elem, scan_elem in Hr as [Hr|(iso' & Hi' & Hk & Hrec)];
      [inversion Hr|].
    assert (iso = iso') as <- by (eapply NoDup_fmap_elem_inj; eassumption).
    destruct Hrec as (_ & _ & _ & Hnz & _).
    apply (num_eqb_neq _ (PyInt 0)) in Hnz. contradiction.
Qed.

Lemma zero_abundance_skipped_witness :
  let tritium := {| mass := PyFloat 3.01604927791; isotope := 3;
                    abundance := PyInt 0 |} in
  iso_step "H" (default ∅ (sample_nmr !! "H")) init_state tritium = init_state /\
  ~ (num_val (PyFloat 99.9885) == 0)%Q /\
  dict_get (data_isotopes sample_H_data) 3%Z = None.
Proof.
  intros tritium. destruct zero_abundance_skipped as (H1 & _ & H3 & H4).
  split; [|split].
  - apply H1. reflexivity.
  - refine (H3 sample_nmr sample_elements "H" sample_H_data 1%Z
              (mkIsotopeRecord 1 (PyFloat 1.00782503223) (PyFloat 99.9885)
                 (Some (PyFloat 0.5)) (Some (PyFloat 267522128.0))
                 (Some (PyFloat 0.0))) _ _).
    + rewrite sample_run. unfold sample_output. elem_tac.
    + unfold sample_H_data, data_isotopes. elem_tac.
  - apply (H4 sample_nmr sample_H sample_H_data tritium).
    + apply sample_compile_H.
    + apply (bool_decide_unpack _). vm_compute. exact I.
    + unfold sample_H, el_isotopes. elem_tac.
    + reflexivity.
Defined.

(** ** Spin of a stored isotope *)

(** C6. Every isotope stored under any element of the output has a spin: the
    spin the NMR table gives, or the int 0 when the table gives none.  An
    isotope for which the table gives no spin is either not stored (the turn
    changes nothing) or stored with spin 0. *)
Theorem spin_always_defined :
  (forall nmr_data els sym data A r,
     (sym, data) ∈ element_data nmr_data els ->
     (A, r) ∈ data_isotopes data ->
     rec_spin r <> None /\
     exists s, rec_spin r = Some s /\
       (s = PyInt 0 \/
        default ∅ (default ∅ (nmr_data !! sym) !! str A) !! "I" = Some s)) /\
  (forall sym nmr st iso,
     default ∅ (nmr !! str (isotope iso)) !! "I" = None ->
     iso_step sym nmr st iso = st \/
     exists r, isotopes (iso_step sym nmr st iso) =
                 dict_set (isotopes st) (isotope iso) r /\
               rec_spin r = Some (PyInt 0)).
Proof.
  split.
  - intros nmr_data els sym data A r Hd Hr.
    destruct (element_data_isotope _ _ _ _ _ _ Hd Hr)
      as (el & iso & _ & _ & _ & -> & Hrec).
    destruct Hrec as (_ & _ & _ & _ & Hs & _).
    destruct (default ∅ (default ∅ (nmr_data !! sym) !! str (isotope iso)) !! "I")
      as [s|] eqn:E; rewrite Hs; (split; [discriminate|eauto]).
  - intros sym nmr st iso Hspin.
    destruct (iso_step_cases sym nmr st iso) as [Heq|(r & Hrec & Hd & _)];
      [now left|right].
    exists r. split; [assumption|].
    destruct Hrec as (_ & _ & _ & _ & Hs & _). now rewrite Hspin in Hs.
Qed.

Lemma spin_always_defined_witness :
  rec_spin (mkIsotopeRecord 11 (PyFloat 11.0093) (PyFloat 0.9)
              (Some (PyInt 0)) None None) <> None /\
  (iso_step "X" (default ∅ (sample_nmr !! "X")) init_state sample_B = init_state \/
   exists r, isotopes (iso_step "X" (default ∅ (sample_nmr !! "X")) init_state sample_B)
               = dict_set [] 11%Z r /\
             rec_spin r = Some (PyInt 0)).
Proof.
  destruct spin_always_defined as [H1 H2]. split.
  - refine (proj1 (H1 sample_nmr sample_elements "X" sample_X_data 11%Z _ _ _)).
    + rewrite sample_run. unfold sample_output. elem_tac.
    + unfold sample_X_data, data_isotopes. elem_tac.
  - apply (H2 "X" (default ∅ (sample_nmr !! "X")) init_state sample_B).
    vm_compute. reflexivity.
Defined.

(** ** The neutron entry *)

(** C8. The symbol [n] is never a key of the output.  The record of the
    neutron entry, when there is one, carries the symbol [Mu] and is stored
    under the key [Mu], and every isotope stored in it (as in any record found
    under [Mu]) has the mass 0.113428913072988, whatever mass the table
    gives. *)
Theorem neutron_becomes_muonium :
  (forall nmr_data els, "n" ∉ dict_keys (element_data nmr_data els)) /\
  (forall nmr_data el data,
     symbol el = "n" ->
     compile_element nmr_data el = Some data ->
     data_symbol data = "Mu" /\
     (forall acc, element_step nmr_data acc el = dict_set acc "Mu" data) /\
     (forall A r, (A, r) ∈ data_isotopes data ->
        rec_mass r = PyFloat 0.113428913072988)) /\
  (forall nmr_data els data A r,
     ("Mu", data) ∈ element_data nmr_data els ->
     (A, r) ∈ data_isotopes data ->
     rec_mass r = PyFloat 0.113428913072988).
Proof.
  split; [|split].
  - intros nmr_data els Hin.
    apply dict_keys_get in Hin as [data Hd].
    apply dict_get_elem, element_data_elem in Hd as (el & _ & _ & Hs).
    symmetry in Hs. now apply out_symbol_not_n in Hs.
  - intros nmr_data el data Hn Hc.
    assert (Hsym : out_symbol (symbol el) = "Mu") by now rewrite Hn.
    pose proof (compile_element_Some _ _ _ Hc) as [_ Hdata].
    rewrite Hsym in Hdata.
    split; [now rewrite Hdata|]. split.
    + intros acc. unfold element_step. rewrite Hc. now rewrite Hdata.
    + intros A r Hr. rewrite Hdata in Hr. simpl in Hr.
      apply scan_elem in Hr as [Hr|(iso & _ & _ & Hrec)]; [inversion Hr|].
      destruct Hrec as (_ & Hm & _). rewrite Hm. reflexivity.
  - intros nmr_data els data A r Hd Hr.
    destruct (element_data_isotope _ _ _ _ _ _ Hd Hr)
      as (el & iso & _ & _ & _ & _ & Hrec).
    destruct Hrec as (_ & Hm & _). rewrite Hm. reflexivity.
Qed.

Lemma neutron_becomes_muonium_witness :
  data_symbol sample_Mu_data = "Mu" /\
  (forall acc, element_step sample_nmr acc sample_n = dict_set acc "Mu" sample_Mu_data) /\
  (forall A r, (A, r) ∈ data_isotopes sample_Mu_data ->
     rec_mass r = PyFloat 0.113428913072988).
Proof.
  apply (proj1 (proj2 neutron_becomes_muonium) sample_nmr sample_n sample_Mu_data).
  - reflexivity.
  - apply sample_compile_n.
Defined.

(** ** Elements left out *)

Lemma iso_step_most_iso sym nmr st iso :
  most_iso st <> None -> most_iso (iso_step sym nmr st iso) <> None.
Proof.
  intros Hs. destruct (iso_step_cases sym nmr st iso) as [->|(r & _ & _ & Hc)];
    [assumption|].
  specialize (Hc Overall). simpl in Hc.
  destruct (num_gtb _ _ && true); injection Hc as -> _; [discriminate|assumption].
Qed.

Lemma scan_most_iso sym nmr isos : forall st,
  most_iso st <> None -> most_iso (scan sym nmr isos st) <> None.
Proof.
  induction isos as [|x l IH]; intros st Hs; [assumption|].
  rewrite scan_cons. apply IH, iso_step_most_iso, Hs.
Qed.

(** The first isotope of positive abundance is always selected. *)
Lemma iso_step_init_positive sym nmr iso :
  (0 < num_val (abundance iso))%Q ->
  most_iso (iso_step sym nmr init_state iso) = Some (isotope iso).
Proof.
  intros Hpos.
  assert (Hz : num_eqb (abundance iso) (PyInt 0) = false).
  { apply num_eqb_neq. intros E. rewrite E in Hpos. now apply Qlt_irrefl in Hpos. }
  assert (Hr : exists spin,
    retention init_state (abundance iso)
      (default ∅ (nmr !! str (isotope iso)) !! "I") = Some spin).
  { unfold retention. destruct (_ !! "I"); [eauto|].
    assert (E : num_ltb (abundance iso) (py_min (PyInt 0) (PyInt 0)) = false).
    { apply num_ltb_ge. now apply Qlt_le_weak. }
    simpl. rewrite E. eauto. }
  destruct Hr as [spin Hr].
  destruct (iso_step_record sym nmr init_state iso spin Hz Hr) as (r & _ & _ & _ & Hc).
  specialize (Hc Overall). simpl in Hc.
  assert (E : num_gtb (abundance iso) (PyInt 0) = true) by now apply num_ltb_lt.
  rewrite E in Hc. simpl in Hc. now injection Hc as -> _.
Qed.

Lemma scan_init_None sym nmr isos :
  (forall iso, iso ∈ isos -> (0 <= num_val (abundance iso))%Q) ->
  most_iso (scan sym nmr isos init_state) = None ->
  Forall (fun iso => (num_val (abundance iso) == 0)%Q) isos.
Proof.
  induction isos as [|x l IH]; intros Hnn Hnone; [constructor|].
  assert (Hx : (0 <= num_val (abundance x))%Q) by (apply Hnn, elem_of_cons; now left).
  assert (Hl : forall iso, iso ∈ l -> (0 <= num_val (abundance iso))%Q).
  { intros iso Hi. apply Hnn, elem_of_cons. now right. }
  rewrite scan_cons in Hnone.
  destruct (Qeq_dec (num_val (abundance x)) 0) as [Hz|Hz].
  - rewrite iso_step_zero in Hnone by now apply num_eqb_eq.
    constructor; [assumption|now apply IH].
  - exfalso. revert Hnone. apply scan_most_iso.
    rewrite iso_step_init_positive; [discriminate|].
    apply Qle_lteq in Hx as [Hx|Hx]; [assumption|]. destruct Hz. now symmetry.
Qed.

Lemma fold_element_step_get_other nmr_data els : forall acc sym,
  sym ∉ (fun e => out_symbol (symbol e)) <$> els ->
  dict_get (fold_left (element_step nmr_data) els acc) sym = dict_get acc sym.
Proof.
  induction els as [|x l IH]; intros acc sym Hs; [reflexivity|].
  rewrite fmap_cons, not_elem_of_cons in Hs. destruct Hs as [Hx Hl].
  simpl. rewrite IH by assumption. unfold element_step.
  destruct (compile_element nmr_data x) as [d|] eqn:Hc; [|reflexivity].
  apply compile_element_Some in Hc as [_ ->]. simpl.
  now apply dict_get_set_ne.
Qed.

Lemma fold_element_step_get nmr_data els : forall acc el,
  NoDup ((fun e => out_symbol (symbol e)) <$> els) ->
  el ∈ els ->
  dict_get (fold_left (element_step nmr_data) els acc) (out_symbol (symbol el)) =
  match compile_element nmr_data el with
  | Some data => Some data
  | None => dict_get acc (out_symbol (symbol el))
  end.
Proof.
  induction els as [|x l IH]; intros acc el Hnd Hel; [inversion Hel|].
  rewrite fmap_cons in Hnd. apply NoDup_cons in Hnd as [Hx Hnd].
  apply elem_of_cons in Hel as [->|Hel]; simpl.
  - rewrite fold_element_step_get_other by assumption. unfold element_step.
    destruct (compile_element nmr_data x) as [d|] eqn:Hc; [|reflexivity].
    pose proof (compile_element_Some _ _ _ Hc) as [_ Hd].
    replace (data_symbol d) with (out_symbol (symbol x)) by now rewrite Hd.
    apply dict_get_set_eq.
  - rewrite IH by assumption.
    destruct (compile_element nmr_data el) as [d|]; [reflexivity|].
    unfold element_step.
    destruct (compile_element nmr_data x) as [dx|] eqn:Hc; [|reflexivity].
    apply compile_element_Some in Hc as [_ ->]. simpl.
    apply dict_get_set_ne. intros E. apply Hx. rewrite <- E.
    apply list_elem_of_fmap. now exists el.
Qed.

(** With distinct output symbols, the entry under an element's symbol is that
    element's record. *)
Lemma element_data_get nmr_data els el :
  NoDup ((fun e => out_symbol (symbol e)) <$> els) ->
  el ∈ els ->
  dict_get (element_data nmr_data els) (out_symbol (symbol el)) =
  compile_element nmr_data el.
Proof.
  intros Hnd Hel. unfold element_data. rewrite fold_element_step_get by assumption.
  now destruct (compile_element nmr_data el).
Qed.

(** C4. An element of the table (output symbols distinct, abundances not
    negative) has no entry in the output exactly when its scan ends with no
    isotope selected as the most abundant one, and that is exactly when every
    one of its isotopes has abundance zero (in particular when it has none). *)
Theorem element_absent_iff nmr_data els el :
  NoDup ((fun e => out_symbol (symbol e)) <$> els) ->
  el ∈ els ->
  (forall iso, iso ∈ el_isotopes el -> (0 <= num_val (abundance iso))%Q) ->
  let sym := out_symbol (symbol el) in
  let st := scan sym (default ∅ (nmr_data !! sym)) (el_isotopes el) init_state in
  (sym ∉ dict_keys (element_data nmr_data els) <-> most_iso st = None) /\
  (most_iso st = None <->
   Forall (fun iso => (num_val (abundance iso) == 0)%Q) (el_isotopes el)).
Proof.
  intros Hnd Hel Hnn sym st. split.
  - rewrite <- dict_get_None. unfold sym at 1.
    rewrite element_data_get by assumption. apply compile_element_None.
  - split.
    + now apply scan_init_None.
    + intros Hall. unfold st. now rewrite scan_zero.
Qed.

Lemma element_absent_iff_witness :
  ("Tc" ∉ dict_keys (element_data sample_nmr sample_elements) <->
   most_iso (scan "Tc" (default ∅ (sample_nmr !! "Tc"))
               (el_isotopes sample_Tc) init_state) = None) /\
  (most_iso (scan "Tc" (default ∅ (sample_nmr !! "Tc"))
               (el_isotopes sample_Tc) init_state) = None <->
   Forall (fun iso => (num_val (abundance iso) == 0)%Q) (el_isotopes sample_Tc)).
Proof.
  apply (element_absent_iff sample_nmr sample_elements sample_Tc).
  - apply (bool_decide_unpack _). vm_compute. exact I.
  - unfold sample_elements. elem_tac.
  - intros iso Hi. unfold sample_Tc, el_isotopes in Hi.
    apply list_elem_of_singleton in Hi as ->. discriminate.
Defined.

(** ** The three pointers *)

Lemma pointer_Some m s :
  pointer m = Some s -> exists a, m = Some a /\ a <> 0%Z /\ s = str a.
Proof.
  unfold pointer. destruct m as [a|]; [|discriminate].
  destruct (decide (a = 0%Z)); [discriminate|]. intros [= <-]. eauto.
Qed.

Lemma compile_element_ptr nmr_data el data c :
  compile_element nmr_data el = Some data ->
  data_ptr c data =
  pointer (ptr c (scan (out_symbol (symbol el))
                    (default ∅ (nmr_data !! out_symbol (symbol el)))
                    (el_isotopes el) init_state)) /\
  data_isotopes data =
  isotopes (scan (out_symbol (symbol el))
              (default ∅ (nmr_data !! out_symbol (symbol el)))
              (el_isotopes el) init_state).
Proof.
  intros Hc. apply compile_element_Some in Hc as [_ ->]. now destruct c.
Qed.

(** A pointer that is set names a key, whatever the source order. *)
Lemma iso_step_ptr_key sym nmr st iso :
  (forall c a, ptr c st = Some a -> a ∈ dict_keys (isotopes st)) ->
  forall c a, ptr c (iso_step sym nmr st iso) = Some a ->
              a ∈ dict_keys (isotopes (iso_step sym nmr st iso)).
Proof.
  intros Hst c a.
  destruct (iso_step_cases sym nmr st iso) as [->|(r & _ & Hd & Hc)]; [apply Hst|].
  specialize (Hc c). rewrite Hd. intros Ha. apply dict_keys_set.
  destruct (num_gtb _ _ && _); injection Hc as Hp _; rewrite Hp in Ha.
  - left. congruence.
  - right. eapply Hst, Ha.
Qed.

Lemma scan_ptr_key sym nmr isos : forall st,
  (forall c a, ptr c st = Some a -> a ∈ dict_keys (isotopes st)) ->
  forall c a, ptr c (scan sym nmr isos st) = Some a ->
              a ∈ dict_keys (isotopes (scan sym nmr isos st)).
Proof.
  induction isos as [|x l IH]; intros st Hst; [assumption|].
  rewrite scan_cons. apply IH. now apply iso_step_ptr_key.
Qed.

Lemma data_ptr_key nmr_data el data c s :
  compile_element nmr_data el = Some data ->
  data_ptr c data = Some s ->
  exists A, s = str A /\ A <> 0%Z /\ A ∈ dict_keys (data_isotopes data).
Proof.
  intros Hc Hs. destruct (compile_element_ptr _ _ _ c Hc) as [Hp Hi].
  rewrite Hp in Hs. apply pointer_Some in Hs as (a & Ha & Hnz & ->).
  exists a. split; [reflexivity|]. split; [assumption|]. rewrite Hi.
  eapply scan_ptr_key; [|exact Ha].
  intros c' a' H'. destruct c'; discriminate.
Qed.

(** What the invariant of a maximum says of a finished record. *)
Lemma data_ptr_max nmr_data el data c s :
  compile_element nmr_data el = Some data ->
  NoDup (isotope <$> el_isotopes el) ->
  data_ptr c data = Some s ->
  exists pre x post r,
    el_isotopes el = pre ++ x :: post /\
    s = str (isotope x) /\
    dict_get (data_isotopes data) (isotope x) = Some r /\
    qualifies c r = true /\
    rec_abundance r = abundance x /\
    (forall A' r', (A', r') ∈ data_isotopes data -> qualifies c r' = true ->
       (num_val (rec_abundance r') <= num_val (rec_abundance r))%Q) /\
    (forall y r', y ∈ pre -> dict_get (data_isotopes data) (isotope y) = Some r' ->
       qualifies c r' = true ->
       (num_val (rec_abundance r') < num_val (rec_abundance r))%Q).
Proof.
  intros Hc Hnd Hs. destruct (compile_element_ptr _ _ _ c Hc) as [Hp Hi].
  rewrite Hp in Hs. apply pointer_Some in Hs as (a & Ha & _ & ->).
  rewrite Hi.
  destruct (max_inv_scan c (out_symbol (symbol el))
              (default ∅ (nmr_data !! out_symbol (symbol el))) _ Hnd)
    as (_ & Hbound & Hptr).
  destruct (Hptr a Ha) as (pre & x & post & r & Hsplit & <- & Hr & Hq & Hab & Hx & Hlt).
  exists pre, x, post, r. repeat split; try assumption.
  intros A' r' Hin Hq'. rewrite Hab. apply (Hbound A'); [|assumption].
  apply dict_elem_get; [|assumption].
  apply scan_NoDup. apply NoDup_nil_2.
Qed.

(** C2. In every record of the output, each of [maxiso], [maxiso_NMR] and
    [maxiso_Q] that is not [None] is [str] of a mass number that is a key of
    the record's isotopes.  When mass numbers are distinct within each source
    element, the isotope stored under the mass number that [maxiso] names is at
    least as abundant as every isotope stored in the record. *)
Theorem pointers_name_stored_isotopes nmr_data els sym data :
  (sym, data) ∈ element_data nmr_data els ->
  (forall p s, p ∈ [maxiso data; maxiso_NMR data; maxiso_Q data] -> p = Some s ->
     exists A, s = str A /\ A ∈ dict_keys (data_isotopes data)) /\
  (Forall (fun el => NoDup (isotope <$> el_isotopes el)) els ->
   forall s, maxiso data = Some s ->
     exists A r, s = str A /\ dict_get (data_isotopes data) A = Some r /\
       forall A' r', (A', r') ∈ data_isotopes data ->
         (num_val (rec_abundance r') <= num_val (rec_abundance r))%Q).
Proof.
  intros Hd. apply element_data_elem in Hd as (el & Hel & Hc & _). split.
  - intros p s Hp Hs.
    assert (Hcat : exists c, p = data_ptr c data).
    { repeat (apply elem_of_cons in Hp as [->|Hp]);
        [exists Overall|exists NMRActive|exists Quadrupolar|inversion Hp]; reflexivity. }
    destruct Hcat as [c ->].
    destruct (data_ptr_key _ _ _ _ _ Hc Hs) as (A & HA & _ & Hk). eauto.
  - intros Hnd s Hs. rewrite Forall_forall in Hnd.
    destruct (data_ptr_max _ _ _ Overall _ Hc (Hnd el Hel) Hs)
      as (pre & x & post & r & _ & -> & Hr & _ & _ & Hle & _).
    exists (isotope x), r. repeat split; try assumption.
    intros A' r' Hin. now apply (Hle A').
Qed.

Lemma pointers_name_stored_isotopes_witness :
  (forall p s, p ∈ [maxiso sample_H_data; maxiso_NMR sample_H_data;
                    maxiso_Q sample_H_data] -> p = Some s ->
     exists A, s = str A /\ A ∈ dict_keys (data_isotopes sample_H_data)) /\
  (exists A r, "1" = str A /\ dict_get (data_isotopes sample_H_data) A = Some r /\
     forall A' r', (A', r') ∈ data_isotopes sample_H_data ->
       (num_val (rec_abundance r') <= num_val (rec_abundance r))%Q).
Proof.
  assert (Hin : ("H", sample_H_data) ∈ element_data sample_nmr sample_elements).
  { rewrite sample_run. unfold sample_output. elem_tac. }
  destruct (pointers_name_stored_isotopes sample_nmr sample_elements "H"
              sample_H_data Hin) as [H1 H2].
  split; [exact H1|]. apply H2.
  - apply (bool_decide_unpack _). vm_compute. exact I.
  - reflexivity.
Defined.

(** C7. In every record of the output (mass numbers distinct within each
    source element), [maxiso_NMR], when it is not [None], is [str] of the mass
    number of a stored isotope whose spin is truthy (a number other than 0),
    and no stored isotope with truthy spin is more abundant than it. *)
Theorem maxiso_NMR_most_abundant_spin nmr_data els sym data s :
  Forall (fun el => NoDup (isotope <$> el_isotopes el)) els ->
  (sym, data) ∈ element_data nmr_data els ->
  maxiso_NMR data = Some s ->
  exists A r, s = str A /\ dict_get (data_isotopes data) A = Some r /\
    truthy (rec_spin r) = true /\
    (exists sp, rec_spin r = Some sp /\ ~ (num_val sp == 0)%Q) /\
    forall A' r', (A', r') ∈ data_isotopes data -> truthy (rec_spin r') = true ->
      ~ (num_val (rec_abundance r) < num_val (rec_abundance r'))%Q.
Proof.
  intros Hnd Hd Hs. rewrite Forall_forall in Hnd.
  apply element_data_elem in Hd as (el & Hel & Hc & _).
  destruct (data_ptr_max _ _ _ NMRActive _ Hc (Hnd el Hel) Hs)
    as (pre & x & post & r & _ & -> & Hr & Hq & _ & Hle & _).
  simpl in Hq. exists (isotope x), r. repeat split; try assumption.
  - destruct (rec_spin r) as [sp|]; [|discriminate]. exists sp. split; [reflexivity|].
    simpl in Hq. unfold num_truthy in Hq. apply negb_true_iff in Hq.
    now apply (num_eqb_neq _ (PyInt 0)).
  - intros A' r' Hin Hq'. apply Qle_not_lt. now apply (Hle A').
Qed.

Lemma maxiso_NMR_most_abundant_spin_witness :
  exists A r, "10" = str A /\ dict_get (data_isotopes sample_X_data) A = Some r /\
    truthy (rec_spin r) = true /\
    (exists sp, rec_spin r = Some sp /\ ~ (num_val sp == 0)%Q) /\
    forall A' r', (A', r') ∈ data_isotopes sample_X_data ->
      truthy (rec_spin r') = true ->
      ~ (num_val (rec_abundance r) < num_val (rec_abundance r'))%Q.
Proof.
  apply (maxiso_NMR_most_abundant_spin sample_nmr sample_elements "X" sample_X_data "10").
  - apply (bool_decide_unpack _). vm_compute. exact I.
  - rewrite sample_run. unfold sample_output. elem_tac.
  - reflexivity.
Defined.


(** * The text and its JSON payload *)

(** ** Reading numbers *)

Lemma stops_cons c rest :
  stops (c :: rest) = true ->
  is_digit c = false /\ (N_of_ascii c =? 46)%N = false /\
  (N_of_ascii c =? 101)%N = false /\ (N_of_ascii c =? 69)%N = false /\
  (N_of_ascii c =? 43)%N = false /\ (N_of_ascii c =? 45)%N = false.
Proof.
  simpl. rewrite negb_true_iff, !orb_false_iff. tauto.
Qed.

Lemma span_digits_app s : forall ds r rest,
  span_digits s = (ds, r) -> (r = [] -> stops rest = true) ->
  span_digits (s ++ rest) = (ds, r ++ rest).
Proof.
  induction s as [|c s IH]; intros ds r rest Hs Hrest; simpl in *.
  - injection Hs as <- <-. specialize (Hrest eq_refl).
    destruct rest as [|c rest]; [reflexivity|].
    apply stops_cons in Hrest as (Hd & _). simpl. now rewrite Hd.
  - destruct (is_digit c).
    + destruct (span_digits s) as [ds' r'] eqn:E. injection Hs as <- <-.
      now rewrite (IH ds' r' rest eq_refl Hrest).
    + injection Hs as <- <-. reflexivity.
Qed.

Lemma scan_frac_app s f r rest :
  scan_frac s = (f, r) -> stops rest = true ->
  scan_frac (s ++ rest) = (f, r ++ rest).
Proof.
  intros Hs Hrest. destruct s as [|c s]; simpl in *.
  - injection Hs as <- <-. destruct rest as [|c rest]; [reflexivity|].
    apply stops_cons in Hrest as (_ & Hp & _). simpl. now rewrite Hp.
  - destruct (N_of_ascii c =? 46)%N.
    + destruct (span_digits s) as [ds r'] eqn:E.
      rewrite (span_digits_app s ds r' rest E (fun _ => Hrest)).
      destruct ds; injection Hs as <- <-; reflexivity.
    + injection Hs as <- <-. reflexivity.
Qed.

Lemma scan_exp_app s e r rest :
  scan_exp s = (e, r) -> stops rest = true ->
  scan_exp (s ++ rest) = (e, r ++ rest).
Proof.
  intros Hs Hrest. destruct s as [|c s].
  - simpl in Hs. injection Hs as <- <-. destruct rest as [|c rest]; [reflexivity|].
    apply stops_cons in Hrest as (_ & _ & He1 & He2 & _).
    simpl app. unfold scan_exp. now rewrite He1, He2.
  - simpl app. unfold scan_exp in *.
    destruct ((N_of_ascii c =? 101)%N || (N_of_ascii c =? 69)%N);
      [|injection Hs as <- <-; reflexivity].
    destruct s as [|g s].
    + simpl in Hs. injection Hs as <- <-. simpl app.
      destruct rest as [|g rest]; [reflexivity|].
      apply stops_cons in Hrest as (Hd & _ & _ & _ & Hp & Hm).
      rewrite Hm, Hp. simpl. now rewrite Hd.
    + simpl app. cbv beta iota.
      destruct (N_of_ascii g =? 45)%N;
        [|destruct (N_of_ascii g =? 43)%N].
      * destruct (span_digits s) as [ds r'] eqn:E.
        rewrite (span_digits_app s ds r' rest E (fun _ => Hrest)).
        destruct ds; injection Hs as <- <-; reflexivity.
      * destruct (span_digits s) as [ds r'] eqn:E.
        rewrite (span_digits_app s ds r' rest E (fun _ => Hrest)).
        destruct ds; injection Hs as <- <-; reflexivity.
      * destruct (span_digits (g :: s)) as [ds r'] eqn:E.
        change (g :: s ++ rest) with ((g :: s) ++ rest).
        rewrite (span_digits_app (g :: s) ds r' rest E (fun _ => Hrest)).
        destruct ds; injection Hs as <- <-; reflexivity.
Qed.

Lemma scan_integer_app s neg ds r rest :
  scan_integer s = Some (neg, ds, r) -> stops rest = true ->
  scan_integer (s ++ rest) = Some (neg, ds, r ++ rest).
Proof.
  intros Hs Hrest. unfold scan_integer in *.
  assert (Hcore : forall s1 neg0,
    match s1 with
    | c :: s2 =>
        if is_zero_char c then Some (neg0, [c], s2)
        else if is_digit c then let '(ds, r) := span_digits s1 in Some (neg0, ds, r)
        else None
    | [] => None
    end = Some (neg, ds, r) ->
    match s1 ++ rest with
    | c :: s2 =>
        if is_zero_char c then Some (neg0, [c], s2)
        else if is_digit c
             then let '(ds, r) := span_digits (s1 ++ rest) in Some (neg0, ds, r)
        else None
    | [] => None
    end = Some (neg, ds, r ++ rest)).
  { intros [|c s2] neg0 H; [discriminate|]. simpl app. cbv beta iota.
    destruct (is_zero_char c); [now injection H as <- <- <-|].
    destruct (is_digit c); [|discriminate].
    destruct (span_digits (c :: s2)) as [ds' r'] eqn:E.
    change (c :: s2 ++ rest) with ((c :: s2) ++ rest).
    rewrite (span_digits_app (c :: s2) ds' r' rest E (fun _ => Hrest)).
    now injection H as <- <- <-. }
  destruct s as [|c s]; [discriminate|]. simpl app. cbv beta iota in Hs |- *.
  destruct (N_of_ascii c =? 45)%N.
  - now apply Hcore.
  - now apply (Hcore (c :: s)).
Qed.

Lemma scan_number_app s n r rest :
  scan_number s = Some (n, r) -> stops rest = true ->
  scan_number (s ++ rest) = Some (n, r ++ rest).
Proof.
  intros Hs Hrest. unfold scan_number in *.
  destruct (scan_integer s) as [[[neg ds] r1]|] eqn:E1; [|discriminate].
  rewrite (scan_integer_app s neg ds r1 rest E1 Hrest).
  destruct (scan_frac r1) as [f r2] eqn:E2.
  rewrite (scan_frac_app r1 f r2 rest E2 Hrest).
  destruct (scan_exp r2) as [e r3] eqn:E3.
  rewrite (scan_exp_app r2 e r3 rest E3 Hrest).
  destruct f, e; injection Hs as <- <-; reflexivity.
Qed.

(** ** [str] of an int reads back *)

Lemma span_digits_uint d : span_digits (uint_chars d) = (uint_chars d, []).
Proof. induction d; simpl; rewrite ?IHd; reflexivity. Qed.

Lemma digits_val_uint_acc d : forall acc,
  digits_val (Zpos acc) (uint_chars d) = Zpos (Pos.of_uint_acc d acc).
Proof.
  induction d; intros acc; simpl; [reflexivity|..]; rewrite <- IHd; f_equal; lia.
Qed.

Lemma digits_val_uint d : digits_val 0 (uint_chars d) = Z.of_N (Pos.of_uint d).
Proof.
  induction d; simpl; [reflexivity|assumption|..];
    apply (digits_val_uint_acc d 1) || apply (digits_val_uint_acc d 2)
    || apply (digits_val_uint_acc d 3) || apply (digits_val_uint_acc d 4)
    || apply (digits_val_uint_acc d 5) || apply (digits_val_uint_acc d 6)
    || apply (digits_val_uint_acc d 7) || apply (digits_val_uint_acc d 8)
    || apply (digits_val_uint_acc d 9).
Qed.

(** The decimal of a positive number does not start with 0. *)
Lemma to_uint_head p :
  match Pos.to_uint p with
  | Decimal.Nil | Decimal.D0 _ => False
  | _ => True
  end.
Proof.
  pose proof (Unsigned.to_of (Pos.to_uint p)) as H.
  rewrite Unsigned.of_to in H. simpl in H.
  pose proof (Unsigned.to_uint_nonzero p) as Hnz.
  pose proof (Unsigned.to_uint_nonnil p) as Hnn.
  destruct (Pos.to_uint p) as [|d| | | | | | | | |] eqn:E; try exact I.
  - congruence.
  - rewrite unorm_D0 in H. unfold Decimal.unorm in H.
    destruct (Decimal.nzhead d) eqn:En; try discriminate.
    + injection H as ->. now destruct Hnz.
    + injection H as H. subst. eapply nzhead_nonzero. eassumption.
Qed.

Lemma is_digit_not_sign c :
  is_digit c = true -> (N_of_ascii c =? 45)%N = false /\ (N_of_ascii c =? 43)%N = false.
Proof.
  unfold is_digit. intros H. apply andb_true_iff in H as [H1 H2].
  apply N.leb_le in H1, H2. split; apply N.eqb_neq; lia.
Qed.

Lemma uint_chars_head p :
  exists c s, uint_chars (Pos.to_uint p) = c :: s /\
              is_digit c = true /\ is_zero_char c = false.
Proof.
  pose proof (to_uint_head p) as Hh.
  destruct (Pos.to_uint p); try contradiction; simpl; eauto.
Qed.

Lemma scan_integer_digits c s :
  is_digit c = true -> is_zero_char c = false ->
  scan_integer (c :: s) = Some (false, fst (span_digits (c :: s)), snd (span_digits (c :: s)))
  /\ scan_integer ("-"%char :: c :: s)
     = Some (true, fst (span_digits (c :: s)), snd (span_digits (c :: s))).
Proof.
  intros Hd Hz. destruct (is_digit_not_sign c Hd) as [Hm _].
  unfold scan_integer. cbv beta iota. rewrite Hm. simpl N.eqb. cbv beta iota.
  rewrite Hz, Hd. now destruct (span_digits (c :: s)).
Qed.

Lemma scan_number_integer s neg ds :
  scan_integer s = Some (neg, ds, []) ->
  scan_number s
  = Some (PyInt (if neg then - digits_val 0 ds else digits_val 0 ds)%Z, []).
Proof. intros H. unfold scan_number. now rewrite H. Qed.

Lemma scan_number_int z : scan_number (int_chars z) = Some (PyInt z, []).
Proof.
  destruct z as [|p|p]; unfold int_chars; simpl Z.to_int; cbv beta iota;
    [reflexivity|..];
    pose proof (digits_val_uint (Pos.to_uint p)) as Hv;
    rewrite Unsigned.of_to in Hv; simpl in Hv;
    pose proof (span_digits_uint (Pos.to_uint p)) as Hs;
    destruct (uint_chars_head p) as (c & s & E & Hd & Hz);
    destruct (scan_integer_digits c s Hd Hz) as [H1 H2];
    rewrite E in *; rewrite Hs in H1, H2; simpl fst in *; simpl snd in *.
  - rewrite (scan_number_integer _ _ _ H1). now rewrite Hv.
  - rewrite (scan_number_integer _ _ _ H2). now rewrite Hv.
Qed.

Lemma int_chars_inj z1 z2 : int_chars z1 = int_chars z2 -> z1 = z2.
Proof.
  intros H. pose proof (scan_number_int z1) as H1. rewrite H in H1.
  rewrite scan_number_int in H1. congruence.
Qed.

Lemma str_inj z1 z2 : str z1 = str z2 -> z1 = z2.
Proof.
  unfold str. intros H. apply int_chars_inj.
  rewrite <- (list_ascii_of_string_of_list_ascii (int_chars z1)), H.
  apply list_ascii_of_string_of_list_ascii.
Qed.

Lemma scan_number_repr n rest :
  num_ok n -> stops rest = true ->
  scan_number (num_repr n ++ rest) = Some (n, rest).
Proof.
  intros Hn Hrest. destruct n as [z|q]; simpl in *.
  - apply (scan_number_app _ _ [] rest (scan_number_int z) Hrest).
  - apply (scan_number_app _ _ [] rest Hn Hrest).
Qed.

(** ** Reading strings *)

Lemma scanstring_encode_char c s :
  scanstring (encode_char c ++ s) =
  match scanstring s with
  | Some (str, r) => Some (c :: str, r)
  | None => None
  end.
Proof.
  destruct c as [[] [] [] [] [] [] [] []]; reflexivity.
Qed.

Lemma scanstring_encode l rest :
  scanstring (concat (map encode_char l) ++ dq :: rest) = Some (l, rest).
Proof.
  induction l as [|c l IH]; [reflexivity|].
  simpl. rewrite <- app_assoc, scanstring_encode_char. now rewrite IH.
Qed.

Lemma encode_str_app s rest :
  encode_str s ++ rest
  = dq :: concat (map encode_char (list_ascii_of_string s)) ++ dq :: rest.
Proof. unfold encode_str. simpl. now rewrite <- app_assoc. Qed.

Lemma skip_ws_indent n c r :
  is_ws c = false -> skip_ws (newline_indent n ++ c :: r) = c :: r.
Proof.
  intros Hc. unfold newline_indent. simpl.
  induction (n + (n + 0)) as [|k IH]; simpl; [now rewrite Hc|exact IH].
Qed.

Arguments newline_indent : simpl never.

(** ** Reading a printed value back *)

Lemma pyval_ind' (P : pyval -> Prop) :
  P PNone -> (forall n, P (PNum n)) -> (forall s, P (PStr s)) ->
  (forall d, Forall (fun kv => P (snd kv)) d -> P (PDict d)) ->
  forall v, P v.
Proof.
  intros HNone HNum HStr HDict. fix IH 1.
  intros [|n|s|d]; [apply HNone|apply HNum|apply HStr|].
  apply HDict. induction d as [|kv d IHd]; constructor; [apply IH|apply IHd].
Qed.

Lemma scan_number_head s n r :
  scan_number s = Some (n, r) ->
  exists c s', s = c :: s' /\ number_start c = true.
Proof.
  destruct s as [|c s']; [discriminate|]. intros H. exists c, s'.
  split; [reflexivity|]. unfold number_start.
  unfold scan_number, scan_integer in H. cbv beta iota in H.
  destruct (N_of_ascii c =? 45)%N; [apply orb_true_r|]. rewrite orb_false_r.
  cbv beta iota in H. destruct (is_zero_char c) eqn:Ez.
  - unfold is_zero_char in Ez. apply N.eqb_eq in Ez. unfold is_digit. now rewrite Ez.
  - destruct (is_digit c); [reflexivity|discriminate].
Qed.

Lemma number_start_not_ws c : number_start c = true -> is_ws c = false.
Proof.
  unfold number_start, is_digit, is_ws. intros H.
  apply orb_true_iff in H as [H|H].
  - apply andb_true_iff in H as [H1 H2]. apply N.leb_le in H1, H2.
    rewrite !orb_false_iff. repeat split; apply N.eqb_neq; lia.
  - apply N.eqb_eq in H. now rewrite H.
Qed.

Lemma scan_once_number fuel c s :
  number_start c = true ->
  scan_once (S fuel) (c :: s) =
  match scan_number (c :: s) with
  | Some (n, r) => Some (PNum n, r)
  | None => None
  end.
Proof.
  intros H.
  destruct c as [[] [] [] [] [] [] [] []];
    try (vm_compute in H; discriminate H); reflexivity.
Qed.

Lemma skip_ws_nonws c r : is_ws c = false -> skip_ws (c :: r) = c :: r.
Proof. intros H. simpl. now rewrite H. Qed.

Lemma num_repr_head n :
  num_ok n -> exists c r, num_repr n = c :: r /\ number_start c = true.
Proof.
  intros Hn.
  assert (H : scan_number (num_repr n) = Some (n, [])).
  { destruct n as [z|q]; [apply scan_number_int|exact Hn]. }
  now apply scan_number_head in H.
Qed.

(** A printed value starts with a character that is not whitespace. *)
Lemma encode_head level v :
  floats_ok v -> exists c r, encode level v = c :: r /\ is_ws c = false.
Proof.
  intros Hv. destruct v as [|n|s|[|kv d]]; simpl; eauto.
  destruct (num_repr_head n Hv) as (c & r & -> & Hc).
  exists c, r. split; [reflexivity|now apply number_start_not_ws].
Qed.

Lemma JSONObject_step fuel s1 pairs :
  JSONObject (S fuel) (dq :: s1) pairs =
  match scanstring s1 with
  | None => None
  | Some (key, r) =>
      match skip_ws r with
      | [] => None
      | c1 :: r1 =>
          if (N_of_ascii c1 =? 58)%N then
            match scan_once fuel (skip_ws r1) with
            | None => None
            | Some (value, r2) =>
                let pairs' := pairs ++ [(KStr (string_of_list_ascii key), value)] in
                match skip_ws r2 with
                | [] => None
                | c2 :: r3 =>
                    if (N_of_ascii c2 =? 125)%N
                    then Some (PDict (py_dict pairs'), r3)
                    else if (N_of_ascii c2 =? 44)%N
                    then JSONObject fuel (skip_ws r3) pairs'
                    else None
                end
            end
          else None
      end
  end.
Proof. reflexivity. Qed.

Lemma encode_items_cons enc lv kv d :
  encode_items enc lv (kv :: d) =
  encode_str (key_str (fst kv)) ++ ":"%char :: " "%char :: enc (snd kv)
  ++ match d with
     | [] => []
     | _ => ","%char :: newline_indent lv ++ encode_items enc lv d
     end.
Proof. reflexivity. Qed.

Lemma JSONObject_items lv level d :
  Forall (fun kv =>
            floats_ok (snd kv) /\
            forall fuel rest, size (snd kv) <= fuel -> stops rest = true ->
              scan_once fuel (encode lv (snd kv) ++ rest)
              = Some (strkeys (snd kv), rest)) d ->
  d <> [] ->
  forall pairs fuel rest,
    fold_right (fun kv acc => S (size (snd kv) + acc)) 0 d <= fuel ->
    JSONObject fuel
      (encode_items (encode lv) lv d ++ newline_indent level ++ "}"%char :: rest) pairs
    = Some (PDict (py_dict (pairs ++ map strkey_item d)), rest).
Proof.
  induction d as [|kv d IH]; intros Hall Hne pairs fuel rest Hfuel; [congruence|].
  apply Forall_cons in Hall as [[Hf Hv] Hall].
  simpl in Hfuel. destruct fuel as [|fuel]; [lia|].
  destruct (encode_head lv (snd kv) Hf) as (c & r & Ec & Hc).
  assert (Hskip : forall T,
            skip_ws (" "%char :: encode lv (snd kv) ++ T) = encode lv (snd kv) ++ T).
  { intros T. rewrite Ec. change (skip_ws (" "%char :: ?x)) with (skip_ws x).
    rewrite <- app_comm_cons. now apply skip_ws_nonws. }
  rewrite encode_items_cons, <- app_assoc, encode_str_app.
  rewrite JSONObject_step, scanstring_encode.
  rewrite <- !app_comm_cons, (skip_ws_nonws ":"%char) by reflexivity.
  change (N_of_ascii ":"%char =? 58)%N with true. cbv beta iota.
  rewrite string_of_list_ascii_of_string, <- app_assoc, Hskip.
  destruct d as [|kv' d'].
  - rewrite app_nil_l, Hv by (reflexivity || lia).
    cbv beta iota zeta. rewrite skip_ws_indent by reflexivity.
    change (N_of_ascii "}"%char =? 125)%N with true. cbv beta iota.
    reflexivity.
  - rewrite <- app_comm_cons, Hv by (reflexivity || lia).
    cbv beta iota zeta. rewrite (skip_ws_nonws ","%char) by reflexivity.
    change (N_of_ascii ","%char =? 125)%N with false.
    change (N_of_ascii ","%char =? 44)%N with true. cbv beta iota.
    rewrite <- app_assoc.
    assert (Hq : exists X, encode_items (encode lv) lv (kv' :: d') = dq :: X).
    { rewrite encode_items_cons. unfold encode_str. eexists. reflexivity. }
    destruct Hq as [X HX].
    rewrite HX, <- app_comm_cons, skip_ws_indent by reflexivity.
    rewrite app_comm_cons, <- HX.
    rewrite (IH Hall ltac:(discriminate)) by (simpl in *; lia).
    now rewrite <- app_assoc.
Qed.

Lemma dict_set_fresh {K V : Type} `{EqDecision K} (d : dict K V) k v :
  k ∉ dict_keys d -> dict_set d k v = d ++ [(k, v)].
Proof.
  induction d as [|[k' v'] d IH]; simpl; intros Hk; [reflexivity|].
  apply not_elem_of_cons in Hk as [Hne Hk].
  destruct (decide (k' = k)); [congruence|]. now rewrite IH.
Qed.

(** [dict(pairs)] is [pairs] when no key repeats. *)
Lemma fold_dict_set_NoDup (l : list (pykey * pyval)) : forall acc,
  NoDup (dict_keys (acc ++ l)) ->
  fold_left (fun d kv => dict_set d (fst kv) (snd kv)) l acc = acc ++ l.
Proof.
  induction l as [|[k v] l IH]; intros acc Hnd; simpl.
  - now rewrite app_nil_r.
  - assert (Hk : k ∉ dict_keys acc).
    { unfold dict_keys in *. rewrite fmap_app in Hnd.
      apply NoDup_app in Hnd as (_ & Hd & _). intros Hin.
      apply (Hd k Hin). simpl. apply elem_of_cons. now left. }
    rewrite dict_set_fresh by assumption.
    assert (E : (acc ++ [(k, v)]) ++ l = acc ++ (k, v) :: l)
      by now rewrite <- app_assoc.
    rewrite IH; [exact E|rewrite E; exact Hnd].
Qed.

Lemma py_dict_NoDup l : NoDup (dict_keys l) -> py_dict l = l.
Proof. intros H. unfold py_dict. now rewrite fold_dict_set_NoDup. Qed.

Lemma map_fmap {A B : Type} (f : A -> B) (l : list A) : map f l = f <$> l.
Proof. induction l as [|a l IH]; simpl; [reflexivity|now rewrite IH]. Qed.

Lemma strkey_items_NoDup d :
  NoDup (map (fun kv => key_str (fst kv)) d) ->
  NoDup (dict_keys (map strkey_item d)).
Proof.
  unfold dict_keys. intros H.
  replace ((map strkey_item d).*1) with (KStr <$> map (fun kv => key_str (fst kv)) d).
  - apply NoDup_fmap_2; [intros x y [= ->]; reflexivity|assumption].
  - clear H. induction d as [|kv d IH]; [reflexivity|].
    simpl map. rewrite !fmap_cons, IH. reflexivity.
Qed.

Lemma fold_right_and_Forall {A : Type} (P : A -> Prop) (l : list A) :
  fold_right (fun x acc => P x /\ acc) True l <-> Forall P l.
Proof.
  induction l as [|a l IH]; simpl.
  - split; [constructor|trivial].
  - rewrite Forall_cons, IH. reflexivity.
Qed.

(** A printed value whose floats and keys survive reads back as itself with
    str keys, and leaves what follows it. *)
Lemma scan_once_encode v :
  floats_ok v -> keys_ok v ->
  forall level fuel rest, size v <= fuel -> stops rest = true ->
    scan_once fuel (encode level v ++ rest) = Some (strkeys v, rest).
Proof.
  induction v as [|n|s|d IH] using pyval_ind';
    intros Hf Hk level fuel rest Hfuel Hrest;
    (destruct fuel as [|fuel]; [simpl in Hfuel; lia|]).
  - reflexivity.
  - simpl encode. simpl strkeys.
    pose proof (scan_number_repr n rest Hf Hrest) as Hn.
    destruct (scan_number_head _ _ _ Hn) as (c & s' & E & Hc).
    rewrite E in *. rewrite scan_once_number by assumption. now rewrite Hn.
  - simpl encode. rewrite encode_str_app.
    change (scan_once (S fuel) (dq :: ?x))
      with (match scanstring x with
            | Some (str, r) => Some (PStr (string_of_list_ascii str), r)
            | None => None
            end).
    rewrite scanstring_encode. now rewrite string_of_list_ascii_of_string.
  - destruct d as [|kv d]; [reflexivity|].
    simpl in Hf, Hk. destruct Hk as [Hnd Hk].
    change (floats_ok (snd kv) /\
            fold_right (fun kv acc => floats_ok (snd kv) /\ acc) True d)
      with (fold_right (fun kv acc => floats_ok (snd kv) /\ acc) True (kv :: d)) in Hf.
    change (keys_ok (snd kv) /\
            fold_right (fun kv acc => keys_ok (snd kv) /\ acc) True d)
      with (fold_right (fun kv acc => keys_ok (snd kv) /\ acc) True (kv :: d)) in Hk.
    apply (fold_right_and_Forall (fun kv => floats_ok (snd kv))) in Hf.
    apply (fold_right_and_Forall (fun kv => keys_ok (snd kv))) in Hk.
    assert (Hall : Forall (fun kv =>
              floats_ok (snd kv) /\
              forall fuel rest, size (snd kv) <= fuel -> stops rest = true ->
                scan_once fuel (encode (S level) (snd kv) ++ rest)
                = Some (strkeys (snd kv), rest)) (kv :: d)).
    { rewrite Forall_forall in *. intros x Hx. split; [now apply Hf|].
      intros f r. apply IH; auto. }
    pose proof (JSONObject_items (S level) level (kv :: d) Hall ltac:(discriminate)
                  [] fuel rest) as HO.
    assert (Hq : exists X, encode_items (encode (S level)) (S level) (kv :: d) = dq :: X).
    { rewrite encode_items_cons. unfold encode_str. eexists. reflexivity. }
    destruct Hq as [X HX].
    change (encode level (PDict (kv :: d)))
      with ("{"%char :: newline_indent (S level)
            ++ encode_items (encode (S level)) (S level) (kv :: d)
            ++ newline_indent level ++ ["}"%char]).
    rewrite <- app_comm_cons, <- !app_assoc.
    change (scan_once (S fuel) ("{"%char :: ?x))
      with (match skip_ws x with
            | [] => None
            | c1 :: r1 =>
                if (N_of_ascii c1 =? 125)%N then Some (PDict [], r1)
                else JSONObject fuel (c1 :: r1) []
            end).
    rewrite HX, <- app_comm_cons, skip_ws_indent by reflexivity.
    change (N_of_ascii dq =? 125)%N with false. cbv beta iota.
    rewrite app_comm_cons, <- HX. simpl app at 3.
    rewrite HO by (simpl in *; lia).
    rewrite app_nil_l, py_dict_NoDup by now apply strkey_items_NoDup.
    reflexivity.
Qed.

Lemma encode_items_length lv d :
  Forall (fun kv => size (snd kv) <= length (encode lv (snd kv))) d ->
  fold_right (fun kv acc => S (size (snd kv) + acc)) 0 d
  <= length (encode_items (encode lv) lv d).
Proof.
  induction d as [|kv d IH]; intros Hall; [simpl; lia|].
  apply Forall_cons in Hall as [Hv Hall]. specialize (IH Hall).
  rewrite encode_items_cons. unfold encode_str.
  simpl fold_right. rewrite !length_app. simpl length. rewrite !length_app.
  destruct d as [|kv' d']; [simpl in *; lia|].
  set (I := encode_items (encode lv) lv (kv' :: d')) in *.
  set (F := fold_right _ 0 (kv' :: d')) in *.
  simpl length. rewrite length_app. lia.
Qed.

(** The text is long enough to pay for the calls that read it. *)
Lemma size_le_length v : floats_ok v -> forall level, size v <= length (encode level v).
Proof.
  induction v as [|n|s|d IH] using pyval_ind'; intros Hf level.
  - simpl. lia.
  - simpl. destruct (num_repr_head n Hf) as (c & r & -> & _). simpl. lia.
  - simpl. unfold encode_str. simpl. lia.
  - destruct d as [|kv d]; [simpl; lia|].
    assert (Hf' : Forall (fun kv => floats_ok (snd kv)) (kv :: d))
      by now apply (fold_right_and_Forall (fun kv => floats_ok (snd kv))).
    assert (Hall : Forall (fun kv => size (snd kv)
                                     <= length (encode (S level) (snd kv))) (kv :: d)).
    { rewrite Forall_forall in *. intros x Hx. apply IH; auto. }
    pose proof (encode_items_length (S level) (kv :: d) Hall) as Hl.
    change (encode level (PDict (kv :: d)))
      with ("{"%char :: newline_indent (S level)
            ++ encode_items (encode (S level)) (S level) (kv :: d)
            ++ newline_indent level ++ ["}"%char]).
    change (size (PDict (kv :: d)))
      with (S (fold_right (fun kv acc => S (size (snd kv) + acc)) 0 (kv :: d))).
    set (I := encode_items (encode (S level)) (S level) (kv :: d)) in *.
    set (F := fold_right _ 0 (kv :: d)) in *.
    cbn [length]. rewrite !length_app. lia.
Qed.

(** [json.loads(json.dumps(v, indent=2))] *)
Lemma json_loads_dumps v :
  floats_ok v -> keys_ok v -> json_loads (json_dumps v) = Some (strkeys v).
Proof.
  intros Hf Hk. unfold json_loads, json_dumps.
  rewrite list_ascii_of_string_of_list_ascii.
  destruct (encode_head 0 v Hf) as (c & r & E & Hc).
  assert (Hs : skip_ws (encode 0 v) = encode 0 v ++ []).
  { rewrite app_nil_r, E. now apply skip_ws_nonws. }
  rewrite Hs, scan_once_encode; try assumption; try reflexivity.
  rewrite app_nil_r. pose proof (size_le_length v Hf 0). lia.
Qed.

(** ** The keys of what the script builds *)

Lemma keys_ok_opt_num o : keys_ok (py_opt_num o).
Proof. now destruct o. Qed.

Lemma keys_ok_opt_str o : keys_ok (py_opt_str o).
Proof. now destruct o. Qed.

Lemma keys_ok_isotope r : keys_ok (py_isotope r).
Proof.
  unfold py_isotope. simpl. split.
  - apply (bool_decide_unpack _). vm_compute. exact I.
  - repeat split; apply keys_ok_opt_num.
Qed.

Lemma keys_ok_element data :
  NoDup (dict_keys (data_isotopes data)) -> keys_ok (py_element data).
Proof.
  intros Hnd. unfold py_element. simpl. split.
  - apply (bool_decide_unpack _). vm_compute. exact I.
  - repeat split; try apply keys_ok_opt_str.
    + unfold dict_keys in Hnd. induction (data_isotopes data) as [|[A r] l IH];
        [constructor|].
      rewrite fmap_cons in Hnd. apply NoDup_cons in Hnd as [HA Hnd].
      simpl. apply NoDup_cons. split; [|now apply IH].
      intros Hin. apply HA. clear -Hin.
      induction l as [|[A' r'] l IH]; [inversion Hin|].
      simpl in Hin. apply elem_of_cons in Hin as [Heq|Hin].
      * apply str_inj in Heq as ->. simpl. apply elem_of_cons. now left.
      * simpl. apply elem_of_cons. right. now apply IH.
    + clear Hnd. induction (data_isotopes data) as [|[A r] l IH]; [exact I|].
      simpl. split; [apply keys_ok_isotope|apply IH].
Qed.

Lemma keys_ok_element_data (ed : dict string ElementRecord) :
  NoDup (dict_keys ed) ->
  (forall sym data, (sym, data) ∈ ed -> NoDup (dict_keys (data_isotopes data))) ->
  keys_ok (py_element_data ed).
Proof.
  intros Hnd Hiso. unfold py_element_data. simpl. split.
  - rewrite map_map. simpl. unfold dict_keys in Hnd. now rewrite map_fmap.
  - induction ed as [|[sym data] ed IH]; [exact I|].
    simpl. split.
    + apply keys_ok_element. apply (Hiso sym). apply elem_of_cons. now left.
    + apply IH.
      * unfold dict_keys in *. rewrite fmap_cons in Hnd.
        now apply NoDup_cons in Hnd as [_ Hnd].
      * intros s d Hin. apply (Hiso s). apply elem_of_cons. now right.
Qed.

Lemma element_data_NoDup nmr_data els :
  NoDup (dict_keys (element_data nmr_data els)).
Proof.
  unfold element_data.
  assert (H : forall acc, NoDup (dict_keys acc) ->
            NoDup (dict_keys (fold_left (element_step nmr_data) els acc))).
  { induction els as [|x l IH]; intros acc Hacc; [assumption|].
    simpl. apply IH. unfold element_step.
    destruct (compile_element nmr_data x); [now apply dict_set_NoDup|assumption]. }
  apply H. apply NoDup_nil_2.
Qed.

Lemma element_data_isotopes_NoDup nmr_data els sym data :
  (sym, data) ∈ element_data nmr_data els ->
  NoDup (dict_keys (data_isotopes data)).
Proof.
  intros Hin. apply element_data_elem in Hin as (el & _ & Hc & _).
  apply compile_element_Some in Hc as [_ ->]. simpl.
  apply scan_NoDup. apply NoDup_nil_2.
Qed.

Lemma strkeys_opt_num o : strkeys (py_opt_num o) = py_opt_num o.
Proof. now destruct o. Qed.

Lemma strkeys_opt_str o : strkeys (py_opt_str o) = py_opt_str o.
Proof. now destruct o. Qed.

Lemma strkeys_isotope r : strkeys (py_isotope r) = py_isotope r.
Proof. unfold py_isotope. simpl. now rewrite !strkeys_opt_num. Qed.

Lemma strkeys_element data : strkeys (py_element data) = py_element_loaded data.
Proof.
  unfold py_element, py_element_loaded. simpl. rewrite !strkeys_opt_str.
  rewrite map_map.
  rewrite (map_ext _ (fun kv => (KStr (str (fst kv)), py_isotope (snd kv)))).
  - reflexivity.
  - intros [A r]. cbn [fst snd key_str]. now rewrite strkeys_isotope.
Qed.

Lemma strkeys_element_data ed :
  strkeys (py_element_data ed) = py_element_data_loaded ed.
Proof.
  unfold py_element_data, py_element_data_loaded. simpl. f_equal.
  rewrite map_map. apply map_ext. intros [sym data]. cbn [fst snd key_str].
  now rewrite strkeys_element.
Qed.

(** An emitted element has at least one isotope. *)
Lemma element_data_isotopes_nonempty nmr_data els sym data :
  (sym, data) ∈ element_data nmr_data els -> data_isotopes data <> [].
Proof.
  intros Hin. apply element_data_elem in Hin as (el & _ & Hc & _).
  apply compile_element_Some in Hc as [Hm ->]. simpl.
  destruct (most_iso _) as [a|] eqn:E; [|congruence].
  intros Hnil.
  assert (Hk : a ∈ dict_keys (isotopes
             (scan (out_symbol (symbol el))
                (default ∅ (nmr_data !! out_symbol (symbol el)))
                (el_isotopes el) init_state))).
  { apply (scan_ptr_key _ _ _ init_state) with (c := Overall); [|exact E].
    intros c' a' H'. destruct c'; discriminate. }
  rewrite Hnil in Hk. inversion Hk.
Qed.

(** ** The JSON payload read back *)

Lemma py_get_int_keys (l : dict Z IsotopeRecord) s :
  py_get (map (fun kv => (KInt (fst kv), py_isotope (snd kv))) l) (KStr s) = None.
Proof. induction l as [|[A r] l IH]; [reflexivity|exact IH]. Qed.

(** With an isotope stored, the record read back is not [==] to the record
    built: the first key of its [isotopes] is a str, and the [isotopes] built
    have int keys only. *)
Lemma py_element_loaded_neq data :
  data_isotopes data <> [] ->
  py_eqb (py_element_loaded data) (py_element data) = false.
Proof.
  intros Hne. destruct (data_isotopes data) as [|[A r] l] eqn:E; [congruence|].
  unfold py_element_loaded, py_element. rewrite E.
  cbn [py_eqb forallb py_get key_eqb fst snd length map String.eqb Ascii.eqb
       Bool.eqb Nat.eqb andb].
  rewrite py_get_int_keys. cbn [andb]. now rewrite !andb_false_r.
Qed.

(** C3, as the code has it.  [json.dumps] writes every key as a str, so the
    payload read back is the structure with each mass-number key of an
    [isotopes] dict replaced by its decimal string, and is otherwise the same
    (same order, same values, [None] for [null]), provided every float in it
    is printed as a literal that reads back as that float.  Unless nothing was
    emitted, what is read back is not [==] to the structure itself. *)
Theorem json_roundtrip_str_keys nmr_data els :
  floats_ok (py_element_data (element_data nmr_data els)) ->
  json_loads (jsonstr nmr_data els)
  = Some (py_element_data_loaded (element_data nmr_data els)) /\
  (element_data nmr_data els <> [] ->
   py_eqb (py_element_data_loaded (element_data nmr_data els))
          (py_element_data (element_data nmr_data els)) = false).
Proof.
  intros Hf. split.
  - unfold jsonstr. rewrite json_loads_dumps, strkeys_element_data; try assumption;
      [reflexivity|].
    apply keys_ok_element_data; [apply element_data_NoDup|].
    intros sym data. apply element_data_isotopes_NoDup.
  - intros Hne.
    destruct (element_data nmr_data els) as [|[sym data] ed] eqn:E; [congruence|].
    assert (Hin : (sym, data) ∈ element_data nmr_data els).
    { rewrite E. apply elem_of_cons. now left. }
    apply element_data_isotopes_nonempty, py_element_loaded_neq in Hin.
    unfold py_element_data_loaded, py_element_data.
    cbn [py_eqb forallb py_get key_eqb fst snd map].
    rewrite String.eqb_refl, Hin. cbn [andb]. apply andb_false_r.
Qed.

Lemma json_roundtrip_str_keys_witness :
  json_loads (jsonstr sample_nmr sample_elements)
  = Some (py_element_data_loaded (element_data sample_nmr sample_elements)) /\
  (element_data sample_nmr sample_elements <> [] ->
   py_eqb (py_element_data_loaded (element_data sample_nmr sample_elements))
          (py_element_data (element_data sample_nmr sample_elements)) = false).
Proof.
  apply (json_roundtrip_str_keys sample_nmr sample_elements).
  vm_compute. repeat split; reflexivity.
Defined.

(** C3 as stated fails: for the small table the payload parses, and what it
    parses to is not [==] to the structure that was serialized (under [Mu],
    the key 1 of [isotopes] has become the str [1]). *)
Lemma json_roundtrip_not_exact :
  exists v, json_loads (jsonstr sample_nmr sample_elements) = Some v /\
            py_eqb v (py_element_data (element_data sample_nmr sample_elements)) = false /\
            py_eqb (py_element_data (element_data sample_nmr sample_elements))
                   (py_element_data (element_data sample_nmr sample_elements)) = true.
Proof.
  eexists. split; [|split]; vm_compute; reflexivity.
Qed.

(** ** The printed module *)

Lemma string_app_assoc (a b c : string) : ((a ++ b) ++ c)%string = (a ++ (b ++ c))%string.
Proof.
  induction a as [|x a IH]; [reflexivity|].
  change (String x ((a ++ b) ++ c) = String x (a ++ (b ++ c)))%string.
  now rewrite IH.
Qed.

Lemma format_template json :
  format template json
  = ("const nmrData = " ++ json ++ ";" ++ newline ++ newline
     ++ "export default nmrData;" ++ newline)%string.
Proof. reflexivity. Qed.

(** C9, as the code has it.  What the script writes to standard output is the
    text [const nmrData = ], the JSON of [element_data] with indent 2, a
    semicolon, a blank line, the line [export default nmrData;], and one more
    newline: the template ends with a newline and [print] adds its own. *)
Theorem program_output_text nmr_data els :
  jsonstr nmr_data els = json_dumps (py_element_data (element_data nmr_data els)) /\
  program_output nmr_data els
  = ("const nmrData = " ++ jsonstr nmr_data els ++ ";" ++ newline
     ++ newline
     ++ "export default nmrData;" ++ newline
     ++ newline)%string /\
  program_output nmr_data els = (spec_shape (jsonstr nmr_data els) ++ newline)%string.
Proof.
  split; [reflexivity|].
  assert (H : program_output nmr_data els
              = (spec_shape (jsonstr nmr_data els) ++ newline)%string).
  { unfold program_output, print. now rewrite format_template. }
  split; [|exact H]. rewrite H. unfold spec_shape.
  rewrite !string_app_assoc. reflexivity.
Qed.

(** C9 as stated fails: for the small table the text written is not the
    spec's shape around the JSON (it is one newline longer). *)
Lemma program_output_not_spec_shape :
  String.eqb (program_output sample_nmr sample_elements)
             (spec_shape (jsonstr sample_nmr sample_elements)) = false /\
  String.length (program_output sample_nmr sample_elements)
  = S (String.length (spec_shape (jsonstr sample_nmr sample_elements))).
Proof. split; vm_compute; reflexivity. Qed.

(** * Further properties of the script *)

(** ** Turns of the loop, by what the table says *)

Lemma recorded_record_of sym nmr iso r :
  recorded sym nmr iso r -> r = record_of sym nmr iso.
Proof.
  unfold recorded, record_of. destruct r. simpl.
  intros (-> & -> & -> & _ & -> & -> & ->). reflexivity.
Qed.

Lemma qualifies_record_of c sym nmr iso :
  qualifies c (record_of sym nmr iso) = table_qualifies c nmr iso.
Proof.
  destruct c; simpl; try reflexivity.
  now destruct (default ∅ (nmr !! str (isotope iso)) !! "I").
Qed.

(** A turn either changes nothing, or appends or replaces the record of its
    isotope and moves each maximum as lines 58-68 say. *)
Lemma iso_step_stored_or_not sym nmr st iso :
  iso_step sym nmr st iso = st \/
  (nonzero iso = true /\
   isotopes (iso_step sym nmr st iso)
   = dict_set (isotopes st) (isotope iso) (record_of sym nmr iso) /\
   forall c,
     (ptr c (iso_step sym nmr st iso), ptr_ab c (iso_step sym nmr st iso)) =
     if num_gtb (abundance iso) (ptr_ab c st) && table_qualifies c nmr iso
     then (Some (isotope iso), abundance iso)
     else (ptr c st, ptr_ab c st)).
Proof.
  destruct (iso_step_cases sym nmr st iso) as [H|(r & Hrec & Hd & Hc)]; [now left|].
  right. pose proof (recorded_record_of _ _ _ _ Hrec) as ->.
  destruct Hrec as (_ & _ & _ & Hz & _).
  split; [unfold nonzero; now rewrite Hz|]. split; [assumption|].
  intros c. rewrite <- (qualifies_record_of c sym). apply Hc.
Qed.

(** A turn whose isotope is not zero and is not discarded stores it. *)
Lemma iso_step_stored sym nmr st iso :
  nonzero iso = true ->
  retention st (abundance iso) (default ∅ (nmr !! str (isotope iso)) !! "I") <> None ->
  isotopes (iso_step sym nmr st iso)
  = dict_set (isotopes st) (isotope iso) (record_of sym nmr iso).
Proof.
  intros Hz Hr. unfold nonzero in Hz. apply negb_true_iff in Hz.
  destruct (retention st (abundance iso) _) as [spin|] eqn:E; [|congruence].
  destruct (iso_step_record sym nmr st iso spin Hz E) as (r & Hrec & _ & Hd & _).
  now rewrite <- (recorded_record_of _ _ _ _ Hrec).
Qed.

Lemma iso_step_keys_mono sym nmr st iso k :
  k ∈ dict_keys (isotopes st) -> k ∈ dict_keys (isotopes (iso_step sym nmr st iso)).
Proof.
  intros Hk. destruct (iso_step_stored_or_not sym nmr st iso) as [->|(_ & -> & _)];
    [assumption|]. apply dict_keys_set. now right.
Qed.

Lemma scan_keys_mono sym nmr isos : forall st k,
  k ∈ dict_keys (isotopes st) -> k ∈ dict_keys (isotopes (scan sym nmr isos st)).
Proof.
  induction isos as [|x l IH]; intros st k Hk; [assumption|].
  rewrite scan_cons. apply IH. now apply iso_step_keys_mono.
Qed.

(** The turns of other mass numbers leave a key as it is. *)
Lemma scan_get_other sym nmr isos : forall st k,
  k ∉ isotope <$> isos ->
  dict_get (isotopes (scan sym nmr isos st)) k = dict_get (isotopes st) k.
Proof.
  induction isos as [|x l IH]; intros st k Hk; [reflexivity|].
  rewrite fmap_cons in Hk. apply not_elem_of_cons in Hk as [Hx Hl].
  rewrite scan_cons, IH by assumption.
  destruct (iso_step_stored_or_not sym nmr st x) as [->|(_ & -> & _)]; [reflexivity|].
  now apply dict_get_set_ne.
Qed.

Lemma iso_step_ptr_ab_mono sym nmr st iso c :
  (num_val (ptr_ab c st) <= num_val (ptr_ab c (iso_step sym nmr st iso)))%Q.
Proof.
  destruct (iso_step_stored_or_not sym nmr st iso) as [->|(_ & _ & Hc)];
    [apply Qle_refl|].
  specialize (Hc c).
  destruct (num_gtb (abundance iso) (ptr_ab c st)) eqn:E; simpl in Hc.
  - destruct (table_qualifies c nmr iso); injection Hc as _ ->;
      [apply Qlt_le_weak, num_ltb_lt, E|apply Qle_refl].
  - injection Hc as _ ->. apply Qle_refl.
Qed.

Lemma scan_ptr_ab_mono sym nmr isos c : forall st,
  (num_val (ptr_ab c st) <= num_val (ptr_ab c (scan sym nmr isos st)))%Q.
Proof.
  induction isos as [|x l IH]; intros st; [apply Qle_refl|].
  rewrite scan_cons. eapply Qle_trans; [apply iso_step_ptr_ab_mono|apply IH].
Qed.

(** A maximum does not move over isotopes that do not qualify for it. *)
Lemma scan_ptr_unqualified sym nmr isos c : forall st,
  (forall iso, iso ∈ isos -> table_qualifies c nmr iso = false) ->
  ptr c (scan sym nmr isos st) = ptr c st /\
  ptr_ab c (scan sym nmr isos st) = ptr_ab c st.
Proof.
  induction isos as [|x l IH]; intros st Hq; [now split|].
  rewrite scan_cons.
  destruct (IH (iso_step sym nmr st x)) as [-> ->].
  { intros iso Hi. apply Hq, elem_of_cons. now right. }
  destruct (iso_step_stored_or_not sym nmr st x) as [->|(_ & _ & Hc)]; [now split|].
  specialize (Hc c). rewrite (Hq x), andb_false_r in Hc by (apply elem_of_cons; now left).
  now injection Hc as -> ->.
Qed.

(** With one of the two running abundances still at its initial 0, nothing of
    abundance at least 0 is discarded. *)
Lemma retention_at_zero st ab spin c :
  c <> Overall -> ptr_ab c st = PyInt 0 -> (0 <= num_val ab)%Q ->
  retention st ab spin <> None.
Proof.
  intros Hc H0 Hab. unfold retention. destruct spin; [discriminate|].
  assert (Hmin : (num_val (py_min (most_NMR_iso_ab st) (most_Q_iso_ab st)) <= 0)%Q).
  { destruct c; [congruence| |]; simpl in H0.
    - eapply Qle_trans; [apply py_min_le_l|]. rewrite H0. apply Qle_refl.
    - eapply Qle_trans; [apply py_min_le_r|]. rewrite H0. apply Qle_refl. }
  destruct (num_ltb ab _) eqn:E; [|discriminate].
  apply num_ltb_lt in E. exfalso.
  apply (Qlt_irrefl 0). eapply Qle_lt_trans; [exact Hab|].
  eapply Qlt_le_trans; [exact E|exact Hmin].
Qed.

(** What is stored under the mass number of an isotope is decided at its own
    turn, when no other isotope has that mass number. *)
Lemma scan_get_at sym nmr pre x post st :
  NoDup (isotope <$> (pre ++ x :: post)) ->
  dict_get (isotopes (scan sym nmr (pre ++ x :: post) st)) (isotope x)
  = dict_get (isotopes (iso_step sym nmr (scan sym nmr pre st) x)) (isotope x).
Proof.
  intros Hnd. rewrite scan_app, scan_cons. apply scan_get_other.
  rewrite fmap_app, fmap_cons in Hnd.
  apply NoDup_app in Hnd as (_ & _ & Hnd). now apply NoDup_cons in Hnd as [Hx _].
Qed.

Lemma iso_step_stored_get sym nmr st iso :
  nonzero iso = true ->
  retention st (abundance iso) (default ∅ (nmr !! str (isotope iso)) !! "I") <> None ->
  dict_get (isotopes (iso_step sym nmr st iso)) (isotope iso)
  = Some (record_of sym nmr iso).
Proof.
  intros Hz Hr. rewrite iso_step_stored by assumption. apply dict_get_set_eq.
Qed.

Lemma nonzero_true iso :
  nonzero iso = true <-> ~ (num_val (abundance iso) == 0)%Q.
Proof.
  unfold nonzero. rewrite negb_true_iff. apply (num_eqb_neq _ (PyInt 0)).
Qed.

(** ** Isotopes that are always stored *)

(** X1. An isotope of nonzero abundance for which the NMR table gives a spin
    is stored whatever its abundance and whatever came before it, with the
    table's spin, gyromagnetic ratio and quadrupole moment (mass numbers
    distinct within the element). *)
Theorem known_spin_always_stored sym nmr isos iso s :
  NoDup (isotope <$> isos) ->
  iso ∈ isos ->
  ~ (num_val (abundance iso) == 0)%Q ->
  default ∅ (nmr !! str (isotope iso)) !! "I" = Some s ->
  dict_get (isotopes (scan sym nmr isos init_state)) (isotope iso)
  = Some {| rec_A := isotope iso;
            rec_mass := if decide (sym = "Mu") then mu_mass else mass iso;
            rec_abundance := abundance iso;
            rec_spin := Some s;
            rec_gamma := default ∅ (nmr !! str (isotope iso)) !! "gamma";
            rec_Q := default ∅ (nmr !! str (isotope iso)) !! "Q" |}.
Proof.
  intros Hnd Hin Hz Hs.
  apply list_elem_of_split in Hin as (pre & post & ->).
  rewrite scan_get_at by assumption.
  rewrite iso_step_stored_get.
  - unfold record_of. now rewrite Hs.
  - now apply nonzero_true.
  - rewrite Hs. discriminate.
Qed.

Lemma known_spin_always_stored_witness :
  dict_get (isotopes (scan "H" (default ∅ (sample_nmr !! "H"))
                        (el_isotopes sample_H) init_state)) 2%Z
  = Some {| rec_A := 2; rec_mass := PyFloat 2.01410177812;
            rec_abundance := PyFloat 0.0115;
            rec_spin := Some (PyFloat 1.0);
            rec_gamma := Some (PyFloat 41066279.1);
            rec_Q := Some (PyFloat 2.86) |}.
Proof.
  refine (eq_trans
    (known_spin_always_stored "H" (default ∅ (sample_nmr !! "H")) (el_isotopes sample_H)
       {| mass := PyFloat 2.01410177812; isotope := 2; abundance := PyFloat 0.0115 |}
       (PyFloat 1.0) _ _ _ _) _).
  - apply (bool_decide_unpack _). vm_compute. exact I.
  - unfold sample_H, el_isotopes. elem_tac.
  - discriminate.
  - vm_compute. reflexivity.
  - vm_compute. reflexivity.
Defined.

(** X2. An isotope is stored, whether the table knows its spin or not, when
    its abundance is positive and, among the isotopes before it, none has a
    truthy spin in the table or none has a truthy quadrupole moment: the
    filter only starts once both kinds have been seen. *)
Theorem stored_until_both_kinds_seen sym nmr pre x post :
  NoDup (isotope <$> (pre ++ x :: post)) ->
  (0 < num_val (abundance x))%Q ->
  (forall y, y ∈ pre -> truthy (default ∅ (nmr !! str (isotope y)) !! "I") = false) \/
  (forall y, y ∈ pre -> truthy (default ∅ (nmr !! str (isotope y)) !! "Q") = false) ->
  exists r, dict_get (isotopes (scan sym nmr (pre ++ x :: post) init_state)) (isotope x)
            = Some r /\
            rec_A r = isotope x /\ rec_abundance r = abundance x /\
            rec_spin r = match default ∅ (nmr !! str (isotope x)) !! "I" with
                         | Some s => Some s
                         | None => Some (PyInt 0)
                         end.
Proof.
  intros Hnd Hpos Hpre. exists (record_of sym nmr x).
  split; [|repeat split].
  rewrite scan_get_at by assumption. apply iso_step_stored_get.
  - apply nonzero_true. intros E. rewrite E in Hpos. now apply Qlt_irrefl in Hpos.
  - destruct Hpre as [Hq|Hq].
    + apply (retention_at_zero _ _ _ NMRActive); [discriminate| |now apply Qlt_le_weak].
      now destruct (scan_ptr_unqualified sym nmr pre NMRActive init_state Hq) as [_ ->].
    + apply (retention_at_zero _ _ _ Quadrupolar); [discriminate| |now apply Qlt_le_weak].
      now destruct (scan_ptr_unqualified sym nmr pre Quadrupolar init_state Hq) as [_ ->].
Qed.

Lemma stored_until_both_kinds_seen_witness :
  exists r, dict_get (isotopes (scan "X" (default ∅ (sample_nmr !! "X"))
                                  ([sample_A] ++ sample_B :: []) init_state)) 11%Z
            = Some r /\
            rec_A r = 11%Z /\ rec_abundance r = PyFloat 0.9 /\
            rec_spin r = Some (PyInt 0).
Proof.
  destruct (stored_until_both_kinds_seen "X" (default ∅ (sample_nmr !! "X"))
              [sample_A] sample_B []) as (r & H1 & H2 & H3 & H4).
  - apply (bool_decide_unpack _). vm_compute. exact I.
  - reflexivity.
  - right. intros y Hy. apply list_elem_of_singleton in Hy as ->.
    vm_compute. reflexivity.
  - exists r. repeat split; assumption.
Defined.

Lemma scan_keeps_all sym nmr c isos : forall st,
  c <> Overall -> ptr_ab c st = PyInt 0 ->
  NoDup (dict_keys (isotopes st) ++ (isotope <$> isos)) ->
  (forall iso, iso ∈ isos -> (0 <= num_val (abundance iso))%Q) ->
  (forall iso, iso ∈ isos -> table_qualifies c nmr iso = false) ->
  isotopes (scan sym nmr isos st)
  = isotopes st
    ++ ((fun iso => (isotope iso, record_of sym nmr iso)) <$> List.filter nonzero isos).
Proof.
  induction isos as [|x l IH]; intros st Hc H0 Hnd Hnn Hq.
  - simpl. now rewrite app_nil_r.
  - assert (Hx : x ∈ x :: l) by (apply elem_of_cons; now left).
    assert (Hl : forall iso, iso ∈ l -> iso ∈ x :: l)
      by (intros iso Hi; apply elem_of_cons; now right).
    rewrite scan_cons. cbn [List.filter].
    destruct (nonzero x) eqn:Hz.
    + assert (Hst : isotopes (iso_step sym nmr st x)
                    = isotopes st ++ [(isotope x, record_of sym nmr x)]).
      { rewrite iso_step_stored; [|assumption|].
        - apply dict_set_fresh. rewrite fmap_cons in Hnd.
          apply NoDup_app in Hnd as (_ & Hd & _). intros Hin.
          apply (Hd _ Hin). apply elem_of_cons. now left.
        - apply (retention_at_zero _ _ _ c); auto. }
      assert (H0' : ptr_ab c (iso_step sym nmr st x) = PyInt 0).
      { destruct (iso_step_stored_or_not sym nmr st x) as [->|(_ & _ & Hp)];
          [assumption|].
        specialize (Hp c). rewrite (Hq x Hx), andb_false_r in Hp.
        injection Hp as _ ->. assumption. }
      rewrite IH; auto.
      * rewrite Hst, fmap_cons, <- app_assoc. reflexivity.
      * rewrite Hst. unfold dict_keys. rewrite fmap_app, <- app_assoc.
        rewrite fmap_cons in Hnd. exact Hnd.
    + rewrite iso_step_zero by (unfold nonzero in Hz; now apply negb_false_iff in Hz).
      apply IH; auto.
      rewrite fmap_cons in Hnd. apply NoDup_app in Hnd as (H1 & H2 & H3).
      apply NoDup_cons in H3 as [_ H3]. apply NoDup_app. repeat split; auto.
      intros k Hk Hin. apply (H2 k Hk). apply elem_of_cons. now right.
Qed.

(** X3. When no isotope of the element has a truthy spin in the table, or none
    has a truthy quadrupole moment, nothing is filtered: the isotopes stored
    are exactly those of nonzero abundance, in source order, each with the
    record of lines 70-77 (mass numbers distinct, abundances not negative). *)
Theorem nothing_discarded_without_both_kinds sym nmr isos :
  NoDup (isotope <$> isos) ->
  (forall iso, iso ∈ isos -> (0 <= num_val (abundance iso))%Q) ->
  (forall iso, iso ∈ isos ->
     truthy (default ∅ (nmr !! str (isotope iso)) !! "I") = false) \/
  (forall iso, iso ∈ isos ->
     truthy (default ∅ (nmr !! str (isotope iso)) !! "Q") = false) ->
  isotopes (scan sym nmr isos init_state)
  = (fun iso => (isotope iso, record_of sym nmr iso)) <$> List.filter nonzero isos.
Proof.
  intros Hnd Hnn [Hq|Hq].
  - now rewrite (scan_keeps_all sym nmr NMRActive isos init_state).
  - now rewrite (scan_keeps_all sym nmr Quadrupolar isos init_state).
Qed.

Lemma nothing_discarded_without_both_kinds_witness :
  isotopes (scan "X" (default ∅ (sample_nmr !! "X")) (el_isotopes sample_X) init_state)
  = (fun iso => (isotope iso, record_of "X" (default ∅ (sample_nmr !! "X")) iso))
      <$> List.filter nonzero (el_isotopes sample_X).
Proof.
  apply (nothing_discarded_without_both_kinds "X" (default ∅ (sample_nmr !! "X"))
           (el_isotopes sample_X)).
  - apply (bool_decide_unpack _). vm_compute. exact I.
  - intros iso Hi. unfold sample_X, el_isotopes in Hi.
    repeat (apply elem_of_cons in Hi as [->|Hi]); [discriminate..|inversion Hi].
  - right. intros iso Hi. unfold sample_X, el_isotopes in Hi.
    repeat (apply elem_of_cons in Hi as [->|Hi]);
      [vm_compute; reflexivity..|inversion Hi].
Defined.

(** X4. An element whose symbol has no entry in the NMR table is emitted, when
    it is, with every isotope of nonzero abundance, in source order, each with
    spin 0 and no gyromagnetic ratio or quadrupole moment, and with neither
    [maxiso_NMR] nor [maxiso_Q] (mass numbers distinct, abundances not
    negative). *)
Theorem element_without_nmr_data nmr_data el data :
  nmr_data !! out_symbol (symbol el) = None ->
  NoDup (isotope <$> el_isotopes el) ->
  (forall iso, iso ∈ el_isotopes el -> (0 <= num_val (abundance iso))%Q) ->
  compile_element nmr_data el = Some data ->
  maxiso_NMR data = None /\
  maxiso_Q data = None /\
  data_isotopes data
  = (fun iso =>
       (isotope iso,
        {| rec_A := isotope iso;
           rec_mass := if decide (out_symbol (symbol el) = "Mu")
                       then mu_mass else mass iso;
           rec_abundance := abundance iso;
           rec_spin := Some (PyInt 0);
           rec_gamma := None;
           rec_Q := None |})) <$> List.filter nonzero (el_isotopes el).
Proof.
  intros Hnone Hnd Hnn Hc.
  apply compile_element_Some in Hc as [_ ->]. simpl. rewrite Hnone. simpl.
  assert (Hq : forall c iso, c <> Overall -> table_qualifies c ∅ iso = false).
  { intros c iso Hc. destruct c; [congruence|reflexivity|reflexivity]. }
  destruct (scan_ptr_unqualified (out_symbol (symbol el)) ∅ (el_isotopes el)
              NMRActive init_state) as [H1 _]; [intros; now apply Hq|].
  destruct (scan_ptr_unqualified (out_symbol (symbol el)) ∅ (el_isotopes el)
              Quadrupolar init_state) as [H2 _]; [intros; now apply Hq|].
  simpl in H1, H2. rewrite H1, H2. repeat split.
  rewrite (scan_keeps_all _ ∅ NMRActive _ init_state); auto.
Qed.

Lemma element_without_nmr_data_witness :
  maxiso_NMR sample_Mu_data = None /\
  maxiso_Q sample_Mu_data = None /\
  data_isotopes sample_Mu_data
  = (fun iso =>
       (isotope iso,
        {| rec_A := isotope iso;
           rec_mass := if decide (out_symbol (symbol sample_n) = "Mu")
                       then mu_mass else mass iso;
           rec_abundance := abundance iso;
           rec_spin := Some (PyInt 0);
           rec_gamma := None;
           rec_Q := None |})) <$> List.filter nonzero (el_isotopes sample_n).
Proof.
  apply (element_without_nmr_data sample_nmr sample_n sample_Mu_data).
  - vm_compute. reflexivity.
  - apply (bool_decide_unpack _). vm_compute. exact I.
  - intros iso Hi. unfold sample_n, el_isotopes in Hi.
    apply list_elem_of_singleton in Hi as ->. discriminate.
  - apply sample_compile_n.
Defined.

(** ** The running maxima *)

Lemma iso_step_maxima_bounds sym nmr st x :
  maxima_bounded st -> maxima_bounded (iso_step sym nmr st x).
Proof.
  intros Hst c. change (most_iso_ab ?s) with (ptr_ab Overall s).
  destruct (iso_step_stored_or_not sym nmr st x) as [->|(_ & _ & Hp)]; [apply Hst|].
  pose proof (Hp c) as Hc. pose proof (Hp Overall) as HO.
  change (table_qualifies Overall nmr x) with true in HO. rewrite andb_true_r in HO.
  destruct (Hst c) as (H0 & Hle & Hn & Hs).
  change (most_iso_ab st) with (ptr_ab Overall st) in Hle.
  assert (Hup : num_gtb (abundance x) (ptr_ab c st) = true ->
                (0 < num_val (abundance x))%Q).
  { intros E. apply num_ltb_lt in E. exact (Qle_lt_trans _ _ _ H0 E). }
  destruct (num_gtb (abundance x) (ptr_ab Overall st)) eqn:EO;
    apply pair_equal_spec in HO as [_ HO]; rewrite HO; clear HO;
    destruct (num_gtb (abundance x) (ptr_ab c st)) eqn:Ec;
    destruct (table_qualifies c nmr x); simpl in Hc;
    apply pair_equal_spec in Hc as [Hp1 Hp2]; rewrite Hp1, Hp2;
    repeat split;
    try (intros; discriminate);
    try (intros; now apply Hup);
    try (apply Qlt_le_weak; now apply Hup);
    try assumption;
    try apply Qle_refl;
    try (now apply Hn); try (now apply Hs).
  - eapply Qle_trans; [exact Hle|]. apply Qlt_le_weak, num_ltb_lt, EO.
  - eapply Qle_trans; [exact Hle|]. apply Qlt_le_weak, num_ltb_lt, EO.
  - eapply Qle_trans; [exact Hle|]. apply Qlt_le_weak, num_ltb_lt, EO.
  - apply num_ltb_ge, EO.
Qed.

Lemma maxima_bounded_init : maxima_bounded init_state.
Proof. intros c. destruct c; repeat split; try discriminate; reflexivity. Qed.

Lemma scan_maxima_bounds sym nmr isos : forall st,
  maxima_bounded st -> maxima_bounded (scan sym nmr isos st).
Proof.
  induction isos as [|x l IH]; intros st Hst; [exact Hst|].
  rewrite scan_cons. apply IH. now apply iso_step_maxima_bounds.
Qed.

(** X5. Whatever the isotopes, after the loop each running abundance is at
    least 0 and at most the overall one; a pointer that was never set has
    kept the initial int 0 as its abundance, and one that was set has a
    positive abundance. *)
Theorem running_maxima_bounds sym nmr isos (c : category) :
  let st := scan sym nmr isos init_state in
  (0 <= num_val (ptr_ab c st))%Q /\
  (num_val (ptr_ab c st) <= num_val (most_iso_ab st))%Q /\
  (ptr c st = None -> ptr_ab c st = PyInt 0) /\
  (forall a, ptr c st = Some a -> (0 < num_val (ptr_ab c st))%Q).
Proof.
  cbv zeta. apply (scan_maxima_bounds sym nmr isos init_state maxima_bounded_init).
Qed.

(** ** The entries of the output *)

(** X6. Every entry of the output carries its own key as its symbol and the
    atomic number of a source element with that output symbol, and every
    isotope record carries its own key as [A]. *)
Theorem output_keys_match_fields nmr_data els sym data :
  (sym, data) ∈ element_data nmr_data els ->
  data_symbol data = sym /\
  (exists el, el ∈ els /\ out_symbol (symbol el) = sym /\ number el = data_Z data) /\
  (forall A r, (A, r) ∈ data_isotopes data -> rec_A r = A).
Proof.
  intros Hin. pose proof Hin as Hel.
  apply element_data_elem in Hel as (el & Hel & Hc & ->).
  pose proof (compile_element_Some _ _ _ Hc) as [_ Hd].
  split; [now rewrite Hd|]. split.
  - exists el. rewrite Hd. auto.
  - intros A r Hr.
    destruct (element_data_isotope _ _ _ _ _ _ Hin Hr)
      as (_ & iso & _ & _ & _ & -> & Hrec).
    now destruct Hrec as (-> & _).
Qed.

Lemma output_keys_match_fields_witness :
  data_symbol sample_Mu_data = "Mu" /\
  (exists el, el ∈ sample_elements /\ out_symbol (symbol el) = "Mu"
              /\ number el = data_Z sample_Mu_data) /\
  (forall A r, (A, r) ∈ data_isotopes sample_Mu_data -> rec_A r = A).
Proof.
  apply (output_keys_match_fields sample_nmr sample_elements "Mu" sample_Mu_data).
  rewrite sample_run. unfold sample_output. elem_tac.
Defined.

Lemma fold_element_step_omap nmr_data els : forall acc,
  NoDup (dict_keys acc ++ ((fun e => out_symbol (symbol e)) <$> els)) ->
  fold_left (element_step nmr_data) els acc
  = acc ++ omap (fun el => (fun d => (out_symbol (symbol el), d))
                             <$> compile_element nmr_data el) els.
Proof.
  induction els as [|x l IH]; intros acc Hnd; [simpl; now rewrite app_nil_r|].
  rewrite fmap_cons in Hnd. simpl. unfold element_step at 2.
  destruct (compile_element nmr_data x) as [d|] eqn:Hc; simpl.
  - pose proof (compile_element_Some _ _ _ Hc) as [_ Hd].
    replace (data_symbol d) with (out_symbol (symbol x)) by now rewrite Hd.
    rewrite dict_set_fresh.
    + rewrite IH; [now rewrite <- app_assoc|].
      unfold dict_keys. rewrite fmap_app, <- app_assoc. exact Hnd.
    + apply NoDup_app in Hnd as (_ & H & _). intros Hin.
      apply (H _ Hin). apply elem_of_cons. now left.
  - apply IH. apply NoDup_app in Hnd as (H1 & H2 & H3).
    apply NoDup_cons in H3 as [_ H3]. apply NoDup_app. repeat split; auto.
    intros k Hk Hin. apply (H2 k Hk). apply elem_of_cons. now right.
Qed.

(** X7. When the output symbols of the table are distinct, the output is the
    list, in source order, of the records of the elements that are not
    skipped, each under its output symbol: the elements do not affect one
    another. *)
Theorem element_data_in_source_order nmr_data els :
  NoDup ((fun e => out_symbol (symbol e)) <$> els) ->
  element_data nmr_data els
  = omap (fun el => (fun d => (out_symbol (symbol el), d))
                      <$> compile_element nmr_data el) els.
Proof.
  intros Hnd. unfold element_data. now rewrite fold_element_step_omap.
Qed.

Lemma element_data_in_source_order_witness :
  element_data sample_nmr sample_elements
  = omap (fun el => (fun d => (out_symbol (symbol el), d))
                      <$> compile_element sample_nmr el) sample_elements.
Proof.
  apply (element_data_in_source_order sample_nmr sample_elements).
  apply (bool_decide_unpack _). vm_compute. exact I.
Defined.

Lemma fold_element_step_keep nmr_data l k d : forall acc,
  dict_get acc k = Some d ->
  (forall el, el ∈ l -> out_symbol (symbol el) = k ->
     compile_element nmr_data el = None) ->
  dict_get (fold_left (element_step nmr_data) l acc) k = Some d.
Proof.
  induction l as [|x l IH]; intros acc Hget Hl; [assumption|].
  simpl. apply IH.
  - unfold element_step. destruct (compile_element nmr_data x) as [dx|] eqn:Hc;
      [|assumption].
    pose proof (compile_element_Some _ _ _ Hc) as [_ Hd].
    rewrite dict_get_set_ne; [assumption|].
    intros ->. rewrite Hd in Hc. simpl in Hc.
    rewrite Hl in Hc; [discriminate|apply elem_of_cons; now left|now rewrite Hd].
  - intros el Hel. apply Hl. apply elem_of_cons. now right.
Qed.

(** X8. No symbol is twice a key of the output, and when several elements
    have the same output symbol (as the neutron and an element called [Mu]
    would), the entry under it is the record of the last of them that is not
    skipped. *)
Theorem repeated_symbol_last_wins nmr_data l1 el l2 data :
  compile_element nmr_data el = Some data ->
  (forall el', el' ∈ l2 -> out_symbol (symbol el') = out_symbol (symbol el) ->
     compile_element nmr_data el' = None) ->
  dict_get (element_data nmr_data (l1 ++ el :: l2)) (out_symbol (symbol el)) = Some data /\
  NoDup (dict_keys (element_data nmr_data (l1 ++ el :: l2))).
Proof.
  intros Hc Hl2. split; [|apply element_data_NoDup].
  unfold element_data. rewrite fold_left_app. simpl.
  apply fold_element_step_keep; [|assumption].
  unfold element_step at 1. rewrite Hc.
  pose proof (compile_element_Some _ _ _ Hc) as [_ Hd].
  replace (data_symbol data) with (out_symbol (symbol el)) by now rewrite Hd.
  apply dict_get_set_eq.
Qed.

Lemma repeated_symbol_last_wins_witness :
  dict_get (element_data sample_nmr ([sample_n] ++ sample_Mu :: [sample_H])) "Mu"
  = Some sample_Mu_second /\
  NoDup (dict_keys (element_data sample_nmr ([sample_n] ++ sample_Mu :: [sample_H]))).
Proof.
  apply (repeated_symbol_last_wins sample_nmr [sample_n] sample_Mu [sample_H]
           sample_Mu_second).
  - vm_compute. reflexivity.
  - intros el' Hel Hs. apply list_elem_of_singleton in Hel as ->.
    vm_compute in Hs. discriminate Hs.
Defined.

(** X9. The entry of the NMR table under [n] is never read: the neutron is
    looked up under [Mu], and the output is the same whatever the table holds
    under [n]. *)
Theorem neutron_nmr_entry_unused nmr_data els x :
  element_data (<["n" := x]> nmr_data) els = element_data nmr_data els /\
  element_data (delete "n" nmr_data) els = element_data nmr_data els.
Proof.
  assert (H : forall nmr', (forall k, k <> "n" -> nmr' !! k = nmr_data !! k) ->
                element_data nmr' els = element_data nmr_data els).
  { intros nmr' Hk. unfold element_data. generalize (@nil (string * ElementRecord)).
    induction els as [|el l IH]; intros acc; [reflexivity|].
    simpl. rewrite IH. f_equal. unfold element_step, compile_element.
    now rewrite (Hk _ (out_symbol_not_n (symbol el))). }
  split; apply H; intros k Hk.
  - now apply lookup_insert_ne.
  - now apply lookup_delete_ne.
Qed.

(** The neutron's record is replaced when a later element is called [Mu]. *)
Example sample_neutron_replaced :
  element_data sample_nmr [sample_n; sample_Mu; sample_H]
  = [("Mu", sample_Mu_second); ("H", sample_H_data)].
Proof. vm_compute. reflexivity. Qed.

(** ** The pointers of an emitted element *)

Example sample_compile_Z : compile_element sample_nmr sample_Z = Some sample_Z_data.
Proof. vm_compute. reflexivity. Qed.

(** No isotope, stored or not, is more abundant than the running overall
    maximum. *)
Lemma iso_step_abundance_le sym nmr st iso :
  maxima_bounded st ->
  (num_val (abundance iso) <= num_val (most_iso_ab (iso_step sym nmr st iso)))%Q.
Proof.
  intros Hb. destruct (Hb Overall) as (H0 & _).
  destruct (Hb NMRActive) as (_ & HleN & _). cbn [ptr_ab] in H0, HleN.
  destruct (num_eqb (abundance iso) (PyInt 0)) eqn:Hz.
  - rewrite iso_step_zero by assumption. apply num_eqb_eq in Hz. rewrite Hz. exact H0.
  - destruct (retention st (abundance iso)
                (default ∅ (nmr !! str (isotope iso)) !! "I")) as [spin|] eqn:Hr.
    + destruct (iso_step_record sym nmr st iso spin Hz Hr) as (r & _ & _ & _ & Hc).
      specialize (Hc Overall). cbn [qualifies] in Hc. rewrite andb_true_r in Hc.
      destruct (num_gtb (abundance iso) (ptr_ab Overall st)) eqn:E;
        apply pair_equal_spec in Hc as [_ Hc]; cbn [ptr_ab] in Hc; rewrite Hc.
      * apply Qle_refl.
      * apply num_ltb_ge in E. exact E.
    + rewrite (iso_step_discard sym _ _ _ Hr). unfold retention in Hr.
      destruct (default ∅ (nmr !! str (isotope iso)) !! "I"); [discriminate|].
      destruct (num_ltb _ _) eqn:Hlt; [|discriminate].
      apply num_ltb_lt in Hlt. rewrite py_min_val in Hlt.
      apply Q.min_glb_lt_iff in Hlt as [HN _].
      apply Qlt_le_weak. eapply Qlt_le_trans; [exact HN|exact HleN].
Qed.

Lemma scan_abundance_le sym nmr isos iso : forall st,
  maxima_bounded st -> iso ∈ isos ->
  (num_val (abundance iso) <= num_val (most_iso_ab (scan sym nmr isos st)))%Q.
Proof.
  induction isos as [|x l IH]; intros st Hb Hin; [inversion Hin|].
  rewrite scan_cons. apply elem_of_cons in Hin as [->|Hin].
  - eapply Qle_trans; [apply (iso_step_abundance_le sym nmr st x Hb)|].
    apply (scan_ptr_ab_mono sym nmr l Overall).
  - apply IH; [now apply iso_step_maxima_bounds|assumption].
Qed.

(** X10. An emitted element lacks [maxiso] only when its most abundant isotope
    has mass number 0, which [str(most_iso) if most_iso else None] takes for
    no isotope at all: when [maxiso] is [None] (mass numbers distinct), a
    source isotope of mass number 0 is at least as abundant as every isotope
    of the element, and it is its record that is stored under the key 0.
    With no mass number 0 among the isotopes, [maxiso] is always the key of a
    stored isotope. *)
Theorem maxiso_missing_only_for_mass_zero nmr_data el data :
  compile_element nmr_data el = Some data ->
  (NoDup (isotope <$> el_isotopes el) -> maxiso data = None ->
   exists x r,
     x ∈ el_isotopes el /\ isotope x = 0%Z /\
     (forall iso, iso ∈ el_isotopes el ->
        (num_val (abundance iso) <= num_val (abundance x))%Q) /\
     dict_get (data_isotopes data) 0%Z = Some r /\
     r = record_of (out_symbol (symbol el))
           (default ∅ (nmr_data !! out_symbol (symbol el))) x) /\
  ((forall iso, iso ∈ el_isotopes el -> isotope iso <> 0%Z) ->
   exists A, maxiso data = Some (str A) /\ A ∈ dict_keys (data_isotopes data)).
Proof.
  intros Hc. destruct (compile_element_ptr _ _ _ Overall Hc) as [Hp Hi].
  cbn [data_ptr ptr] in Hp. split.
  - intros Hnd Hnone. rewrite Hp in Hnone. rewrite Hi.
    destruct (max_inv_scan Overall (out_symbol (symbol el))
                (default ∅ (nmr_data !! out_symbol (symbol el))) _ Hnd)
      as (_ & _ & Hptr).
    cbn [ptr ptr_ab] in Hptr.
    destruct (most_iso _) as [a|] eqn:E.
    2:{ apply compile_element_None in E. congruence. }
    cbn [pointer] in Hnone. destruct (decide (a = 0%Z)) as [->|]; [|discriminate].
    destruct (Hptr 0%Z eq_refl)
      as (pre & x & post & r & Hsplit & Hx & Hr & _ & Hrab & Hab & _).
    assert (Hxin : x ∈ el_isotopes el).
    { rewrite Hsplit. apply elem_of_app. right. apply elem_of_cons. now left. }
    exists x, r. split; [exact Hxin|]. split; [exact Hx|]. split; [|split].
    + intros iso Hin. rewrite <- Hab, Hrab.
      apply scan_abundance_le; [apply maxima_bounded_init|exact Hin].
    + exact Hr.
    + apply dict_get_elem in Hr.
      apply scan_elem in Hr as [Hr|(iso & Hin & Hk & Hrec)]; [inversion Hr|].
      assert (Heq : iso = x).
      { apply (NoDup_fmap_elem_inj isotope (el_isotopes el)); try assumption.
        congruence. }
      rewrite <- Heq. now apply recorded_record_of.
  - intros Hnz. rewrite Hp, Hi.
    destruct (most_iso _) as [a|] eqn:E.
    2:{ apply compile_element_None in E. congruence. }
    assert (Hk : a ∈ dict_keys (isotopes
               (scan (out_symbol (symbol el))
                  (default ∅ (nmr_data !! out_symbol (symbol el)))
                  (el_isotopes el) init_state))).
    { apply (scan_ptr_key _ _ _ init_state) with (c := Overall); [|exact E].
      intros c' a' H'. destruct c'; discriminate. }
    exists a. cbn [pointer]. destruct (decide (a = 0%Z)) as [->|].
    + exfalso. apply scan_keys in Hk as [Hk|Hk]; [inversion Hk|].
      apply list_elem_of_fmap in Hk as (iso & Hiso & Hin). now apply (Hnz iso Hin).
    + split; [reflexivity|exact Hk].
Qed.

Lemma maxiso_missing_only_for_mass_zero_witness :
  (exists x r,
     x ∈ el_isotopes sample_Z /\ isotope x = 0%Z /\
     (forall iso, iso ∈ el_isotopes sample_Z ->
        (num_val (abundance iso) <= num_val (abundance x))%Q) /\
     dict_get (data_isotopes sample_Z_data) 0%Z = Some r /\
     r = record_of (out_symbol (symbol sample_Z))
           (default ∅ (sample_nmr !! out_symbol (symbol sample_Z))) x) /\
  (exists A, maxiso sample_H_data = Some (str A) /\
             A ∈ dict_keys (data_isotopes sample_H_data)).
Proof.
  split.
  - refine (proj1 (maxiso_missing_only_for_mass_zero sample_nmr sample_Z sample_Z_data
                     _) _ _).
    + vm_compute. reflexivity.
    + apply (bool_decide_unpack _). vm_compute. exact I.
    + reflexivity.
  - refine (proj2 (maxiso_missing_only_for_mass_zero sample_nmr sample_H sample_H_data
                     _) _).
    + vm_compute. reflexivity.
    + intros iso Hi. unfold sample_H, el_isotopes in Hi.
      repeat (apply elem_of_cons in Hi as [->|Hi]); [discriminate..|inversion Hi].
Defined.

(** ** The order of the stored isotopes *)

(** X11. The isotopes stored for an element are a selection of its isotopes of
    nonzero abundance, in source order, each under its mass number with the
    record of lines 70-77 (mass numbers distinct). *)
Theorem stored_in_source_order sym nmr isos :
  NoDup (isotope <$> isos) ->
  exists kept,
    sublist kept (List.filter nonzero isos) /\
    isotopes (scan sym nmr isos init_state)
    = (fun iso => (isotope iso, record_of sym nmr iso)) <$> kept.
Proof.
  intros Hnd.
  assert (H : forall st, NoDup (dict_keys (isotopes st) ++ (isotope <$> isos)) ->
    exists kept, sublist kept (List.filter nonzero isos) /\
      isotopes (scan sym nmr isos st)
      = isotopes st ++ ((fun iso => (isotope iso, record_of sym nmr iso)) <$> kept)).
  { clear Hnd. induction isos as [|x l IH]; intros st Hnd.
    - exists []. split; [constructor|]. simpl. now rewrite app_nil_r.
    - rewrite scan_cons. rewrite fmap_cons in Hnd. cbn [List.filter].
      destruct (iso_step_stored_or_not sym nmr st x) as [E|(Hnz & Hiso & _)].
      + rewrite E. destruct (IH st) as (kept & Hsub & Heq).
        { apply NoDup_app in Hnd as (H1 & H2 & H3).
          apply NoDup_cons in H3 as [_ H3]. apply NoDup_app. repeat split; auto.
          intros k Hk Hin. apply (H2 k Hk). apply elem_of_cons. now right. }
        exists kept. split; [|exact Heq].
        destruct (nonzero x); [now apply sublist_cons|assumption].
      + assert (Hst : isotopes (iso_step sym nmr st x)
                      = isotopes st ++ [(isotope x, record_of sym nmr x)]).
        { rewrite Hiso. apply dict_set_fresh.
          apply NoDup_app in Hnd as (_ & Hd & _). intros Hin.
          apply (Hd _ Hin). apply elem_of_cons. now left. }
        destruct (IH (iso_step sym nmr st x)) as (kept & Hsub & Heq).
        { rewrite Hst. unfold dict_keys. rewrite fmap_app, <- app_assoc. exact Hnd. }
        exists (x :: kept). rewrite Hnz. split; [now apply sublist_skip|].
        rewrite Heq, Hst, fmap_cons, <- app_assoc. reflexivity. }
  apply (H init_state). exact Hnd.
Qed.

Lemma stored_in_source_order_witness :
  exists kept,
    sublist kept (List.filter nonzero (el_isotopes sample_H)) /\
    isotopes (scan "H" (default ∅ (sample_nmr !! "H")) (el_isotopes sample_H) init_state)
    = (fun iso => (isotope iso, record_of "H" (default ∅ (sample_nmr !! "H")) iso))
        <$> kept.
Proof.
  apply (stored_in_source_order "H" (default ∅ (sample_nmr !! "H"))
           (el_isotopes sample_H)).
  apply (bool_decide_unpack _). vm_compute. exact I.
Defined.

(** ** The pointers in the parsed JSON *)

Lemma py_get_str_keys {K V : Type} `{EqDecision K}
    (g : K -> string) (f : V -> pyval) (d : dict K V) (k : K) :
  (forall a b, g a = g b -> a = b) ->
  py_get (map (fun kv => (KStr (g (fst kv)), f (snd kv))) d) (KStr (g k))
  = f <$> dict_get d k.
Proof.
  intros Hinj. induction d as [|[k' v] d IH]; [reflexivity|].
  cbn [map py_get fst snd dict_get key_eqb].
  destruct (decide (k' = k)) as [->|Hne].
  - now rewrite String.eqb_refl.
  - destruct (String.eqb_spec (g k') (g k)) as [E|_]; [destruct Hne; auto|exact IH].
Qed.

(** X12. In what [json.loads] makes of the printed JSON, a pointer of an
    element is itself a key of that element's [isotopes]: looking up the
    element, then its pointer, then [isotopes] under that pointer, gives the
    record of a stored isotope, whose mass number the pointer spells. *)
Theorem pointer_indexes_parsed_isotopes nmr_data els sym data c s :
  floats_ok (py_element_data (element_data nmr_data els)) ->
  dict_get (element_data nmr_data els) sym = Some data ->
  data_ptr c data = Some s ->
  exists loaded e isos A r,
    json_loads (jsonstr nmr_data els) = Some loaded /\
    py_index loaded (KStr sym) = Some e /\
    py_index e (KStr (ptr_field c)) = Some (PStr s) /\
    py_index e (KStr "isotopes") = Some isos /\
    py_index isos (KStr s) = Some (py_isotope r) /\
    s = str A /\
    dict_get (data_isotopes data) A = Some r.
Proof.
  intros Hf Hget Hs.
  pose proof (dict_get_elem _ _ _ Hget) as Hin.
  destruct (element_data_elem _ _ _ _ Hin) as (el & _ & Hc & _).
  destruct (data_ptr_key _ _ _ c s Hc Hs) as (A & HsA & _ & HA).
  apply dict_keys_get in HA as [r Hr].
  exists (py_element_data_loaded (element_data nmr_data els)),
         (py_element_loaded data),
         (PDict (map (fun kv => (KStr (str (fst kv)), py_isotope (snd kv)))
                   (data_isotopes data))), A, r.
  split; [|split; [|split; [|split; [|split; [|split]]]]].
  - unfold jsonstr. rewrite json_loads_dumps, strkeys_element_data; try assumption;
      [reflexivity|].
    apply keys_ok_element_data; [apply element_data_NoDup|].
    intros sym' data'. apply element_data_isotopes_NoDup.
  - unfold py_element_data_loaded, py_index.
    etransitivity;
      [apply (py_get_str_keys (fun x : string => x) py_element_loaded _ sym); auto|].
    now rewrite Hget.
  - destruct c; cbn [data_ptr] in Hs; unfold py_element_loaded; rewrite Hs;
      reflexivity.
  - reflexivity.
  - rewrite HsA. unfold py_index.
    etransitivity; [apply (py_get_str_keys str py_isotope _ A), str_inj|].
    now rewrite Hr.
  - exact HsA.
  - exact Hr.
Qed.

Lemma pointer_indexes_parsed_isotopes_witness :
  exists loaded e isos A r,
    json_loads (jsonstr sample_nmr sample_elements) = Some loaded /\
    py_index loaded (KStr "H") = Some e /\
    py_index e (KStr (ptr_field Quadrupolar)) = Some (PStr "2") /\
    py_index e (KStr "isotopes") = Some isos /\
    py_index isos (KStr "2") = Some (py_isotope r) /\
    "2" = str A /\
    dict_get (data_isotopes sample_H_data) A = Some r.
Proof.
  apply (pointer_indexes_parsed_isotopes sample_nmr sample_elements "H" sample_H_data
           Quadrupolar "2").
  - vm_compute. repeat split; reflexivity.
  - vm_compute. reflexivity.
  - vm_compute. reflexivity.
Defined.

(** ** A table with nothing to emit *)

(** X13. When every isotope of every element has abundance 0 (or the table is
    empty), nothing is emitted: the JSON is the empty object and the script
    prints a module that exports it. *)
Theorem all_zero_table_prints_empty_object nmr_data els :
  Forall (fun el => Forall (fun iso => (num_val (abundance iso) == 0)%Q)
                      (el_isotopes el)) els ->
  element_data nmr_data els = [] /\
  jsonstr nmr_data els = "{}" /\
  program_output nmr_data els
  = ("const nmrData = {};" ++ newline ++ newline
     ++ "export default nmrData;" ++ newline ++ newline)%string.
Proof.
  intros Hz.
  assert (He : element_data nmr_data els = []).
  { assert (H : forall acc, fold_left (element_step nmr_data) els acc = acc).
    { induction Hz as [|el l Hel _ IH]; intros acc; [reflexivity|].
      simpl. unfold element_step at 2.
      replace (compile_element nmr_data el) with (@None ElementRecord); [apply IH|].
      symmetry. apply compile_element_None. now rewrite scan_zero. }
    apply H. }
  unfold program_output, jsonstr. rewrite He. repeat split; reflexivity.
Qed.

Lemma all_zero_table_prints_empty_object_witness :
  element_data sample_nmr [sample_Tc] = [] /\
  jsonstr sample_nmr [sample_Tc] = "{}" /\
  program_output sample_nmr [sample_Tc]
  = ("const nmrData = {};" ++ newline ++ newline
     ++ "export default nmrData;" ++ newline ++ newline)%string.
Proof.
  apply (all_zero_table_prints_empty_object sample_nmr [sample_Tc]).
  constructor; [|constructor]. constructor; [reflexivity|constructor].
Defined.

(** ** What the loop never undoes *)

Lemma iso_step_ptr_stays sym nmr st iso c a :
  ptr c st = Some a -> exists b, ptr c (iso_step sym nmr st iso) = Some b.
Proof.
  intros Ha. destruct (iso_step_stored_or_not sym nmr st iso) as [->|(_ & _ & Hp)];
    [eauto|].
  specialize (Hp c). destruct (_ && _); apply pair_equal_spec in Hp as [Hp _];
    rewrite Hp; eauto.
Qed.

Lemma scan_ptr_stays sym nmr isos c : forall st a,
  ptr c st = Some a -> exists b, ptr c (scan sym nmr isos st) = Some b.
Proof.
  induction isos as [|x l IH]; intros st a Ha; [eauto|].
  rewrite scan_cons. destruct (iso_step_ptr_stays sym nmr st x c a Ha) as [b Hb].
  apply (IH _ b Hb).
Qed.

(** X14. From any state, the loop only adds: a key of [isotopes] stays a key,
    the record under a mass number that does not come again stays the same,
    no running abundance decreases and a pointer that is set stays set. *)
Theorem loop_only_adds sym nmr isos st :
  let st' := scan sym nmr isos st in
  (forall k, k ∈ dict_keys (isotopes st) -> k ∈ dict_keys (isotopes st')) /\
  (forall k, k ∉ isotope <$> isos ->
     dict_get (isotopes st') k = dict_get (isotopes st) k) /\
  (forall c, (num_val (ptr_ab c st) <= num_val (ptr_ab c st'))%Q) /\
  (forall c a, ptr c st = Some a -> exists b, ptr c st' = Some b).
Proof.
  cbv zeta. repeat split.
  - intros k. apply scan_keys_mono.
  - intros k. apply scan_get_other.
  - intros c. apply scan_ptr_ab_mono.
  - intros c a. apply scan_ptr_stays.
Qed.

(** X15. An isotope of nonzero abundance that is missing from the stored
    isotopes has no spin in the table, and its abundance is below both the
    final NMR-active maximum and the final quadrupolar maximum; when it is not
    negative, both [most_NMR_iso] and [most_Q_iso] are set (mass numbers
    distinct). *)
Theorem omitted_isotope_below_both_maxima sym nmr isos iso :
  NoDup (isotope <$> isos) ->
  iso ∈ isos ->
  ~ (num_val (abundance iso) == 0)%Q ->
  dict_get (isotopes (scan sym nmr isos init_state)) (isotope iso) = None ->
  let st := scan sym nmr isos init_state in
  default ∅ (nmr !! str (isotope iso)) !! "I" = None /\
  (num_val (abundance iso) < num_val (most_NMR_iso_ab st))%Q /\
  (num_val (abundance iso) < num_val (most_Q_iso_ab st))%Q /\
  ((0 <= num_val (abundance iso))%Q ->
   exists a b, most_NMR_iso st = Some a /\ most_Q_iso st = Some b).
Proof.
  intros Hnd Hin Hnz Hget. cbv zeta.
  pose proof (scan_maxima_bounds sym nmr isos init_state maxima_bounded_init) as Hb.
  apply list_elem_of_split in Hin as (pre & post & ->).
  rewrite scan_get_at in Hget by assumption.
  rewrite scan_app, scan_cons in Hb |- *.
  set (s0 := scan sym nmr pre init_state) in *.
  assert (Hz : nonzero iso = true).
  { unfold nonzero. apply negb_true_iff, num_eqb_neq. exact Hnz. }
  destruct (retention s0 (abundance iso) (default ∅ (nmr !! str (isotope iso)) !! "I"))
    as [sp|] eqn:Hr.
  { rewrite iso_step_stored_get in Hget; [discriminate|assumption|congruence]. }
  pose proof (iso_step_discard sym _ _ _ Hr) as Hstep. rewrite Hstep in Hb |- *.
  unfold retention in Hr.
  destruct (default ∅ (nmr !! str (isotope iso)) !! "I"); [discriminate|].
  destruct (num_ltb _ _) eqn:Hlt; [|discriminate].
  apply num_ltb_lt in Hlt. rewrite py_min_val in Hlt.
  apply Q.min_glb_lt_iff in Hlt as [HN HQ].
  assert (HN' : (num_val (abundance iso)
                 < num_val (most_NMR_iso_ab (scan sym nmr post s0)))%Q).
  { eapply Qlt_le_trans; [exact HN|]. apply (scan_ptr_ab_mono sym nmr post NMRActive). }
  assert (HQ' : (num_val (abundance iso)
                 < num_val (most_Q_iso_ab (scan sym nmr post s0)))%Q).
  { eapply Qlt_le_trans; [exact HQ|]. apply (scan_ptr_ab_mono sym nmr post Quadrupolar). }
  repeat split; try assumption.
  intros H0.
  destruct (Hb NMRActive) as (_ & _ & HnN & _).
  destruct (Hb Quadrupolar) as (_ & _ & HnQ & _).
  cbn [ptr ptr_ab] in HnN, HnQ.
  destruct (most_NMR_iso (scan sym nmr post s0)) as [a|].
  - destruct (most_Q_iso (scan sym nmr post s0)) as [b|]; [eauto|].
    exfalso. rewrite (HnQ eq_refl) in HQ'.
    apply (Qlt_irrefl 0). eapply Qle_lt_trans; eassumption.
  - exfalso. rewrite (HnN eq_refl) in HN'.
    apply (Qlt_irrefl 0). eapply Qle_lt_trans; eassumption.
Qed.

Lemma omitted_isotope_below_both_maxima_witness :
  default ∅ (default ∅ (sample_nmr !! "T") !! str 102) !! "I" = None /\
  (0.5 < num_val (most_NMR_iso_ab
                    (scan "T" (default ∅ (sample_nmr !! "T")) sample_trace init_state)))%Q /\
  (0.5 < num_val (most_Q_iso_ab
                    (scan "T" (default ∅ (sample_nmr !! "T")) sample_trace init_state)))%Q /\
  exists a b,
    most_NMR_iso (scan "T" (default ∅ (sample_nmr !! "T")) sample_trace init_state)
    = Some a /\
    most_Q_iso (scan "T" (default ∅ (sample_nmr !! "T")) sample_trace init_state)
    = Some b.
Proof.
  destruct (omitted_isotope_below_both_maxima "T" (default ∅ (sample_nmr !! "T"))
              sample_trace
              {| mass := PyFloat 102.5; isotope := 102; abundance := PyFloat 0.5 |})
    as (H1 & H2 & H3 & H4).
  - apply (bool_decide_unpack _). vm_compute. exact I.
  - unfold sample_trace. elem_tac.
  - discriminate.
  - vm_compute. reflexivity.
  - repeat split; try assumption. apply H4. discriminate.
Defined.

(** ** The fields the loop copies *)

(** X16. In a stored isotope record, [gamma] and [Q] are what the NMR table
    holds for the output symbol and the mass number, and [None] when it holds
    nothing: unlike [spin] they get no default.  Outside [Mu], mass and
    abundance are those of an isotope of a source element of that symbol. *)
Theorem gamma_and_Q_copied_from_table nmr_data els sym data A r :
  (sym, data) ∈ element_data nmr_data els ->
  (A, r) ∈ data_isotopes data ->
  let iso_nmr := default ∅ (default ∅ (nmr_data !! sym) !! str A) in
  rec_gamma r = iso_nmr !! "gamma" /\
  rec_Q r = iso_nmr !! "Q" /\
  (sym <> "Mu" ->
   exists el iso, el ∈ els /\ symbol el = sym /\ iso ∈ el_isotopes el /\
     isotope iso = A /\ rec_mass r = mass iso /\ rec_abundance r = abundance iso).
Proof.
  intros Hin Hr. cbv zeta.
  destruct (element_data_isotope _ _ _ _ _ _ Hin Hr)
    as (el & iso & Hel & Hsym & Hiso & -> & Hrec).
  unfold recorded in Hrec. cbv zeta in Hrec.
  destruct Hrec as (_ & Hmass & Hab & _ & _ & Hg & HQ).
  repeat split; try assumption.
  intros Hne. exists el, iso. repeat split; try assumption.
  - unfold out_symbol in Hsym. destruct (decide (symbol el = "n")); congruence.
  - destruct (decide (sym = "Mu")); [contradiction|assumption].
Qed.

Lemma gamma_and_Q_copied_from_table_witness :
  @None pynum = default ∅ (default ∅ (sample_nmr !! "X") !! str 11) !! "gamma" /\
  @None pynum = default ∅ (default ∅ (sample_nmr !! "X") !! str 11) !! "Q" /\
  exists el iso, el ∈ sample_elements /\ symbol el = "X" /\ iso ∈ el_isotopes el /\
    isotope iso = 11%Z /\ PyFloat 11.0093 = mass iso /\ PyFloat 0.9 = abundance iso.
Proof.
  destruct (gamma_and_Q_copied_from_table sample_nmr sample_elements "X" sample_X_data
              11%Z
              {| rec_A := 11; rec_mass := PyFloat 11.0093; rec_abundance := PyFloat 0.9;
                 rec_spin := Some (PyInt 0); rec_gamma := None; rec_Q := None |})
    as (H1 & H2 & H3).
  - rewrite sample_run. unfold sample_output. elem_tac.
  - unfold sample_X_data, data_isotopes. elem_tac.
  - repeat split; try assumption. apply H3. discriminate.
Defined.

(** ** Which elements are emitted *)

Lemma iso_step_first_positive sym nmr st iso :
  maxima_bounded st -> most_iso st = None ->
  (0 < num_val (abundance iso))%Q ->
  most_iso (iso_step sym nmr st iso) = Some (isotope iso).
Proof.
  intros Hb Hn Hpos.
  assert (H0 : most_iso_ab st = PyInt 0).
  { destruct (Hb Overall) as (_ & _ & H & _). now apply H. }
  assert (Hz : num_eqb (abundance iso) (PyInt 0) = false).
  { apply num_eqb_neq. intros E. rewrite E in Hpos. now apply Qlt_irrefl in Hpos. }
  assert (Hr : exists spin,
    retention st (abundance iso)
      (default ∅ (nmr !! str (isotope iso)) !! "I") = Some spin).
  { unfold retention. destruct (_ !! "I"); [eauto|].
    assert (E : num_ltb (abundance iso)
                  (py_min (most_NMR_iso_ab st) (most_Q_iso_ab st)) = false).
    { apply num_ltb_ge. rewrite py_min_val.
      eapply Qle_trans; [apply Q.le_min_l|].
      destruct (Hb NMRActive) as (_ & Hle & _). cbn [ptr_ab] in Hle.
      rewrite H0 in Hle. eapply Qle_trans; [exact Hle|]. now apply Qlt_le_weak. }
    rewrite E. eauto. }
  destruct Hr as [spin Hr].
  destruct (iso_step_record sym nmr st iso spin Hz Hr) as (r & _ & _ & _ & Hc).
  specialize (Hc Overall). simpl in Hc. rewrite H0 in Hc.
  assert (E : num_gtb (abundance iso) (PyInt 0) = true) by now apply num_ltb_lt.
  rewrite E in Hc. simpl in Hc. now injection Hc as -> _.
Qed.

Lemma scan_first_positive sym nmr isos : forall st,
  maxima_bounded st ->
  most_iso (scan sym nmr isos st) = None ->
  Forall (fun iso => (num_val (abundance iso) <= 0)%Q) isos.
Proof.
  induction isos as [|x l IH]; intros st Hb Hn; [constructor|].
  rewrite scan_cons in Hn.
  assert (Hs : most_iso (iso_step sym nmr st x) = None).
  { destruct (most_iso (iso_step sym nmr st x)) eqn:E; [|reflexivity].
    exfalso. revert Hn. apply scan_most_iso. congruence. }
  assert (Hst : most_iso st = None).
  { destruct (most_iso st) eqn:E; [|reflexivity].
    exfalso. revert Hs. apply iso_step_most_iso. congruence. }
  constructor.
  - destruct (Qlt_le_dec 0 (num_val (abundance x))) as [Hp|Hle]; [|exact Hle].
    rewrite (iso_step_first_positive sym nmr st x Hb Hst Hp) in Hs. discriminate.
  - apply (IH (iso_step sym nmr st x)); [now apply iso_step_maxima_bounds|assumption].
Qed.

Lemma scan_nonpositive sym nmr isos : forall st,
  (0 <= num_val (most_iso_ab st))%Q ->
  Forall (fun iso => (num_val (abundance iso) <= 0)%Q) isos ->
  most_iso (scan sym nmr isos st) = most_iso st.
Proof.
  induction isos as [|x l IH]; intros st H0 Hf; [reflexivity|].
  apply Forall_cons in Hf as [Hx Hl]. rewrite scan_cons.
  assert (Hp : most_iso (iso_step sym nmr st x) = most_iso st /\
               most_iso_ab (iso_step sym nmr st x) = most_iso_ab st).
  { destruct (iso_step_stored_or_not sym nmr st x) as [->|(_ & _ & Hp)]; [auto|].
    specialize (Hp Overall).
    assert (E : num_gtb (abundance x) (ptr_ab Overall st) = false).
    { apply num_ltb_ge. eapply Qle_trans; eassumption. }
    rewrite E in Hp. simpl in Hp. injection Hp as -> ->. auto. }
  destruct Hp as [Hp1 Hp2].
  rewrite IH; [exact Hp1|rewrite Hp2; exact H0|exact Hl].
Qed.

(** X17. An element is skipped exactly when none of its isotopes has a
    positive abundance, whatever the NMR table says: an abundance below 0
    counts for nothing, even where its isotope is stored. *)
Theorem element_skipped_iff_no_positive_abundance nmr_data el :
  compile_element nmr_data el = None <->
  Forall (fun iso => (num_val (abundance iso) <= 0)%Q) (el_isotopes el).
Proof.
  rewrite compile_element_None. split.
  - apply scan_first_positive, maxima_bounded_init.
  - intros Hf. rewrite scan_nonpositive; [reflexivity|apply Qle_refl|exact Hf].
Qed.

(** ** A mass number that comes twice *)

(** The record under a key is left alone by isotopes that either have another
    mass number or have abundance 0. *)
Lemma scan_get_unless_stored sym nmr isos k : forall st,
  (forall y, y ∈ isos -> isotope y = k -> (num_val (abundance y) == 0)%Q) ->
  dict_get (isotopes (scan sym nmr isos st)) k = dict_get (isotopes st) k.
Proof.
  induction isos as [|x l IH]; intros st Hz; [reflexivity|].
  rewrite scan_cons, IH.
  - destruct (decide (isotope x = k)) as [Hk|Hk].
    + rewrite iso_step_zero; [reflexivity|]. apply num_eqb_eq.
      apply (Hz x); [apply elem_of_cons; now left|exact Hk].
    + destruct (iso_step_stored_or_not sym nmr st x) as [->|(_ & Hd & _)];
        [reflexivity|].
      rewrite Hd. apply dict_get_set_ne. congruence.
  - intros y Hy. apply Hz. apply elem_of_cons. now right.
Qed.

(** X18. When a mass number the table has a spin for comes more than once in
    an element, the record stored under it is that of its last occurrence of
    nonzero abundance, with that occurrence's mass and abundance, whatever
    comes before it and whether or not occurrences of abundance 0 come after
    it; the keys of [isotopes] stay distinct. *)
Theorem repeated_mass_number_last_wins sym nmr pre x post s :
  (forall y, y ∈ post -> isotope y = isotope x ->
     (num_val (abundance y) == 0)%Q) ->
  ~ (num_val (abundance x) == 0)%Q ->
  default ∅ (nmr !! str (isotope x)) !! "I" = Some s ->
  dict_get (isotopes (scan sym nmr (pre ++ x :: post) init_state)) (isotope x)
  = Some (record_of sym nmr x) /\
  NoDup (dict_keys (isotopes (scan sym nmr (pre ++ x :: post) init_state))).
Proof.
  intros Hpost Hnz HI. split; [|apply scan_NoDup, NoDup_nil_2].
  rewrite scan_app, scan_cons, scan_get_unless_stored by assumption.
  apply iso_step_stored_get.
  - unfold nonzero. apply negb_true_iff, num_eqb_neq. exact Hnz.
  - unfold retention. rewrite HI. discriminate.
Qed.

Lemma repeated_mass_number_last_wins_witness :
  dict_get (isotopes (scan "H" (default ∅ (sample_nmr !! "H"))
                        (el_isotopes sample_H
                         ++ {| mass := PyFloat 1.5; isotope := 1; abundance := PyFloat 0.25 |}
                         :: [ {| mass := PyFloat 1.7; isotope := 1; abundance := PyInt 0 |};
                              {| mass := PyFloat 4.5; isotope := 4; abundance := PyFloat 0.5 |} ])
                        init_state)) 1%Z
  = Some (record_of "H" (default ∅ (sample_nmr !! "H"))
            {| mass := PyFloat 1.5; isotope := 1; abundance := PyFloat 0.25 |}) /\
  NoDup (dict_keys (isotopes (scan "H" (default ∅ (sample_nmr !! "H"))
                        (el_isotopes sample_H
                         ++ {| mass := PyFloat 1.5; isotope := 1; abundance := PyFloat 0.25 |}
                         :: [ {| mass := PyFloat 1.7; isotope := 1; abundance := PyInt 0 |};
                              {| mass := PyFloat 4.5; isotope := 4; abundance := PyFloat 0.5 |} ])
                        init_state))).
Proof.
  apply (repeated_mass_number_last_wins "H" (default ∅ (sample_nmr !! "H"))
           (el_isotopes sample_H)
           {| mass := PyFloat 1.5; isotope := 1; abundance := PyFloat 0.25 |}
           [ {| mass := PyFloat 1.7; isotope := 1; abundance := PyInt 0 |};
             {| mass := PyFloat 4.5; isotope := 4; abundance := PyFloat 0.5 |} ]
           (PyFloat 0.5)).
  - intros y Hy Hk.
    repeat (apply elem_of_cons in Hy as [->|Hy]);
      [reflexivity|discriminate Hk|inversion Hy].
  - discriminate.
  - vm_compute. reflexivity.
Defined.

(** * Ties between isotopes *)

(** C10. Ties go to the earlier isotope.  For each of the three pointers of
    an element (mass numbers distinct and not 0, abundances not negative): as
    soon as one stored isotope qualifies for the category, the element is
    emitted and its pointer is set, and the pointer names an isotope [x] of
    the source list that is stored and qualifies, such that every stored
    qualifying isotope that comes before [x] in source order is strictly less
    abundant than [x], and every one that comes after is at most as abundant.
    So [x] has the maximal abundance among the stored qualifying isotopes, and
    any other of them with that same abundance comes after [x]: of two or more
    tied at the maximum, the pointer names the first. *)
Theorem ties_go_to_the_earlier_isotope nmr_data el c A r :
  NoDup (isotope <$> el_isotopes el) ->
  (forall iso, iso ∈ el_isotopes el -> isotope iso <> 0%Z) ->
  (forall iso, iso ∈ el_isotopes el -> (0 <= num_val (abundance iso))%Q) ->
  dict_get (isotopes (loop_state nmr_data el)) A = Some r ->
  qualifies c r = true ->
  exists data s pre x post rx,
    compile_element nmr_data el = Some data /\
    data_isotopes data = isotopes (loop_state nmr_data el) /\
    data_ptr c data = Some s /\
    el_isotopes el = pre ++ x :: post /\
    s = str (isotope x) /\
    dict_get (data_isotopes data) (isotope x) = Some rx /\
    qualifies c rx = true /\
    rec_abundance rx = abundance x /\
    (num_val (rec_abundance r) <= num_val (rec_abundance rx))%Q /\
    (forall y r', y ∈ pre -> dict_get (data_isotopes data) (isotope y) = Some r' ->
       qualifies c r' = true ->
       (num_val (rec_abundance r') < num_val (rec_abundance rx))%Q) /\
    (forall y r', y ∈ post -> dict_get (data_isotopes data) (isotope y) = Some r' ->
       qualifies c r' = true ->
       (num_val (rec_abundance r') <= num_val (rec_abundance rx))%Q) /\
    (forall y r', y ∈ el_isotopes el ->
       dict_get (data_isotopes data) (isotope y) = Some r' ->
       qualifies c r' = true ->
       (num_val (rec_abundance r') == num_val (rec_abundance rx))%Q ->
       y = x \/ y ∈ post).
Proof.
  intros Hnd Hnz Hnn Hget Hq. unfold loop_state in *. cbv zeta in *.
  assert (Hpos : (0 < num_val (rec_abundance r))%Q).
  { pose proof (dict_get_elem _ _ _ Hget) as Hin.
    apply scan_elem in Hin as [Hin|(iso & Hi & _ & Hrec)]; [inversion Hin|].
    unfold recorded in Hrec. cbv zeta in Hrec.
    destruct Hrec as (_ & _ & Hab & Hz & _). rewrite Hab.
    apply num_eqb_neq in Hz. specialize (Hnn iso Hi).
    apply Qle_lteq in Hnn as [Hlt|Heq]; [exact Hlt|]. destruct Hz. now symmetry. }
  destruct (max_inv_scan c (out_symbol (symbol el))
              (default ∅ (nmr_data !! out_symbol (symbol el))) _ Hnd)
    as (_ & Hbound & Hptr).
  pose proof (Hbound A r Hget Hq) as Hle.
  pose proof (scan_maxima_bounds (out_symbol (symbol el))
                (default ∅ (nmr_data !! out_symbol (symbol el)))
                (el_isotopes el) init_state maxima_bounded_init) as Hb.
  destruct (Hb c) as (_ & HleO & Hnone & _).
  destruct (Hb Overall) as (_ & _ & HnoneO & _). cbn [ptr ptr_ab] in HnoneO.
  pose proof (Qlt_le_trans _ _ _ Hpos Hle) as Hpc.
  (* the element is emitted *)
  destruct (compile_element nmr_data el) as [data|] eqn:Hc.
  2:{ exfalso. apply compile_element_None in Hc. rewrite (HnoneO Hc) in HleO.
      apply (Qlt_irrefl 0). exact (Qlt_le_trans _ _ _ Hpc HleO). }
  destruct (compile_element_ptr _ _ _ c Hc) as [Hp Hi].
  (* its pointer is set *)
  assert (Hs : exists a, data_ptr c data = Some (str a)).
  { destruct (ptr c _) as [a|] eqn:Ha.
    - destruct (Hptr a eq_refl) as (pre & x & post & rx & Hsplit & Hx & _).
      exists a. rewrite Hp. cbn [pointer].
      destruct (decide (a = 0%Z)) as [Ha0|]; [|reflexivity].
      exfalso. apply (Hnz x); [|congruence].
      rewrite Hsplit. apply elem_of_app. right. apply elem_of_cons. now left.
    - exfalso. rewrite (Hnone eq_refl) in Hpc. now apply Qlt_irrefl in Hpc. }
  destruct Hs as [a Hs].
  destruct (data_ptr_max _ _ _ c _ Hc Hnd Hs)
    as (pre & x & post & rx & Hsplit & Hsx & Hrx & Hqx & Hab & Hmax & Hlt).
  exists data, (str a), pre, x, post, rx.
  split; [reflexivity|]. split; [exact Hi|]. split; [exact Hs|].
  split; [exact Hsplit|]. split; [exact Hsx|]. split; [exact Hrx|].
  split; [exact Hqx|]. split; [exact Hab|]. split; [|split; [exact Hlt|split]].
  - apply (Hmax A); [|exact Hq]. rewrite Hi. now apply dict_get_elem.
  - intros y r' _ Hr' Hq'. apply (Hmax (isotope y)); [|assumption].
    now apply dict_get_elem.
  - intros y r' Hy Hr' Hq' Heq. rewrite Hsplit in Hy.
    apply elem_of_app in Hy as [Hy|Hy]; [|now apply elem_of_cons in Hy].
    exfalso. pose proof (Hlt y r' Hy Hr' Hq') as Hl. rewrite Heq in Hl.
    now apply Qlt_irrefl in Hl.
Qed.

Lemma ties_go_to_the_earlier_isotope_witness :
  Forall (fun c => exists data s pre x post rx,
    compile_element sample_nmr sample_T = Some data /\
    data_isotopes data = isotopes (loop_state sample_nmr sample_T) /\
    data_ptr c data = Some s /\
    el_isotopes sample_T = pre ++ x :: post /\
    s = str (isotope x) /\
    dict_get (data_isotopes data) (isotope x) = Some rx /\
    qualifies c rx = true /\
    rec_abundance rx = abundance x /\
    (num_val (PyFloat 50.0) <= num_val (rec_abundance rx))%Q /\
    (forall y r', y ∈ pre -> dict_get (data_isotopes data) (isotope y) = Some r' ->
       qualifies c r' = true ->
       (num_val (rec_abundance r') < num_val (rec_abundance rx))%Q) /\
    (forall y r', y ∈ post -> dict_get (data_isotopes data) (isotope y) = Some r' ->
       qualifies c r' = true ->
       (num_val (rec_abundance r') <= num_val (rec_abundance rx))%Q) /\
    (forall y r', y ∈ el_isotopes sample_T ->
       dict_get (data_isotopes data) (isotope y) = Some r' ->
       qualifies c r' = true ->
       (num_val (rec_abundance r') == num_val (rec_abundance rx))%Q ->
       y = x \/ y ∈ post))
    [Overall; NMRActive; Quadrupolar].
Proof.
  repeat apply Forall_cons_2; [| | |apply Forall_nil_2].
  all: apply (ties_go_to_the_earlier_isotope sample_nmr sample_T _ 101%Z
                {| rec_A := 101; rec_mass := PyFloat 101.5;
                   rec_abundance := PyFloat 50.0; rec_spin := Some (PyFloat 0.5);
                   rec_gamma := None; rec_Q := Some (PyFloat 0.1) |});
    [apply (bool_decide_unpack _); vm_compute; exact I
    |intros iso Hi; unfold sample_T, el_isotopes in Hi;
     repeat (apply elem_of_cons in Hi as [->|Hi]); [discriminate..|inversion Hi]
    |intros iso Hi; unfold sample_T, el_isotopes in Hi;
     repeat (apply elem_of_cons in Hi as [->|Hi]); [discriminate..|inversion Hi]
    |vm_compute; reflexivity
    |reflexivity].
Defined.
